(** * The JIRA extraction pipeline: extract, transform, load

    A shallow embedding of [funcs/utils.py]:
    - [reformat_date] and the [datetime.strptime]/[strftime] calls it makes;
    - [jira_extraction], the paginated walk over the sprints of a board;
    - [transform_extracted_data], which rewrites two columns of a frame;
    - [load_extraction], which writes the frame as delimited text.

    Python objects that are shared (the data frame) live in a store and are
    passed by reference; exceptions are values of [exn]; the two
    [while True] loops take a bound on their iterations. *)

From Stdlib Require Import ZArith Lia String Ascii List.
From stdpp Require Import base tactics option list strings pretty functions.

Open Scope string_scope.
Open Scope list_scope.
Open Scope nat_scope.

(** ** Python values and exceptions *)

Module Py.

(** The objects that end up in a cell of a row: [None]/[NaN], [str], [int],
    a list of strings (the labels of an issue) and any other object that is
    not a number, kept with the text [str()] gives for it.  [VFloat z] is the
    float [float(z)]: the floats of the pipeline are the ints of a column
    that [pd.DataFrame] has turned into floats. *)
Inductive value : Type :=
| VNull
| VStr (s : string)
| VInt (n : Z)
| VFloat (z : Z)
| VList (items : list string)
| VObj (text : string).

(** The messages of the [ValueError]s the pipeline can meet, by template. *)
Inductive value_error : Type :=
| MissingCredentials
| ColumnNotFound (col : string)
| TimeDataMismatch (data : string)
| UnconvertedData (rest : string)
| InconsistentColon (z : string)
| InvalidLiteral (text : string)
| OutOfRange (what : string)
| AmbiguousTruth.

Inductive exn : Type :=
| ValueError (why : value_error)
| TypeError (msg : string)
| KeyError (key : string)
| UnboundLocalError (name : string)
| JIRAError (msg : string)
| OSError (msg : string).

Inductive result (A : Type) : Type :=
| Ok (a : A)
| Raise (e : exn).
Arguments Ok {A} a.
Arguments Raise {A} e.

Definition bind {A B} (r : result A) (f : A -> result B) : result B :=
  match r with
  | Ok a => f a
  | Raise e => Raise e
  end.

Definition value_eqb (a b : value) : bool :=
  match a, b with
  | VNull, VNull => true
  | VStr s, VStr t => String.eqb s t
  | VInt n, VInt m | VInt n, VFloat m | VFloat n, VInt m | VFloat n, VFloat m => Z.eqb n m
  | VList l, VList k => bool_decide (l = k)
  | VObj s, VObj t => String.eqb s t
  | _, _ => false
  end.

(** Truth value of an object, as [if x] and [x or y] test it. *)
Definition truthy (v : value) : bool :=
  match v with
  | VNull => false
  | VStr s => negb (String.eqb s "")
  | VInt n | VFloat n => negb (Z.eqb n 0)
  | VList l => negb (Nat.eqb (List.length l) 0)
  | VObj _ => true
  end.

(** [getattr(obj, name, default)]: an absent attribute gives the default. *)
Definition getattr (attr : option value) (dflt : value) : value :=
  match attr with
  | Some v => v
  | None => dflt
  end.

(** [x if x else default]. *)
Definition if_else (v : value) (dflt : value) : value :=
  if truthy v then v else dflt.

End Py.
Export Py.

Notation "x <- c1 ;; c2" := (Py.bind c1 (fun x => c2))
  (at level 100, c1 at next level, right associativity).

(** ** [datetime.strptime] and [strftime]

    The standard library (CPython 3.11, [_strptime.py]) compiles the format
    ["%Y-%m-%dT%H:%M:%S.%f%z"] to a regular expression, one group per
    directive, matched with backtracking and ignoring case; the groups are
    then converted and checked.  The matchers below are in continuation
    style, so that alternatives are tried in the order the expression lists
    them.  Text is ASCII: [\d] is a digit [0-9]. *)

Module Strptime.

Definition matcher (R : Type) : Type := (string -> option R) -> string -> option R.

Definition cls {R} (P : ascii -> bool) : matcher R :=
  fun k s =>
    match s with
    | String c r => if P c then k r else None
    | EmptyString => None
    end.

Definition eps {R} : matcher R := fun k s => k s.

Definition seq {R} (m1 m2 : matcher R) : matcher R := fun k => m1 (m2 k).

Definition alt {R} (m1 m2 : matcher R) : matcher R :=
  fun k s =>
    match m1 k s with
    | Some r => Some r
    | None => m2 k s
    end.

(** [m?], greedy. *)
Definition opt {R} (m : matcher R) : matcher R := alt m eps.

(** [m{1,6}], greedy. *)
Definition rep_1_6 {R} (m : matcher R) : matcher R :=
  seq m (opt (seq m (opt (seq m (opt (seq m (opt (seq m (opt m))))))))).

(** A named group: the continuation receives the text the group matched. *)
Definition group {R} (m : matcher R) (k : string -> string -> option R) : string -> option R :=
  fun s => m (fun rest => k (substring 0 (String.length s - String.length rest) s) rest) s.

Definition in_range (lo hi : ascii) (c : ascii) : bool :=
  (nat_of_ascii lo <=? nat_of_ascii c) && (nat_of_ascii c <=? nat_of_ascii hi).

Definition is_char (a : ascii) (c : ascii) : bool := Ascii.eqb a c.

Definition digit : ascii -> bool := in_range "0" "9".

Definition chr {R} (a : ascii) : matcher R := cls (is_char a).
Definition rng {R} (lo hi : ascii) : matcher R := cls (in_range lo hi).
Definition dig {R} : matcher R := cls digit.

(** [%Y]: [\d\d\d\d]. *)
Definition re_Y {R} : matcher R := seq dig (seq dig (seq dig dig)).
(** [%m]: [1[0-2]|0[1-9]|[1-9]]. *)
Definition re_m {R} : matcher R :=
  alt (seq (chr "1") (rng "0" "2")) (alt (seq (chr "0") (rng "1" "9")) (rng "1" "9")).
(** [%d]: [3[0-1]|[1-2]\d|0[1-9]|[1-9]| [1-9]]. *)
Definition re_d {R} : matcher R :=
  alt (seq (chr "3") (rng "0" "1"))
   (alt (seq (rng "1" "2") dig)
     (alt (seq (chr "0") (rng "1" "9"))
       (alt (rng "1" "9") (seq (chr " ") (rng "1" "9"))))).
(** [%H]: [2[0-3]|[0-1]\d|\d]. *)
Definition re_H {R} : matcher R :=
  alt (seq (chr "2") (rng "0" "3")) (alt (seq (rng "0" "1") dig) dig).
(** [%M]: [[0-5]\d|\d]. *)
Definition re_M {R} : matcher R := alt (seq (rng "0" "5") dig) dig.
(** [%S]: [6[0-1]|[0-5]\d|\d]. *)
Definition re_S {R} : matcher R :=
  alt (seq (chr "6") (rng "0" "1")) (alt (seq (rng "0" "5") dig) dig).
(** [%f]: [[0-9]{1,6}]. *)
Definition re_f {R} : matcher R := rep_1_6 dig.
(** [%z]: [[+-]\d\d:?[0-5]\d(:?[0-5]\d(\.\d{1,6})?)?|Z], the [Z] in upper
    case only.  [re_z_minutes] is the part from the first [:?] on,
    [re_z_seconds] the inner group [:?[0-5]\d(\.\d{1,6})?]. *)
Definition re_z_seconds {R} : matcher R :=
  seq (opt (chr ":")) (seq (rng "0" "5") (seq dig (opt (seq (chr ".") (rep_1_6 dig))))).

Definition re_z_minutes {R} : matcher R :=
  seq (opt (chr ":")) (seq (rng "0" "5") (seq dig (opt re_z_seconds))).

Definition re_z {R} : matcher R :=
  alt (seq (alt (chr "+") (chr "-")) (seq dig (seq dig re_z_minutes))) (chr "Z").

(** The groups of a match, as [found.groupdict()] gives them. *)
Record found : Type := Found {
  g_Y : string; g_m : string; g_d : string; g_H : string;
  g_M : string; g_S : string; g_f : string; g_z : string }.

(** The literal [T] of the format, matched ignoring case. *)
Definition chr_T {R} : matcher R := cls (fun c => is_char "T" c || is_char "t" c).

(** The compiled format: the continuation is called with the groups and the
    text left after the match. *)
Definition format_regex {R} (k : found -> string -> option R) : string -> option R :=
  group re_Y (fun gY => chr "-" (
  group re_m (fun gm => chr "-" (
  group re_d (fun gd => chr_T (
  group re_H (fun gH => chr ":" (
  group re_M (fun gM => chr ":" (
  group re_S (fun gS => chr "." (
  group re_f (fun gf =>
  group re_z (fun gz => k (Found gY gm gd gH gM gS gf gz))))))))))))))).

(** [format_regex.match(data_string)]: the first match in priority order,
    with the unmatched rest. *)
Definition regex_match (s : string) : option (found * string) :=
  format_regex (fun f rest => Some (f, rest)) s.

Local Open Scope Z_scope.

Definition digit_val (c : ascii) : Z := Z.of_nat (nat_of_ascii c) - 48.

Fixpoint digits_val (acc : Z) (s : string) : option Z :=
  match s with
  | EmptyString => Some acc
  | String c r => if digit c then digits_val (10 * acc + digit_val c) r else None
  end.

Fixpoint lstrip (s : string) : string :=
  match s with
  | String " " r => lstrip r
  | _ => s
  end.

(** [int(text)] on the text of a group: white space in front is skipped,
    anything but digits is an error. *)
Definition py_int (s : string) : result Z :=
  match lstrip s with
  | EmptyString => Raise (ValueError (InvalidLiteral s))
  | t => match digits_val 0 t with
         | Some n => Ok n
         | None => Raise (ValueError (InvalidLiteral s))
         end
  end.

(** [s[a:b]] and [s[a:]]. *)
Definition slice (a b : nat) (s : string) : string := substring a (b - a)%nat s.
Definition slice_from (a : nat) (s : string) : string :=
  substring a (String.length s - a)%nat s.

(** ["0" * n]. *)
Fixpoint zeros (n : nat) : string :=
  match n with
  | O => EmptyString
  | S n' => String "0" (zeros n')
  end.

(** The [%z] branch of [_strptime]: offset in seconds and its fraction in
    microseconds. *)
Definition gmtoff_of (z0 : string) : result (Z * Z) :=
  if String.eqb z0 "Z" then Ok (0, 0)
  else
    z <- (if bool_decide (String.get 3 z0 = Some ":"%char) then
            let z1 := slice 0 3 z0 +:+ slice_from 4 z0 in
            if (5 <? String.length z1)%nat then
              if bool_decide (String.get 5 z1 = Some ":"%char)
              then Ok (slice 0 5 z1 +:+ slice_from 6 z1)
              else Raise (ValueError (InconsistentColon z0))
            else Ok z1
          else Ok z0) ;;
    hours <- py_int (slice 1 3 z) ;;
    minutes <- py_int (slice 3 5 z) ;;
    seconds <- (if String.eqb (slice 5 7 z) "" then Ok 0 else py_int (slice 5 7 z)) ;;
    let gmtoff := hours * 60 * 60 + minutes * 60 + seconds in
    let gmtoff_remainder := slice_from 8 z in
    let gmtoff_remainder_padding := zeros (6 - String.length gmtoff_remainder)%nat in
    fraction <- py_int (gmtoff_remainder +:+ gmtoff_remainder_padding) ;;
    if bool_decide (String.get 0 z = Some "-"%char)
    then Ok (- gmtoff, - fraction)
    else Ok (gmtoff, fraction).

Record datetime : Type := Datetime {
  year : Z; month : Z; day : Z;
  hour : Z; minute : Z; second : Z; microsecond : Z;
  tz_seconds : Z; tz_microseconds : Z }.

Definition is_leap (y : Z) : bool :=
  (y mod 4 =? 0) && (negb (y mod 100 =? 0) || (y mod 400 =? 0)).

Definition days_in_month (y m : Z) : Z :=
  match m with
  | 2 => if is_leap y then 29 else 28
  | 4 | 6 | 9 | 11 => 30
  | _ => 31
  end.

(** The checks of [datetime.date(year, month, day)]. *)
Definition check_date (y m dd : Z) : result unit :=
  if negb ((1 <=? y) && (y <=? 9999)) then Raise (ValueError (OutOfRange "year"))
  else if negb ((1 <=? m) && (m <=? 12)) then Raise (ValueError (OutOfRange "month"))
  else if negb ((1 <=? dd) && (dd <=? days_in_month y m)) then Raise (ValueError (OutOfRange "day"))
  else Ok tt.

(** [timezone(timedelta(seconds, microseconds))]: the offset is strictly
    between minus and plus 24 hours. *)
Definition check_offset (secs micros : Z) : result unit :=
  let total := secs * 1000000 + micros in
  if (- 86400000000 <? total) && (total <? 86400000000) then Ok tt
  else Raise (ValueError (OutOfRange "offset")).

(** The checks of [datetime(..., hour, minute, second, microsecond)]. *)
Definition check_time (h mi s us : Z) : result unit :=
  if negb (h <=? 23) then Raise (ValueError (OutOfRange "hour"))
  else if negb (mi <=? 59) then Raise (ValueError (OutOfRange "minute"))
  else if negb (s <=? 59) then Raise (ValueError (OutOfRange "second"))
  else if negb (us <=? 999999) then Raise (ValueError (OutOfRange "microsecond"))
  else Ok tt.

(** [datetime.strptime(data_string, "%Y-%m-%dT%H:%M:%S.%f%z")]. *)
Definition strptime (data_string : string) : result datetime :=
  match regex_match data_string with
  | None => Raise (ValueError (TimeDataMismatch data_string))
  | Some (f, rest) =>
    if negb (String.eqb rest "") then Raise (ValueError (UnconvertedData rest))
    else
      y <- py_int (g_Y f) ;;
      m <- py_int (g_m f) ;;
      dd <- py_int (g_d f) ;;
      h <- py_int (g_H f) ;;
      mi <- py_int (g_M f) ;;
      s <- py_int (g_S f) ;;
      us <- py_int (g_f f +:+ zeros (6 - String.length (g_f f))%nat) ;;
      off <- gmtoff_of (g_z f) ;;
      _ <- check_date y m dd ;;
      _ <- check_offset (fst off) (snd off) ;;
      _ <- check_time h mi s us ;;
      Ok (Datetime y m dd h mi s us (fst off) (snd off))
  end.

Definition digit_char (n : Z) : ascii := ascii_of_nat (Z.to_nat (48 + n mod 10)).

Definition pad2 (n : Z) : string :=
  String (digit_char (n / 10)) (String (digit_char n) EmptyString).

Definition pad4 (n : Z) : string :=
  String (digit_char (n / 1000)) (String (digit_char (n / 100)) (pad2 n)).

Definition pad6 (n : Z) : string :=
  String (digit_char (n / 100000)) (String (digit_char (n / 10000)) (pad4 n)).

(** [date_obj.strftime("%d/%m/%Y %H:%M:%S")], the year on four digits. *)
Definition strftime (t : datetime) : string :=
  pad2 (day t) +:+ "/" +:+ pad2 (month t) +:+ "/" +:+ pad4 (year t) +:+ " " +:+
  pad2 (hour t) +:+ ":" +:+ pad2 (minute t) +:+ ":" +:+ pad2 (second t).

End Strptime.

(** ** [reformat_date] *)

(** Truth of [pd.isnull(x)] where an [if] tests it: an array of one flag
    has the truth of that flag, an array of any other size has none. *)
Definition isnull_truth (v : value) : result bool :=
  match v with
  | VNull => Ok true
  | VList [_] => Ok false
  | VList _ => Raise (ValueError AmbiguousTruth)
  | _ => Ok false
  end.

Definition reformat_date (date_str : value) : result value :=
  null <- isnull_truth date_str ;;
  if null || value_eqb date_str (VStr "N/A") then Ok date_str
  else
    match date_str with
    | VStr s =>
      date_obj <- Strptime.strptime s ;;
      Ok (VStr (Strptime.strftime date_obj))
    | _ => Raise (TypeError "strptime() argument 1 must be str")
    end.

(** ** Dictionaries and data frames *)

Module Frame.

(** A [dict]: keys in insertion order; setting a key that is present
    replaces its value in place. *)
Definition dict (V : Type) : Type := list (string * V).

Fixpoint dict_get {V} (k : string) (dd : dict V) : option V :=
  match dd with
  | [] => None
  | (k', v) :: rest => if String.eqb k k' then Some v else dict_get k rest
  end.

Fixpoint dict_set {V} (k : string) (v : V) (dd : dict V) : dict V :=
  match dd with
  | [] => [(k, v)]
  | (k', v') :: rest =>
    if String.eqb k k' then (k, v) :: rest else (k', v') :: dict_set k v rest
  end.

(** [{**base, k1: v1, ..., kn: vn}]. *)
Definition dict_update {V} (base : dict V) (items : list (string * V)) : dict V :=
  fold_left (fun acc kv => dict_set (fst kv) (snd kv) acc) items base.

Definition dict_keys {V} (dd : dict V) : list string := map fst dd.

(** A [pandas.DataFrame]: the column labels and the rows of cells.  The
    labels are taken to be distinct, as they are in a frame built from
    records, so that [df[col]] is one column. *)
Record DataFrame : Type := {
  columns : list string;
  rows : list (list value) }.

Definition has_column (col : string) (df : DataFrame) : bool :=
  bool_decide (col ∈ columns df).

Fixpoint index_of (col : string) (cols : list string) : option nat :=
  match cols with
  | [] => None
  | c :: rest => if String.eqb col c then Some 0 else S <$> index_of col rest
  end.

(** The labels of [pd.DataFrame(records)]: the keys of the records in the
    order they first appear. *)
Definition add_label (cols : list string) (k : string) : list string :=
  if bool_decide (k ∈ cols) then cols else cols ++ [k].

Definition frame_labels (records : list (dict value)) : list string :=
  fold_left (fun cols r => fold_left add_label (dict_keys r) cols) records [].

(** The objects of the records under a label; a key a record lacks gives a
    null. *)
Definition objects_of (c : string) (records : list (dict value)) : list value :=
  map (fun r => default VNull (dict_get c r)) records.

Definition is_number (v : value) : bool :=
  match v with
  | VInt _ | VFloat _ => true
  | _ => false
  end.

Definition is_float (v : value) : bool :=
  match v with
  | VFloat _ => true
  | _ => false
  end.

Definition is_null (v : value) : bool :=
  match v with
  | VNull => true
  | _ => false
  end.

(** The type [pd.DataFrame] infers for a column of objects, as far as the
    values go: a column of numbers and nulls only becomes a column of
    floats when it holds a float, or an int and a null; any other column
    keeps its objects. *)
Definition float_column (cells : list value) : bool :=
  forallb (fun v => is_number v || is_null v) cells &&
  (existsb is_float cells || (existsb is_null cells && existsb is_number cells)).

(** [float(v)] on the ints of such a column; the nulls are [NaN]. *)
Definition as_float (v : value) : value :=
  match v with
  | VInt n => VFloat n
  | _ => v
  end.

Definition infer_objects (cells : list value) (v : value) : value :=
  if float_column cells then as_float v else v.

(** [pd.DataFrame(records)]: a key a record lacks gives a null cell, and
    each column has the type inferred for it. *)
Definition frame_of_records (records : list (dict value)) : DataFrame :=
  let cols := frame_labels records in
  {| columns := cols;
     rows := map (fun r => map (fun c => infer_objects (objects_of c records)
                                           (default VNull (dict_get c r))) cols) records |}.

(** [df[col]] as the list of its cells, where [i] is the place of [col]. *)
Definition column_cells (i : nat) (df : DataFrame) : list value :=
  map (fun r => default VNull (r !! i)) (rows df).

(** [df[col] = cells]. *)
Definition set_column (i : nat) (cells : list value) (df : DataFrame) : DataFrame :=
  {| columns := columns df;
     rows := zip_with (fun r c => <[i := c]> r) (rows df) cells |}.

End Frame.
Export Frame.

(** ** The extractor *)

Module Jira.

Record Sprint : Type := { sprint_id : Z; sprint_name : string }.

(** A work log entry.  [None] is an attribute the resource does not have. *)
Record Worklog : Type := {
  author_displayName : option value;
  comment : option value;
  wl_created : option value;
  started : option value;
  timeSpent : option value;
  timeSpentSeconds : option value }.

(** An issue with the fields the extractor reads.  [priority_name] is
    [None] when the priority is [None] or has no name, [assignee] is [None]
    when nobody is assigned, else the display name. *)
Record Issue : Type := {
  key : value;
  summary : value;
  priority_name : option value;
  labels : value;
  assignee : option value;
  status_name : value;
  creator_displayName : value;
  customfield_10160 : option value;
  customfield_10163 : option value;
  customfield_10175 : option value;
  timespent : value;
  project_name : value;
  created : value;
  updated : value;
  description : value;
  customfield_10090 : option value;
  customfield_10089 : option value;
  customfield_10015 : option value;
  customfield_10152 : option value;
  parent : option value;
  worklogs : list Worklog }.

(** The client object [JIRA(...)] returns. *)
Record JiraClient : Type := {
  sprints : string -> string -> result (list Sprint);
  search_issues : string -> nat -> nat -> result (list Issue) }.

(** What the process finds around it: the environment variables, once
    [load_dotenv()] has run, and the server answering a connection. *)
Record Env : Type := {
  getenv : string -> option string;
  JIRA : string -> string -> string -> result JiraClient }.

(** One call of [search_issues]: its arguments, what it returned, and the
    sprint name the rows of that page are filed under. *)
Record Request : Type := {
  req_jql : string;
  req_startAt : nat;
  req_maxResults : nat;
  req_result : result (list Issue);
  req_sprint : value }.

Record ExtractState : Type := {
  combined_data : list (dict value);
  calls : list Request }.

Definition issue_info (sprint : value) (issue : Issue) : dict value :=
  dict_update [] [
    ("Issue Key", key issue);
    ("Summary", summary issue);
    ("Priority", getattr (priority_name issue) (VStr "No Priority"));
    ("Labels", labels issue);
    ("Assignee", match assignee issue with Some n => n | None => VStr "Unassigned" end);
    ("Status", status_name issue);
    ("Creator", creator_displayName issue);
    ("Custom Field 10160", getattr (customfield_10160 issue) (VStr "N/A"));
    ("Custom Field 10163", getattr (customfield_10163 issue) (VStr "N/A"));
    ("Custom Field 10175", getattr (customfield_10175 issue) (VStr "N/A"));
    ("Time Spent", if_else (timespent issue) (VStr "No Time Spent"));
    ("Project", project_name issue);
    ("Created", created issue);
    ("Updated", updated issue);
    ("Description", if_else (description issue) (VStr "No Description"));
    ("Sprint", sprint);
    ("E-mail Solicitante", getattr (customfield_10090 issue) (VStr "N/A"));
    ("Nome do Solicitante", getattr (customfield_10089 issue) (VStr "N/A"));
    ("Start Date", getattr (customfield_10015 issue) (VStr "N/A"));
    ("End Data", getattr (customfield_10152 issue) (VStr "N/A"));
    ("Parent", getattr (parent issue) (VStr "N/A")) ].

Definition worklog_row (info : dict value) (worklog : Worklog) : dict value :=
  dict_update info [
    ("Worklog Author", getattr (author_displayName worklog) (VStr "No Author"));
    ("Worklog Comment", getattr (comment worklog) (VStr "No Comment"));
    ("Worklog Created", getattr (wl_created worklog) (VStr "N/A"));
    ("Worklog Started", getattr (started worklog) (VStr "N/A"));
    ("Worklog Time Spent", getattr (timeSpent worklog) (VStr "N/A"));
    ("Worklog Time Spent Seconds", getattr (timeSpentSeconds worklog) (VInt 0)) ].

Definition no_worklog_row (info : dict value) : dict value :=
  dict_update info [
    ("Worklog Author", VStr "No Worklog");
    ("Worklog Comment", VStr "No Worklog");
    ("Worklog Created", VStr "N/A");
    ("Worklog Started", VStr "N/A");
    ("Worklog Time Spent", VStr "N/A");
    ("Worklog Time Spent Seconds", VInt 0) ].

(** The body of [for issue in issues]: the rows appended for one issue. *)
Definition rows_of_issue (sprint : value) (issue : Issue) : list (dict value) :=
  let info := issue_info sprint issue in
  match worklogs issue with
  | [] => [no_worklog_row info]
  | _ :: _ => map (worklog_row info) (worklogs issue)
  end.

Definition append_issue (sprint : value) (data : list (dict value)) (issue : Issue)
  : list (dict value) :=
  data ++ rows_of_issue sprint issue.

(** The [while True] loop over the pages of one query; [fuel] bounds its
    iterations and [None] is a loop still running when it is used up. *)
Fixpoint page_loop (fuel : nat) (jira : JiraClient) (jql_query : string) (sprint : value)
    (start_at max_results : nat) (st : ExtractState) : option (result unit) * ExtractState :=
  match fuel with
  | O => (None, st)
  | S fuel' =>
    let answer := search_issues jira jql_query start_at max_results in
    let logged := calls st ++ [{| req_jql := jql_query; req_startAt := start_at;
                                 req_maxResults := max_results; req_result := answer;
                                 req_sprint := sprint |}] in
    match answer with
    | Raise e => (Some (Raise e), {| combined_data := combined_data st; calls := logged |})
    | Ok issues =>
      let st' := {| combined_data := fold_left (append_issue sprint) issues (combined_data st);
                    calls := logged |} in
      let start_at' := start_at + max_results in
      if List.length issues <? max_results then (Some (Ok tt), st')
      else page_loop fuel' jira jql_query sprint start_at' max_results st'
    end
  end.

Definition sprint_query (sprint_id : Z) : string :=
  "project = 'Gestão de Atividades' AND sprint = " +:+ pretty sprint_id +:+
  " ORDER BY created DESC".

Definition no_sprint_query : string :=
  "project = 'Gestão de Atividades' AND sprint is EMPTY ORDER BY created DESC".

(** [for sprint_id, sprint_name in sprint_map.items()].  The local
    [max_results] is [None] until the body has assigned it. *)
Fixpoint sprint_loop (fuel : nat) (jira : JiraClient) (items : list (Z * string))
    (max_results : option nat) (st : ExtractState)
    : option (result (option nat)) * ExtractState :=
  match items with
  | [] => (Some (Ok max_results), st)
  | (sprint_id, sprint_name) :: rest =>
    let jql_query := sprint_query sprint_id in
    let start_at := 0 in
    let max_results := 100 in
    match page_loop fuel jira jql_query (VStr sprint_name) start_at max_results st with
    | (Some (Ok _), st') => sprint_loop fuel jira rest (Some max_results) st'
    | (Some (Raise e), st') => (Some (Raise e), st')
    | (None, st') => (None, st')
    end
  end.

(** [{sprint.id: sprint.name for sprint in sprints}]. *)
Fixpoint map_set (k : Z) (v : string) (m : list (Z * string)) : list (Z * string) :=
  match m with
  | [] => [(k, v)]
  | (k', v') :: rest =>
    if Z.eqb k k' then (k, v) :: rest else (k', v') :: map_set k v rest
  end.

Definition sprint_map_of (l : list Sprint) : list (Z * string) :=
  fold_left (fun m s => map_set (sprint_id s) (sprint_name s) m) l [].

(** [a or b] and [not a] on an optional string. *)
Definition str_truthy (a : option string) : bool :=
  match a with
  | Some s => negb (String.eqb s "")
  | None => false
  end.

Definition py_or (a b : option string) : option string :=
  if str_truthy a then a else b.

Definition is_none (a : option string) : bool :=
  match a with
  | None => true
  | Some _ => false
  end.

(** The first block of [jira_extraction]: arguments left out are read from
    the environment, and all four have to be there. *)
Definition resolve_credentials (env : Env) (jira_server email api_token board_id : option string)
    : result (string * string * string * string) :=
  let from_env := is_none jira_server || is_none email || is_none api_token || is_none board_id in
  let jira_server := if from_env then py_or jira_server (getenv env "JIRA_SERVER") else jira_server in
  let email := if from_env then py_or email (getenv env "JIRA_EMAIL") else email in
  let api_token := if from_env then py_or api_token (getenv env "JIRA_API_TOKEN") else api_token in
  let board_id := if from_env then py_or board_id (getenv env "JIRA_BOARD_ID") else board_id in
  if negb (str_truthy jira_server) || negb (str_truthy email) ||
     negb (str_truthy api_token) || negb (str_truthy board_id)
  then Raise (ValueError MissingCredentials)
  else Ok (default "" jira_server, default "" email, default "" api_token, default "" board_id).

(** The rest of it, once connected: the sprints of the board, the pages of
    each sprint, the pages of the issues without sprint, the frame. *)
Definition extract_board (jira : JiraClient) (board_id : string) (fuel : nat)
    : option (result DataFrame) * list Request :=
  match sprints jira board_id "active,closed" with
  | Raise e => (Some (Raise e), [])
  | Ok sprint_list =>
    let sprint_map := sprint_map_of sprint_list in
    let combined := {| combined_data := []; calls := [] |} in
    match sprint_loop fuel jira sprint_map None combined with
    | (None, st) => (None, calls st)
    | (Some (Raise e), st) => (Some (Raise e), calls st)
    | (Some (Ok max_results), st) =>
      let jql_query := no_sprint_query in
      let start_at := 0 in
      match max_results with
      | None => (Some (Raise (UnboundLocalError "max_results")), calls st)
      | Some max_results =>
        match page_loop fuel jira jql_query (VStr "No Sprint") start_at max_results st with
        | (None, st') => (None, calls st')
        | (Some (Raise e), st') => (Some (Raise e), calls st')
        | (Some (Ok _), st') =>
          (Some (Ok (frame_of_records (combined_data st'))), calls st')
        end
      end
    end
  end.

(** [jira_extraction]; the result is paired with the calls made to
    [search_issues].  The [except] clause logs and raises again. *)
Definition jira_extraction (env : Env) (fuel : nat)
    (jira_server email api_token board_id : option string) (project_key : string)
    : option (result DataFrame) * list Request :=
  match resolve_credentials env jira_server email api_token board_id with
  | Raise e => (Some (Raise e), [])
  | Ok (server, user, token, board) =>
    match JIRA env server user token with
    | Raise e => (Some (Raise e), [])
    | Ok jira => extract_board jira board fuel
    end
  end.

End Jira.
Export Jira.

(** ** The transformer *)

Module Transform.

(** Data frames are objects: a variable holds a reference, the store maps
    each reference to the frame it denotes. *)
Abbreviation ref := nat (only parsing).
Abbreviation store := (nat -> DataFrame) (only parsing).

Definition date_columns : list string := ["Worklog Created"; "Worklog Started"].

(** The first loop: every date column has to be among the labels. *)
Fixpoint check_columns (cols : list string) (df : DataFrame) : result unit :=
  match cols with
  | [] => Ok tt
  | col :: rest =>
    if negb (has_column col df) then Raise (ValueError (ColumnNotFound col))
    else check_columns rest df
  end.

(** [series.apply(func)]: the cells in order, the first exception ends it. *)
Fixpoint apply (func : value -> result value) (cells : list value) : result (list value) :=
  match cells with
  | [] => Ok []
  | c :: rest =>
    c' <- func c ;;
    rest' <- apply func rest ;;
    Ok (c' :: rest')
  end.

(** The second loop: [extracted_data[col] = extracted_data[col].apply(reformat_date)],
    an assignment into the frame the reference denotes. *)
Fixpoint rewrite_columns (cols : list string) (extracted_data : ref) (h : store)
    : result unit * store :=
  match cols with
  | [] => (Ok tt, h)
  | col :: rest =>
    let df := h extracted_data in
    match index_of col (columns df) with
    | None => (Raise (KeyError col), h)
    | Some i =>
      match apply reformat_date (column_cells i df) with
      | Raise e => (Raise e, h)
      | Ok cells => rewrite_columns rest extracted_data (<[extracted_data := set_column i cells df]> h)
      end
    end
  end.

Definition transform_extracted_data (extracted_data : ref) (h : store) : result ref * store :=
  match check_columns date_columns (h extracted_data) with
  | Raise e => (Raise e, h)
  | Ok _ =>
    match rewrite_columns date_columns extracted_data h with
    | (Raise e, h') => (Raise e, h')
    | (Ok _, h') => (Ok extracted_data, h')
    end
  end.

(** The cell of row [r] under the column labelled [col]. *)
Definition cell (df : DataFrame) (r : nat) (col : string) : option value :=
  i ← index_of col (columns df); row ← rows df !! r; row !! i.

End Transform.
Export Transform.

(** ** The loader *)

Module Loader.

(** *** [DataFrame.to_csv]

    The text pandas writes with its defaults on a POSIX system: comma
    separated, a header record, the line feed as terminator, minimal
    quoting, nulls as empty fields. *)

Definition comma : ascii := ","%char.
Definition dquote : ascii := ascii_of_nat 34.
Definition newline : ascii := ascii_of_nat 10.

Fixpoint contains_char (c : ascii) (s : string) : bool :=
  match s with
  | EmptyString => false
  | String c' r => Ascii.eqb c c' || contains_char c r
  end.

(** Minimal quoting: a field is quoted when it holds the delimiter, the
    quote character or the line terminator. *)
Definition needs_quotes (s : string) : bool :=
  contains_char comma s || contains_char dquote s || contains_char newline s.

Fixpoint double_quotes (s : string) : string :=
  match s with
  | EmptyString => EmptyString
  | String c r =>
    if Ascii.eqb c dquote then String dquote (String dquote (double_quotes r))
    else String c (double_quotes r)
  end.

Definition csv_field (s : string) : string :=
  if needs_quotes s then String dquote (double_quotes s +:+ String dquote EmptyString) else s.

Fixpoint join (sep : string) (l : list string) : string :=
  match l with
  | [] => EmptyString
  | [x] => x
  | x :: rest => x +:+ sep +:+ join sep rest
  end.

(** One record; a record made of a single empty field is written as a pair
    of quotes. *)
Definition csv_record (fields : list string) : string :=
  let body := join (String comma EmptyString) (map csv_field fields) in
  (if bool_decide (fields = [EmptyString]) then String dquote (String dquote EmptyString) else body)
  +:+ String newline EmptyString.

Section Csv.

(** [repr()] of a string, used where a cell holds a list of strings. *)
Variable py_repr : string -> string.

(** The text of a cell.  A float is written as [repr] gives it, which for
    the float of an int up to [2^53] in magnitude is the int followed by
    [.0]. *)
Definition cell_text (v : value) : string :=
  match v with
  | VNull => EmptyString
  | VStr s => s
  | VInt n => pretty n
  | VFloat z => pretty z +:+ ".0"
  | VList items => "[" +:+ join ", " (map py_repr items) +:+ "]"
  | VObj text => text
  end.

(** The records of [to_csv(index=index)]: with [index] the row labels
    [0, 1, ...] come first, under an empty header field. *)
Definition csv_header (index : bool) (df : DataFrame) : list string :=
  (if index then [EmptyString] else []) ++ columns df.

Definition csv_row (index : bool) (i : nat) (r : list value) : list string :=
  (if index then [pretty i] else []) ++ map cell_text r.

Definition csv_records (index : bool) (df : DataFrame) : list (list string) :=
  csv_header index df :: imap (csv_row index) (rows df).

Definition to_csv_text (index : bool) (df : DataFrame) : string :=
  fold_right String.append EmptyString (map csv_record (csv_records index df)).

End Csv.

(** *** The operating system

    [W] is the state of the file system; the operations are those the
    loader calls. *)
Record Os (W : Type) : Type := {
  path_exists : string -> W -> bool;
  path_isdir : string -> W -> bool;
  makedirs : string -> bool -> W -> result unit * W;
  write_file : string -> string -> W -> result unit * W;
  read_file : string -> W -> option string }.
Arguments path_exists {W} _ _ _.
Arguments path_isdir {W} _ _ _.
Arguments makedirs {W} _ _ _ _.
Arguments write_file {W} _ _ _ _.
Arguments read_file {W} _ _ _.

Fixpoint ends_with_slash (s : string) : bool :=
  match s with
  | EmptyString => false
  | String c EmptyString => Ascii.eqb c "/"
  | String _ r => ends_with_slash r
  end.

Definition starts_with_slash (s : string) : bool :=
  match s with
  | String c _ => Ascii.eqb c "/"
  | EmptyString => false
  end.

(** [os.path.join(a, b)]. *)
Definition path_join (a b : string) : string :=
  if starts_with_slash b then b
  else if String.eqb a "" || ends_with_slash a then a +:+ b
  else a +:+ "/" +:+ b.

(** A file name: not empty, no separator, not one of the two dot entries. *)
Definition is_file_name (n : string) : bool :=
  negb (String.eqb n "") && negb (contains_char "/" n) &&
  negb (String.eqb n ".") && negb (String.eqb n "..").

(** What the loader relies on, as the manuals of [os] and of [open] give it. *)
Record OsLaws {W} (os : Os W) : Prop := {
  exists_empty : forall w, path_exists os "" w = false;
  isdir_exists : forall p w, path_isdir os p w = true -> path_exists os p w = true;
  makedirs_isdir : forall p eo w w',
    makedirs os p eo w = (Ok tt, w') -> path_isdir os p w' = true;
  write_read : forall p c w w',
    write_file os p c w = (Ok tt, w') -> read_file os p w' = Some c;
  write_isdir : forall p c w w' q,
    write_file os p c w = (Ok tt, w') -> path_isdir os q w' = path_isdir os q w;
  write_parent : forall dir n c w w',
    write_file os (path_join dir n) c w = (Ok tt, w') ->
    dir <> "" -> is_file_name n = true -> path_isdir os dir w = true }.

Section Loading.

Context {W : Type} (os : Os W) (py_repr : string -> string).

(** [df.to_csv(path, index=index)]: the file at [path] is opened for
    writing, which creates or truncates it, and receives the text. *)
Definition to_csv (df : DataFrame) (path : string) (index : bool) (w : W) : result unit * W :=
  write_file os path (to_csv_text py_repr index df) w.

Definition load_extraction (transformed_data : DataFrame) (output_path output_name : string)
    (w : W) : result unit * W :=
  let made :=
    if negb (path_exists os output_path w) then makedirs os output_path true w
    else (Ok tt, w) in
  match made with
  | (Raise e, w1) => (Raise e, w1)
  | (Ok _, w1) =>
    let output := path_join output_path output_name in
    to_csv transformed_data output false w1
  end.

End Loading.

End Loader.
Export Loader.

(** ** Reading delimited text

    What a reader makes of a text in which commas separate the fields of a
    record, a line feed ends a record, and a field may stand in quotes, a
    quote inside it written twice.  It is the dialect [to_csv] writes; the
    statements on the loader say what the file holds by reading it back. *)

Module CsvReader.

Inductive reading : Type :=
| StartRecord
| StartField
| InField
| InQuoted
| QuoteInQuoted.

(** [fields] are the fields of the record read so far, [field] the text of
    the field being read.  An empty line is a record without fields. *)
Fixpoint read (text : string) (st : reading) (field : string) (fields : list string)
    : list (list string) :=
  match text with
  | EmptyString =>
    match st with
    | StartRecord => []
    | _ => [fields ++ [field]]
    end
  | String c rest =>
    match st with
    | StartRecord | StartField =>
      if Ascii.eqb dquote c then read rest InQuoted EmptyString fields
      else if Ascii.eqb comma c then read rest StartField EmptyString (fields ++ [EmptyString])
      else if Ascii.eqb newline c then
        match st with
        | StartRecord => fields
        | _ => fields ++ [EmptyString]
        end :: read rest StartRecord EmptyString []
      else read rest InField (String c EmptyString) fields
    | InField =>
      if Ascii.eqb comma c then read rest StartField EmptyString (fields ++ [field])
      else if Ascii.eqb newline c then (fields ++ [field]) :: read rest StartRecord EmptyString []
      else read rest InField (field +:+ String c EmptyString) fields
    | InQuoted =>
      if Ascii.eqb dquote c then read rest QuoteInQuoted field fields
      else read rest InQuoted (field +:+ String c EmptyString) fields
    | QuoteInQuoted =>
      if Ascii.eqb dquote c then read rest InQuoted (field +:+ String c EmptyString) fields
      else if Ascii.eqb comma c then read rest StartField EmptyString (fields ++ [field])
      else if Ascii.eqb newline c then (fields ++ [field]) :: read rest StartRecord EmptyString []
      else read rest InField (field +:+ String c EmptyString) fields
    end
  end.

Definition read_csv (text : string) : list (list string) :=
  read text StartRecord EmptyString [].

(** What follows a complete field: the comma goes on with the record, the
    line feed ends it. *)
Definition finish (c : ascii) (rest : string) (field : string) (fields : list string)
    : list (list string) :=
  if Ascii.eqb comma c then read rest StartField EmptyString (fields ++ [field])
  else (fields ++ [field]) :: read rest StartRecord EmptyString [].

End CsvReader.

(** ** A small file system

    Directories and regular files under one root, which is also the working
    directory; no links, no permissions, and [..] is not resolved.  It
    gives the operations of [Os] a meaning to run the loader on. *)

Module SimpleFs.

Record fs : Type := {
  dirs : list (list string);
  files : list (list string * string) }.

Definition empty : fs := {| dirs := []; files := [] |}.

Definition flush (acc : string) : list string :=
  if String.eqb acc "" || String.eqb acc "." then [] else [acc].

(** The names along a path: empty names and [.] are skipped. *)
Fixpoint components (s : string) (acc : string) : list string :=
  match s with
  | EmptyString => flush acc
  | String c r =>
    if Ascii.eqb c "/" then flush acc ++ components r ""
    else components r (acc +:+ String c EmptyString)
  end.

Definition resolve (p : string) : list string := components p "".

Fixpoint file_at (c : list string) (l : list (list string * string)) : option string :=
  match l with
  | [] => None
  | (c', text) :: rest => if bool_decide (c = c') then Some text else file_at c rest
  end.

Fixpoint file_put (c : list string) (text : string) (l : list (list string * string))
    : list (list string * string) :=
  match l with
  | [] => [(c, text)]
  | (c', text') :: rest =>
    if bool_decide (c = c') then (c, text) :: rest else (c', text') :: file_put c text rest
  end.

Definition is_dir_at (c : list string) (w : fs) : bool :=
  bool_decide (c = []) || bool_decide (c ∈ dirs w).

Definition is_file_at (c : list string) (w : fs) : bool :=
  match file_at c (files w) with
  | Some _ => true
  | None => false
  end.

Definition fs_exists (p : string) (w : fs) : bool :=
  negb (String.eqb p "") && (is_dir_at (resolve p) w || is_file_at (resolve p) w).

Definition fs_isdir (p : string) (w : fs) : bool :=
  negb (String.eqb p "") && is_dir_at (resolve p) w.

(** [mkdir] along the names of a path, below [prefix]. *)
Fixpoint mkdirs (prefix comps : list string) (w : fs) : result unit * fs :=
  match comps with
  | [] => (Ok tt, w)
  | c :: rest =>
    let here := prefix ++ [c] in
    if is_file_at here w then (Raise (OSError "Not a directory"), w)
    else mkdirs here rest
           (if is_dir_at here w then w else {| dirs := here :: dirs w; files := files w |})
  end.

Definition fs_makedirs (p : string) (exist_ok : bool) (w : fs) : result unit * fs :=
  if String.eqb p "" then (Raise (OSError "No such file or directory"), w)
  else if negb exist_ok && is_dir_at (resolve p) w then (Raise (OSError "File exists"), w)
  else mkdirs [] (resolve p) w.

Definition fs_write (p text : string) (w : fs) : result unit * fs :=
  let c := resolve p in
  if String.eqb p "" then (Raise (OSError "No such file or directory"), w)
  else if ends_with_slash p || is_dir_at c w then (Raise (OSError "Is a directory"), w)
  else if negb (is_dir_at (removelast c) w) then (Raise (OSError "No such file or directory"), w)
  else (Ok tt, {| dirs := dirs w; files := file_put c text (files w) |}).

Definition fs_read (p : string) (w : fs) : option string :=
  if String.eqb p "" then None else file_at (resolve p) (files w).

Definition simple_os : Os fs := {|
  path_exists := fs_exists;
  path_isdir := fs_isdir;
  makedirs := fs_makedirs;
  write_file := fs_write;
  read_file := fs_read |}.

(** The [repr()] of a string without quotes or escapes in it. *)
Definition plain_repr (s : string) : string := "'" +:+ s +:+ "'".

End SimpleFs.

(** ** A board to run the pipeline on

    One closed sprint holding one issue with two work log entries, and an
    issue without sprint or work log. *)

Module Scenario.

Definition log1 : Worklog := {|
  author_displayName := Some (VStr "Ana");
  comment := Some (VStr "analysis");
  wl_created := Some (VStr "2024-03-05T14:30:00.000+0000");
  started := Some (VStr "2024-03-05T13:00:00.000+0000");
  timeSpent := Some (VStr "1h 30m");
  timeSpentSeconds := Some (VInt 5400) |}.

Definition log2 : Worklog := {|
  author_displayName := None;
  comment := None;
  wl_created := Some (VStr "2024-03-06T09:00:00.000-0300");
  started := None;
  timeSpent := Some (VStr "2h");
  timeSpentSeconds := Some (VInt 7200) |}.

Definition issue1 : Issue := {|
  key := VStr "IW-696";
  summary := VStr "Extract worklogs";
  priority_name := Some (VStr "High");
  labels := VList ["etl"; "jira"];
  assignee := Some (VStr "Ana");
  status_name := VStr "Done";
  creator_displayName := VStr "Bruno";
  customfield_10160 := None;
  customfield_10163 := Some VNull;
  customfield_10175 := None;
  timespent := VInt 12600;
  project_name := VStr "Gestão de Atividades";
  created := VStr "2024-03-01T08:00:00.000+0000";
  updated := VStr "2024-03-06T12:00:00.000+0000";
  description := VNull;
  customfield_10090 := None;
  customfield_10089 := None;
  customfield_10015 := Some (VStr "2024-03-01");
  customfield_10152 := None;
  parent := None;
  worklogs := [log1; log2] |}.

Definition issue2 : Issue := {|
  key := VStr "IW-700";
  summary := VStr "Backlog item";
  priority_name := None;
  labels := VList [];
  assignee := None;
  status_name := VStr "To Do";
  creator_displayName := VStr "Bruno";
  customfield_10160 := None;
  customfield_10163 := None;
  customfield_10175 := None;
  timespent := VNull;
  project_name := VStr "Gestão de Atividades";
  created := VStr "2024-03-02T08:00:00.000+0000";
  updated := VStr "2024-03-02T08:00:00.000+0000";
  description := VStr "later";
  customfield_10090 := None;
  customfield_10089 := None;
  customfield_10015 := None;
  customfield_10152 := None;
  parent := None;
  worklogs := [] |}.

(** A server that holds the list [all] for the query [jql] and nothing for
    any other query, and answers a page with the slice asked for. *)
Definition paged (jql : string) (all : list Issue) (query : string) (start_at max_results : nat)
    : result (list Issue) :=
  if String.eqb query jql then Ok (take max_results (drop start_at all)) else Ok [].

Definition client (board_sprints : list Sprint) (search : string -> nat -> nat -> result (list Issue))
    : JiraClient :=
  {| sprints := fun _ _ => Ok board_sprints; search_issues := search |}.

Definition env_of (c : JiraClient) : Env :=
  {| getenv := fun name =>
       if String.eqb name "JIRA_SERVER" then Some "https://example.atlassian.net"
       else if String.eqb name "JIRA_EMAIL" then Some "ana@example.com"
       else if String.eqb name "JIRA_API_TOKEN" then Some "token"
       else if String.eqb name "JIRA_BOARD_ID" then Some "12"
       else None;
     JIRA := fun _ _ _ => Ok c |}.

Definition board_search (query : string) (start_at max_results : nat) : result (list Issue) :=
  if String.eqb query (sprint_query 7) then paged (sprint_query 7) [issue1] query start_at max_results
  else paged no_sprint_query [issue2] query start_at max_results.

Definition board : Env := env_of (client [{| sprint_id := 7; sprint_name := "Sprint 7" |}] board_search).

(** A board without any active or closed sprint. *)
Definition empty_board : Env := env_of (client [] board_search).

End Scenario.

(** ** Quantities the statements speak about *)

Module Spec.

(** The issues the server returned over a run. *)
Definition issues_of_request (r : Request) : list Issue :=
  match req_result r with
  | Ok issues => issues
  | Raise _ => []
  end.

Definition issues_of (tr : list Request) : list Issue := flat_map issues_of_request tr.

(** The sum over issues of [max 1 (number of work log entries)]. *)
Definition row_count (issues : list Issue) : nat :=
  list_sum (map (fun i => Nat.max 1 (List.length (worklogs i))) issues).

(** The rows a page contributes, in order. *)
Definition page_rows (r : Request) : list (dict value) :=
  flat_map (rows_of_issue (req_sprint r)) (issues_of_request r).

(** The row with the work log fields at their defaults. *)
Definition is_no_worklog_row (row : dict value) : Prop :=
  dict_get "Worklog Author" row = Some (VStr "No Worklog") /\
  dict_get "Worklog Comment" row = Some (VStr "No Worklog") /\
  dict_get "Worklog Created" row = Some (VStr "N/A") /\
  dict_get "Worklog Started" row = Some (VStr "N/A") /\
  dict_get "Worklog Time Spent" row = Some (VStr "N/A") /\
  dict_get "Worklog Time Spent Seconds" row = Some (VInt 0).

Definition page_size : nat := 100.

(** The ceiling of [a / b]. *)
Definition ceil_div (a b : nat) : nat := (a + b - 1) / b.

(** A server that reports the [all] issues of a query page by page: the
    page at [start_at] holds [min max_results (total - start_at)] of them. *)
Definition reports (jira : JiraClient) (jql : string) (all : list Issue) : Prop :=
  forall start_at max_results,
    search_issues jira jql start_at max_results = Ok (take max_results (drop start_at all)).

(** The request for page number [k] of such a query. *)
Definition page_request (jql : string) (sprint : value) (all : list Issue) (k : nat) : Request :=
  {| req_jql := jql; req_startAt := page_size * k; req_maxResults := page_size;
     req_result := Ok (take page_size (drop (page_size * k) all)); req_sprint := sprint |}.

End Spec.
Export Spec.

(** ** Frames to run the transformer on *)

Module Frames.

Definition raw : DataFrame := {|
  columns := ["Issue Key"; "Created"; "Updated"; "Worklog Created"; "Worklog Started"];
  rows := [ [VStr "IW-696"; VStr "2024-03-01T08:00:00.000+0000";
             VStr "2024-03-06T12:00:00.000+0000";
             VStr "2024-03-05T14:30:00.000000+0000"; VStr "2024-03-05T13:00:00.000+0000"];
            [VStr "IW-700"; VStr "2024-03-02T08:00:00.000+0000";
             VStr "2024-03-02T08:00:00.000+0000"; VStr "N/A"; VStr "N/A"] ] |}.

Definition sentinels : DataFrame := {|
  columns := ["Issue Key"; "Worklog Created"; "Worklog Started"];
  rows := [ [VStr "IW-700"; VStr "N/A"; VStr "N/A"];
            [VStr "IW-701"; VStr "N/A"; VStr "N/A"] ] |}.

Definition no_started : DataFrame := {|
  columns := ["Issue Key"; "Worklog Created"];
  rows := [ [VStr "IW-696"; VStr "2024-03-05T14:30:00.000000+0000"] ] |}.

(** A frame with a cell of every kind: texts with a comma, with quotes and
    with a line feed in them, a list, an int, a float, a null and another
    object. *)
Definition mixed : DataFrame := {|
  columns := ["Issue Key"; "Summary"; "Labels"; "Time Spent"; "Seconds"; "Comment"];
  rows := [ [VStr "IW-1"; VStr "Fix, then test"; VList ["etl"; "jira"]; VInt 12600; VFloat 5400;
             VStr ("say " +:+ String dquote "hi" +:+ String dquote EmptyString)];
            [VStr "IW-2"; VStr ("line 1" +:+ String newline "line 2"); VList [];
             VStr "No Time Spent"; VNull; VObj "<JIRA User: Ana>"] ] |}.

(** The text [to_csv(index=False)] gives for it, character by character. *)
Definition mixed_text : string :=
  let q := String dquote EmptyString in
  let nl := String newline EmptyString in
  "Issue Key,Summary,Labels,Time Spent,Seconds,Comment" +:+ nl +:+
  "IW-1," +:+ q +:+ "Fix, then test" +:+ q +:+ "," +:+ q +:+ "['etl', 'jira']" +:+ q +:+
  ",12600,5400.0," +:+ q +:+ "say " +:+ q +:+ q +:+ "hi" +:+ q +:+ q +:+ q +:+ nl +:+
  "IW-2," +:+ q +:+ "line 1" +:+ nl +:+ "line 2" +:+ q +:+
  ",[],No Time Spent,,<JIRA User: Ana>" +:+ nl.

(** A store in which every reference denotes [df]. *)
Definition store_of (df : DataFrame) : nat -> DataFrame := fun _ => df.

End Frames.

(** ** The two formats of a time stamp *)

Module Formats.

Import Strptime.
Local Open Scope Z_scope.

Definition sign_char (negative : bool) : ascii := if negative then "-"%char else "+"%char.

(** [YYYY-MM-DDTHH:MM:SS.ffffff±HHMM] for the given fields. *)
Definition source_text (Y m dd H M S f : Z) (negative : bool) (oh om : Z) : string :=
  pad4 Y +:+ "-" +:+ pad2 m +:+ "-" +:+ pad2 dd +:+ "T" +:+
  pad2 H +:+ ":" +:+ pad2 M +:+ ":" +:+ pad2 S +:+ "." +:+ pad6 f +:+
  String (sign_char negative) (pad2 oh +:+ pad2 om).

(** [DD/MM/YYYY HH:MM:SS] for the given fields. *)
Definition target_text (Y m dd H M S : Z) : string :=
  pad2 dd +:+ "/" +:+ pad2 m +:+ "/" +:+ pad4 Y +:+ " " +:+
  pad2 H +:+ ":" +:+ pad2 M +:+ ":" +:+ pad2 S.

(** Fields that make a date, a time of day and an offset. *)
Definition valid_fields (Y m dd H M S f oh om : Z) : Prop :=
  1000 <= Y <= 9999 /\ 1 <= m <= 12 /\ 1 <= dd <= days_in_month Y m /\
  0 <= H <= 23 /\ 0 <= M <= 59 /\ 0 <= S <= 59 /\ 0 <= f <= 999999 /\
  0 <= oh <= 23 /\ 0 <= om <= 59.

(** The picture [dddd-dd-ddTdd:dd:dd.dddddd±dddd], [d] a digit. *)
Fixpoint has_shape (picture : list (ascii -> bool)) (s : string) : bool :=
  match picture, s with
  | [], EmptyString => true
  | p :: picture', String c s' => p c && has_shape picture' s'
  | _, _ => false
  end.

Definition source_picture : list (ascii -> bool) :=
  [digit; digit; digit; digit; is_char "-"; digit; digit; is_char "-"; digit; digit;
   is_char "T"; digit; digit; is_char ":"; digit; digit; is_char ":"; digit; digit;
   is_char "."; digit; digit; digit; digit; digit; digit;
   (fun c => is_char "+" c || is_char "-" c); digit; digit; digit; digit].

Definition source_shape (s : string) : bool := has_shape source_picture s.

End Formats.
Export Formats.

(** ** Predicates of the statements *)

(** What a loop does to the state: calls are added to the log, and the rows
    of their pages to the data, in the same order. *)
Definition extends (st st' : ExtractState) : Prop :=
  exists new, calls st' = calls st ++ new /\
              combined_data st' = combined_data st ++ flat_map page_rows new.

(** An error that is not the missing column error of the transformer. *)
Definition not_schema_error (e : exn) : Prop :=
  forall col, e <> ValueError (ColumnNotFound col).

(** The outcome of the transformer that reports a missing date column. *)
Definition schema_error (out : result nat) : Prop :=
  exists col, col ∈ date_columns /\ out = Raise (ValueError (ColumnNotFound col)).

(** A matcher takes [pre] off the front of any text and goes on. *)
Definition accepts (m : forall R, Strptime.matcher R) (pre : string) : Prop :=
  forall R (k : string -> option R) rest r, k rest = Some r -> m R k (pre +:+ rest) = Some r.

(** The labels of a row of the extractor, in order. *)
Definition flat_row_columns : list string :=
  ["Issue Key"; "Summary"; "Priority"; "Labels"; "Assignee"; "Status"; "Creator";
   "Custom Field 10160"; "Custom Field 10163"; "Custom Field 10175"; "Time Spent";
   "Project"; "Created"; "Updated"; "Description"; "Sprint"; "E-mail Solicitante";
   "Nome do Solicitante"; "Start Date"; "End Data"; "Parent"; "Worklog Author";
   "Worklog Comment"; "Worklog Created"; "Worklog Started"; "Worklog Time Spent";
   "Worklog Time Spent Seconds"].

(** The header line for those labels. *)
Definition flat_row_header : string :=
  "Issue Key,Summary,Priority,Labels,Assignee,Status,Creator,Custom Field 10160,Custom Field 10163,Custom Field 10175,Time Spent,Project,Created,Updated,Description,Sprint,E-mail Solicitante,Nome do Solicitante,Start Date,End Data,Parent,Worklog Author,Worklog Comment,Worklog Created,Worklog Started,Worklog Time Spent,Worklog Time Spent Seconds"
  +:+ String newline EmptyString.

(** ** The entry point *)

Module Pipeline.

Section Main.

Context {W : Type} (os : Os W) (py_repr : string -> string).

(** [main()] of [app/main.py].  The frame the extractor returns is a new
    object: it is stored under the reference [fresh].  The outcome comes
    with the store, the file system and the calls made to the server.
    The file system is followed through the calls of the loader; the lines
    the logger appends to [./app.log] at every stage are not part of it, so
    the statements speak of the output directory and file only. *)
Definition main (env : Env) (fuel : nat) (fresh : nat) (h : nat -> DataFrame) (w : W)
    : option (result unit) * (nat -> DataFrame) * W * list Request :=
  let output_path := "data/processed/" in
  let output_name := "extraction_jira.csv" in
  match jira_extraction env fuel None None None None "Gestão de Atividades" with
  | (None, tr) => (None, h, w, tr)
  | (Some (Raise e), tr) => (Some (Raise e), h, w, tr)
  | (Some (Ok df), tr) =>
    let extracted_data := fresh in
    let h1 := <[extracted_data := df]> h in
    match transform_extracted_data extracted_data h1 with
    | (Raise e, h2) => (Some (Raise e), h2, w, tr)
    | (Ok transformed_data, h2) =>
      match load_extraction os py_repr (h2 transformed_data) output_path output_name w with
      | (Raise e, w') => (Some (Raise e), h2, w', tr)
      | (Ok _, w') => (Some (Ok tt), h2, w', tr)
      end
    end
  end.

End Main.

End Pipeline.
Export Pipeline.

(** ** The decorators *)

Module Decorators.

Inductive level : Type := INFO | ERROR.

(** What a decorated function runs in: the records of the logger, and the
    number of times the clock has been read. *)
Record Runtime : Type := {
  log : list (level * string);
  clock_reads : nat }.

Definition logger (lv : level) (message : string) (rt : Runtime) : Runtime :=
  {| log := log rt ++ [(lv, message)]; clock_reads := clock_reads rt |}.

Section Wrappers.

(** [str(e)] for an exception, the readings of [time.time()] in the order
    they are taken, and the text [f"{end - start:.2f}"] of two readings. *)
Context (exn_text : exn -> string) {T : Type} (time_at : nat -> T)
        (elapsed_text : T -> T -> string).

Definition time_time (rt : Runtime) : T * Runtime :=
  (time_at (clock_reads rt), {| log := log rt; clock_reads := S (clock_reads rt) |}).

(** [log_decorator(func)]; [name] is [func.__name__]. *)
Definition log_decorator {A} (name : string) (func : Runtime -> result A * Runtime)
    : Runtime -> result A * Runtime :=
  fun rt =>
    let rt1 := logger INFO ("Executando a função " +:+ name +:+ ".") rt in
    match func rt1 with
    | (Ok res, rt2) =>
      (Ok res, logger INFO ("Execução da função " +:+ name +:+ " finalizada.") rt2)
    | (Raise e, rt2) => (Raise e, logger ERROR ("Erro: " +:+ exn_text e) rt2)
    end.

(** [time_decorator(func)]. *)
Definition time_decorator {A} (name : string) (func : Runtime -> result A * Runtime)
    : Runtime -> result A * Runtime :=
  fun rt =>
    let (start_time, rt1) := time_time rt in
    match func rt1 with
    | (Ok res, rt2) =>
      let (end_time, rt3) := time_time rt2 in
      (Ok res,
       logger INFO ("A função " +:+ name +:+ " levou " +:+ elapsed_text start_time end_time +:+
                    " segundos para finalizar.") rt3)
    | (Raise e, rt2) => (Raise e, logger ERROR ("Erro: " +:+ exn_text e) rt2)
    end.

(** The two decorators as layers, and a function under a stack of them,
    the first of the list outermost. *)
Inductive layer : Type := Timed | Logged.

Definition wrap {A} (l : layer) (name : string) (func : Runtime -> result A * Runtime)
    : Runtime -> result A * Runtime :=
  match l with
  | Timed => time_decorator name func
  | Logged => log_decorator name func
  end.

Definition decorate {A} (layers : list layer) (name : string)
    (func : Runtime -> result A * Runtime) : Runtime -> result A * Runtime :=
  fold_right (fun l f => wrap l name f) func layers.

End Wrappers.

(** What the layers have done by the time the function itself starts:
    from the outermost in, each has read the clock or logged the start. *)
Definition enter (name : string) (rt : Runtime) (l : layer) : Runtime :=
  match l with
  | Timed => {| log := log rt; clock_reads := S (clock_reads rt) |}
  | Logged => logger INFO ("Executando a função " +:+ name +:+ ".") rt
  end.

Definition entered (layers : list layer) (name : string) (rt : Runtime) : Runtime :=
  fold_left (enter name) layers rt.

Fixpoint timed_layers (layers : list layer) : nat :=
  match layers with
  | [] => 0
  | Timed :: rest => S (timed_layers rest)
  | Logged :: rest => timed_layers rest
  end.

(** The error records of a log that carry the given message. *)
Fixpoint error_records (message : string) (records : list (level * string)) : nat :=
  match records with
  | [] => 0
  | (ERROR, text) :: rest =>
    (if String.eqb text message then 1 else 0) + error_records message rest
  | (INFO, _) :: rest => error_records message rest
  end.

End Decorators.

(** ** More servers and frames to run on *)

Module Scenarios.

(** A server that answers every page of every query with the same hundred
    issues. *)
Definition full_pages : Env :=
  Scenario.env_of
    (Scenario.client [{| sprint_id := 7; sprint_name := "Sprint 7" |}]
       (fun _ _ _ => Ok (replicate 100 Scenario.issue2))).

(** A server whose second page fails. *)
Definition broken_search (query : string) (start_at max_results : nat) : result (list Issue) :=
  if start_at =? 0 then Ok (replicate 100 Scenario.issue2) else Raise (JIRAError "503").

Definition broken_board : Env :=
  Scenario.env_of (Scenario.client [{| sprint_id := 7; sprint_name := "Sprint 7" |}] broken_search).

(** A board with a sprint and no issue at all. *)
Definition idle_board : Env :=
  Scenario.env_of
    (Scenario.client [{| sprint_id := 7; sprint_name := "Sprint 7" |}] (fun _ _ _ => Ok [])).

(** A board whose sprint holds two issues without work log, one with the
    number [5] in a custom field and one with [None] there. *)
Definition estimated (name : string) (estimate : value) : Issue := {|
  key := VStr name;
  summary := VStr "Estimated item";
  priority_name := None;
  labels := VList [];
  assignee := None;
  status_name := VStr "To Do";
  creator_displayName := VStr "Bruno";
  customfield_10160 := Some estimate;
  customfield_10163 := None;
  customfield_10175 := None;
  timespent := VNull;
  project_name := VStr "Gestão de Atividades";
  created := VStr "2024-03-02T08:00:00.000+0000";
  updated := VStr "2024-03-02T08:00:00.000+0000";
  description := VNull;
  customfield_10090 := None;
  customfield_10089 := None;
  customfield_10015 := None;
  customfield_10152 := None;
  parent := None;
  worklogs := [] |}.

Definition estimates_board : Env :=
  Scenario.env_of
    (Scenario.client [{| sprint_id := 7; sprint_name := "Sprint 7" |}]
       (Scenario.paged (sprint_query 7) [estimated "IW-701" (VInt 5); estimated "IW-702" VNull])).

(** The file the pipeline writes for that board. *)
Definition estimates_csv : string :=
  flat_row_header +:+
  "IW-701,Estimated item,No Priority,[],Unassigned,To Do,Bruno,5.0,N/A,N/A,No Time Spent,Gestão de Atividades,2024-03-02T08:00:00.000+0000,2024-03-02T08:00:00.000+0000,No Description,Sprint 7,N/A,N/A,N/A,N/A,N/A,No Worklog,No Worklog,N/A,N/A,N/A,0"
  +:+ String newline EmptyString +:+
  "IW-702,Estimated item,No Priority,[],Unassigned,To Do,Bruno,,N/A,N/A,No Time Spent,Gestão de Atividades,2024-03-02T08:00:00.000+0000,2024-03-02T08:00:00.000+0000,No Description,Sprint 7,N/A,N/A,N/A,N/A,N/A,No Worklog,No Worklog,N/A,N/A,N/A,0"
  +:+ String newline EmptyString.

(** A frame whose second date column holds a text that is no time stamp. *)
Definition bad_started : DataFrame := {|
  columns := ["Issue Key"; "Worklog Created"; "Worklog Started"];
  rows := [ [VStr "IW-696"; VStr "2024-03-05T14:30:00.000+0000"; VStr "yesterday"] ] |}.

(** Sprints listed with an identifier twice. *)
Definition renamed_sprints : list Sprint :=
  [ {| sprint_id := 7; sprint_name := "Sprint 7" |};
    {| sprint_id := 8; sprint_name := "Sprint 8" |};
    {| sprint_id := 7; sprint_name := "Sprint 7 (closed)" |} ].

End Scenarios.

(** ** More predicates of the statements *)

(** Requests that were all answered. *)
Definition answered (reqs : list Request) : Prop :=
  Forall (fun r => exists issues, req_result r = Ok issues) reqs.

(** A request the extractor makes for a board with the sprints [sprint_list]:
    a page of a hundred at a multiple of a hundred, either of the query of
    one of the sprints, filed under the name of a sprint with that
    identifier, or of the query for issues without sprint, filed under
    ["No Sprint"]. *)
Definition sprint_request (sprint_list : list Sprint) (r : Request) : Prop :=
  exists s, s ∈ sprint_list /\ req_jql r = sprint_query (sprint_id s) /\
            req_sprint r = VStr (sprint_name s).

Definition no_sprint_request (r : Request) : Prop :=
  req_jql r = no_sprint_query /\ req_sprint r = VStr "No Sprint".

Definition page_of_hundred (r : Request) : Prop :=
  req_maxResults r = 100 /\ exists k, req_startAt r = 100 * k.

(** How a run stands with the server at its end: every request was
    answered, or the last one failed and its error is the outcome. *)
Definition stopped_by {A} (out : option (result A)) (reqs : list Request) : Prop :=
  answered reqs \/
  exists init r e, reqs = init ++ [r] /\ answered init /\ req_result r = Raise e /\
                   out = Some (Raise e).

(** Rows whose ints a float holds exactly, so that a column [pd.DataFrame]
    turns into floats keeps their values and writes them as [n.0]. *)
Definition small_ints (records : list (dict value)) : Prop :=
  forall row k n, row ∈ records -> dict_get k row = Some (VInt n) ->
    (- 2 ^ 53 <= n <= 2 ^ 53)%Z.

(** Every date cell of the frame is one [reformat_date] accepts. *)
Definition dates_accepted (df : DataFrame) : Prop :=
  forall n col v, col ∈ date_columns -> cell df n col = Some v ->
    exists v', reformat_date v = Ok v'.

(** * Properties *)

(** ** The round trip of the specification *)

Example reformat_date_round_trip :
  reformat_date (VStr "2024-03-05T14:30:00.000000+0000") = Ok (VStr "05/03/2024 14:30:00").
Proof. reflexivity. Qed.

(** What [strptime] makes of some other texts: a zone [Z], an offset with a
    colon, one digit for month and day, a leap day, and texts it refuses. *)
Example reformat_date_vectors :
  reformat_date (VStr "2024-3-5T14:30:00.0Z") = Ok (VStr "05/03/2024 14:30:00") /\
  reformat_date (VStr "2024-03-05t14:30:00.000000+00:00") = Ok (VStr "05/03/2024 14:30:00") /\
  reformat_date (VStr "2024-03-05T4:3:0.1-0330") = Ok (VStr "05/03/2024 04:03:00") /\
  reformat_date (VStr "2024-02-29T14:30:00.000000+0000") = Ok (VStr "29/02/2024 14:30:00") /\
  reformat_date (VStr "2023-02-29T14:30:00.000000+0000") = Raise (ValueError (OutOfRange "day")) /\
  reformat_date (VStr "2024-03-05T14:30:60.000000+0000") = Raise (ValueError (OutOfRange "second")) /\
  reformat_date (VStr "2024-03-05T14:30:00.000000+2400") = Raise (ValueError (OutOfRange "offset")) /\
  reformat_date (VStr "2024-03-05T14:30:00.000000+00001") = Raise (ValueError (UnconvertedData "1")) /\
  reformat_date (VStr "2024-03-05T14:30:00.000000+00:0000") =
    Raise (ValueError (InconsistentColon "+00:0000")) /\
  reformat_date (VStr "05/03/2024 14:30:00") =
    Raise (ValueError (TimeDataMismatch "05/03/2024 14:30:00")) /\
  reformat_date (VInt 5) = Raise (TypeError "strptime() argument 1 must be str").
Proof. repeat split. Qed.

(** ** Rows per issue and per run *)

Lemma fold_append_issue sprint issues data :
  fold_left (append_issue sprint) issues data = data ++ flat_map (rows_of_issue sprint) issues.
Proof.
  revert data. induction issues as [|i issues IH]; intros data; simpl.
  - by rewrite app_nil_r.
  - rewrite IH. unfold append_issue. by rewrite <- app_assoc.
Qed.

Lemma rows_of_issue_length sprint issue :
  List.length (rows_of_issue sprint issue) = Nat.max 1 (List.length (worklogs issue)).
Proof.
  unfold rows_of_issue. destruct (worklogs issue) as [|w ws]; [reflexivity|].
  rewrite length_map. simpl. lia.
Qed.

Lemma flat_map_rows_length sprint issues :
  List.length (flat_map (rows_of_issue sprint) issues) = row_count issues.
Proof.
  unfold row_count. induction issues as [|i issues IH]; simpl; [reflexivity|].
  by rewrite length_app, rows_of_issue_length, IH.
Qed.

Lemma row_count_app l k : row_count (l ++ k) = row_count l + row_count k.
Proof. unfold row_count. by rewrite map_app, list_sum_app. Qed.

Lemma dict_get_set_ne {V} k k' (v : V) dd :
  k <> k' -> dict_get k (dict_set k' v dd) = dict_get k dd.
Proof.
  intros Hne. induction dd as [|[k0 v0] dd IH]; simpl.
  - destruct (String.eqb_spec k k'); congruence.
  - destruct (String.eqb_spec k' k0) as [->|Hk0]; simpl.
    + destruct (String.eqb_spec k k0); congruence.
    + destruct (String.eqb_spec k k0); [reflexivity|exact IH].
Qed.

Lemma dict_get_update_other {V} k (items : list (string * V)) base :
  k ∉ map fst items -> dict_get k (dict_update base items) = dict_get k base.
Proof.
  unfold dict_update. revert base.
  induction items as [|[k' v'] items IH]; intros base Hk; simpl; [reflexivity|].
  rewrite IH.
  - apply dict_get_set_ne. intros ->. apply Hk. simpl. left.
  - intros Hin. apply Hk. simpl. by right.
Qed.

(** The work log keys are not keys of the issue part of a row. *)
Lemma issue_info_keys sprint issue k v :
  dict_get k (issue_info sprint issue) = Some v ->
  k ∉ ["Worklog Author"; "Worklog Comment"; "Worklog Created"; "Worklog Started";
       "Worklog Time Spent"; "Worklog Time Spent Seconds"].
Proof.
  intros Hget Hin.
  repeat (apply elem_of_cons in Hin as [-> | Hin]; [vm_compute in Hget; discriminate|]).
  by apply elem_of_nil in Hin.
Qed.

Lemma row_keeps_issue_info sprint issue row k v :
  row ∈ rows_of_issue sprint issue ->
  dict_get k (issue_info sprint issue) = Some v ->
  dict_get k row = Some v.
Proof.
  intros Hrow Hget. pose proof (issue_info_keys _ _ _ _ Hget) as Hk.
  unfold rows_of_issue in Hrow. destruct (worklogs issue) as [|w ws] eqn:Hw.
  - apply list_elem_of_singleton in Hrow as ->.
    unfold no_worklog_row. by rewrite dict_get_update_other.
  - apply list_elem_of_fmap in Hrow as [wl [-> _]].
    unfold worklog_row. by rewrite dict_get_update_other.
Qed.

Lemma no_worklog_row_sentinels sprint issue :
  is_no_worklog_row (no_worklog_row (issue_info sprint issue)).
Proof. repeat split. Qed.

Lemma extends_refl st : extends st st.
Proof. exists []. simpl. by rewrite !app_nil_r. Qed.

Lemma extends_trans st1 st2 st3 : extends st1 st2 -> extends st2 st3 -> extends st1 st3.
Proof.
  intros [n1 [Hc1 Hd1]] [n2 [Hc2 Hd2]]. exists (n1 ++ n2).
  rewrite Hc2, Hc1, Hd2, Hd1, flat_map_app, <- !app_assoc. done.
Qed.

Lemma page_loop_extends fuel jira jql sprint start_at max_results st out st' :
  page_loop fuel jira jql sprint start_at max_results st = (out, st') -> extends st st'.
Proof.
  revert start_at st. induction fuel as [|fuel IH]; intros start_at st Hrun; simpl in Hrun.
  - injection Hrun as _ <-. apply extends_refl.
  - destruct (search_issues jira jql start_at max_results) as [issues|e] eqn:Hans.
    + set (req := {| req_jql := jql; req_startAt := start_at; req_maxResults := max_results;
                     req_result := Ok issues; req_sprint := sprint |}) in *.
      assert (Hstep : extends st {| combined_data :=
                                      fold_left (append_issue sprint) issues (combined_data st);
                                    calls := calls st ++ [req] |}).
      { exists [req]. simpl. split; [reflexivity|].
        rewrite fold_append_issue. unfold page_rows, issues_of_request. simpl.
        by rewrite app_nil_r. }
      destruct (List.length issues <? max_results).
      * injection Hrun as _ <-. exact Hstep.
      * eapply extends_trans; [exact Hstep|]. eapply IH. exact Hrun.
    + injection Hrun as _ <-.
      exists [{| req_jql := jql; req_startAt := start_at; req_maxResults := max_results;
                 req_result := Raise e; req_sprint := sprint |}].
      simpl. split; [reflexivity|]. by rewrite app_nil_r.
Qed.

Lemma sprint_loop_extends fuel jira items mr st out st' :
  sprint_loop fuel jira items mr st = (out, st') -> extends st st'.
Proof.
  revert mr st. induction items as [|[sid sname] items IH]; intros mr st Hrun; simpl in Hrun.
  - injection Hrun as _ <-. apply extends_refl.
  - destruct (page_loop fuel jira (sprint_query sid) (VStr sname) 0 100 st)
      as [[[[]|e]|] st1] eqn:Hpage;
      pose proof (page_loop_extends _ _ _ _ _ _ _ _ _ Hpage) as Hext.
    + eapply extends_trans; [exact Hext|]. eapply IH. exact Hrun.
    + by injection Hrun as _ <-.
    + by injection Hrun as _ <-.
Qed.

Lemma page_rows_length tr : List.length (flat_map page_rows tr) = row_count (issues_of tr).
Proof.
  unfold issues_of. induction tr as [|r tr IH]; simpl; [reflexivity|].
  rewrite length_app, row_count_app, IH. unfold page_rows at 1.
  by rewrite flat_map_rows_length.
Qed.

Lemma frame_of_records_length records : List.length (rows (frame_of_records records)) = List.length records.
Proof. unfold frame_of_records. simpl. by rewrite length_map. Qed.

(** A run that returns a frame returns the frame of the rows of its pages. *)
Lemma extract_board_frame jira board fuel df tr :
  extract_board jira board fuel = (Some (Ok df), tr) ->
  df = frame_of_records (flat_map page_rows tr).
Proof.
  unfold extract_board. intros Hrun.
  destruct (sprints jira board "active,closed") as [sprint_list|e]; [|discriminate].
  destruct (sprint_loop fuel jira (sprint_map_of sprint_list) None
              {| combined_data := []; calls := [] |}) as [[[mr|e]|] st] eqn:Hloop;
    [|discriminate..].
  apply sprint_loop_extends in Hloop as [n1 [Hc1 Hd1]]. simpl in Hc1, Hd1.
  destruct mr as [mr|]; [|discriminate].
  destruct (page_loop fuel jira no_sprint_query (VStr "No Sprint") 0 mr st)
    as [[[[]|e]|] st1] eqn:Hpage; [|discriminate..].
  apply page_loop_extends in Hpage as [n2 [Hc2 Hd2]].
  injection Hrun as <- <-.
  by rewrite Hd2, Hc2, Hd1, Hc1, flat_map_app.
Qed.

Lemma jira_extraction_frame env fuel jira_server email api_token board_id project_key df tr :
  jira_extraction env fuel jira_server email api_token board_id project_key = (Some (Ok df), tr) ->
  df = frame_of_records (flat_map page_rows tr).
Proof.
  unfold jira_extraction. intros Hrun.
  destruct (resolve_credentials env jira_server email api_token board_id)
    as [[[[server user] token] board]|e]; [|discriminate].
  destruct (JIRA env server user token) as [jira|e]; [|discriminate].
  by apply extract_board_frame in Hrun.
Qed.

(** C1. In every run of the extractor that returns a frame, the frame is
    built from the rows of the pages received, in order, and the number of
    its rows is the sum over the issues received of [max 1 n], [n] being
    the number of work log entries of the issue.  An issue contributes [n]
    rows when [n >= 1] and one row otherwise; its rows all carry the fields
    of the issue; the single row of an issue without work log has the work
    log fields ["No Worklog"], ["No Worklog"], ["N/A"], ["N/A"], ["N/A"],
    [0]. *)
Theorem extractor_row_count env fuel jira_server email api_token board_id project_key df tr :
  jira_extraction env fuel jira_server email api_token board_id project_key = (Some (Ok df), tr) ->
  df = frame_of_records (flat_map page_rows tr) /\
  List.length (rows df) = row_count (issues_of tr) /\
  (forall sprint issue,
     List.length (rows_of_issue sprint issue) = Nat.max 1 (List.length (worklogs issue)) /\
     (1 <= List.length (worklogs issue) ->
      List.length (rows_of_issue sprint issue) = List.length (worklogs issue)) /\
     (forall row k v,
        row ∈ rows_of_issue sprint issue ->
        dict_get k (issue_info sprint issue) = Some v -> dict_get k row = Some v) /\
     (worklogs issue = [] ->
      exists row, rows_of_issue sprint issue = [row] /\ is_no_worklog_row row)).
Proof.
  intros Hrun. apply jira_extraction_frame in Hrun as ->.
  split; [reflexivity|]. split.
  - by rewrite frame_of_records_length, page_rows_length.
  - intros sprint issue. repeat split.
    + apply rows_of_issue_length.
    + intros Hn. rewrite rows_of_issue_length. lia.
    + intros row k v. apply row_keeps_issue_info.
    + intros Hw. exists (no_worklog_row (issue_info sprint issue)). split.
      * unfold rows_of_issue. by rewrite Hw.
      * apply no_worklog_row_sentinels.
Qed.

Lemma extractor_row_count_witness :
  exists df tr,
    jira_extraction Scenario.board 2 None None None None "Gestão de Atividades" = (Some (Ok df), tr) /\
    List.length (rows df) = 3 /\ row_count (issues_of tr) = 3.
Proof.
  eexists _, _. split; [vm_compute; reflexivity|].
  split; [reflexivity|].
  etransitivity;
    [symmetry; eapply (extractor_row_count Scenario.board 2 None None None None
                         "Gestão de Atividades"); vm_compute; reflexivity
    | reflexivity].
Defined.

(** ** The project key *)

(** C3. The queries are built from a fixed project name: the [project_key]
    argument does not reach them.  Asked for the project ["OUTRO"], the
    extractor still searches ['Gestão de Atividades'], sprint by sprint and
    for the issues without sprint. *)
Theorem jira_extraction_ignores_project_key :
  (forall env fuel jira_server email api_token board_id project_key,
     jira_extraction env fuel jira_server email api_token board_id project_key =
     jira_extraction env fuel jira_server email api_token board_id "Gestão de Atividades") /\
  map req_jql (snd (jira_extraction Scenario.board 2 None None None None "OUTRO")) =
    ["project = 'Gestão de Atividades' AND sprint = 7 ORDER BY created DESC";
     "project = 'Gestão de Atividades' AND sprint is EMPTY ORDER BY created DESC"].
Proof. split; [reflexivity | vm_compute; reflexivity]. Qed.

(** ** A board without sprints *)

Lemma sprint_map_of_nil l : sprint_map_of l = [] <-> l = [].
Proof.
  split; [|by intros ->].
  destruct l as [|s l]; [done|]. unfold sprint_map_of. simpl.
  assert (Hne : forall l m, m <> [] ->
            fold_left (fun m s => map_set (sprint_id s) (sprint_name s) m) l m <> []).
  { clear. induction l as [|s l IH]; intros m Hm; simpl; [exact Hm|].
    apply IH. destruct m as [|[k v] m]; simpl; [done|]. by destruct (Z.eqb _ k). }
  intros H. by apply Hne in H.
Qed.

(** C5. When the board has no active or closed sprint, so that the sprint
    map is empty, [jira_extraction] raises [UnboundLocalError] for
    [max_results] where the query for issues without sprint would start:
    no page is requested and no row is returned. *)
Theorem no_sprint_unbound_max_results env fuel jira_server email api_token board_id project_key
    server user token board jira sprint_list :
  resolve_credentials env jira_server email api_token board_id = Ok (server, user, token, board) ->
  JIRA env server user token = Ok jira ->
  sprints jira board "active,closed" = Ok sprint_list ->
  sprint_map_of sprint_list = [] ->
  jira_extraction env fuel jira_server email api_token board_id project_key =
    (Some (Raise (UnboundLocalError "max_results")), []).
Proof.
  intros Hcred Hconn Hsprints Hmap. unfold jira_extraction, extract_board.
  by rewrite Hcred, Hconn, Hsprints, Hmap.
Qed.

Lemma no_sprint_unbound_max_results_witness :
  jira_extraction Scenario.empty_board 5 None None None None "Gestão de Atividades" =
    (Some (Raise (UnboundLocalError "max_results")), []).
Proof.
  eapply (no_sprint_unbound_max_results Scenario.empty_board 5 None None None None _
            "https://example.atlassian.net" "ana@example.com" "token" "12" _ []);
    reflexivity.
Defined.

(** ** Pagination *)

Lemma page_loop_reports fuel jira jql sprint all k st :
  reports jira jql all ->
  (List.length all - page_size * k) / page_size < fuel ->
  page_loop fuel jira jql sprint (page_size * k) page_size st =
    (Some (Ok tt),
     {| combined_data := combined_data st ++ flat_map (rows_of_issue sprint) (drop (page_size * k) all);
        calls := calls st ++
                 map (page_request jql sprint all)
                     (seq k ((List.length all - page_size * k) / page_size + 1)) |}).
Proof.
  intros Hrep. revert k st. induction fuel as [|fuel IH]; intros k st Hfuel; [lia|].
  assert (Hps : page_size <> 0) by (unfold page_size; lia).
  cbn [page_loop]. cbv zeta. rewrite !Hrep.
  set (page := take page_size (drop (page_size * k) all)).
  assert (Hlen : List.length page = Nat.min page_size (List.length all - page_size * k)).
  { unfold page. by rewrite length_take, length_drop. }
  destruct (List.length page <? page_size) eqn:Hshort.
  - apply Nat.ltb_lt in Hshort.
    assert (Hsmall : List.length all - page_size * k < page_size) by lia.
    rewrite (Nat.div_small _ _ Hsmall). cbn [seq map Nat.add].
    do 2 f_equal. f_equal.
    rewrite fold_append_issue. f_equal. f_equal. unfold page.
    apply take_ge. rewrite length_drop. lia.
  - apply Nat.ltb_ge in Hshort.
    assert (Hbig : page_size <= List.length all - page_size * k) by lia.
    assert (Hdiv : (List.length all - page_size * k) / page_size =
                   S ((List.length all - page_size * S k) / page_size)).
    { replace (List.length all - page_size * k)
        with ((List.length all - page_size * S k) + 1 * page_size) by lia.
      rewrite Nat.div_add by exact Hps. lia. }
    replace (page_size * k + page_size) with (page_size * S k) by lia.
    rewrite IH by lia. cbn [combined_data calls]. rewrite Hdiv.
    do 2 f_equal.
    + rewrite fold_append_issue, <- app_assoc, <- flat_map_app. do 2 f_equal.
      unfold page. replace (page_size * S k) with (page_size * k + page_size) by lia.
      rewrite <- drop_drop. apply take_drop.
    + rewrite <- app_assoc. reflexivity.
Qed.

(** C2, as the code has it. When the server reports the [T] issues of a
    query page by page, the loop ends after exactly [T / 100 + 1] requests,
    at the offsets [0, 100, 200, ...], having appended the rows of all [T]
    issues.  That is the ceiling of [T / 100] when [T] is not a multiple of
    100, and one more than it when [T] is a multiple of 100: the last
    request then returns no row. *)
Theorem pagination_requests jira jql sprint all fuel st :
  reports jira jql all ->
  List.length all / page_size < fuel ->
  exists st',
    page_loop fuel jira jql sprint 0 page_size st = (Some (Ok tt), st') /\
    calls st' = calls st ++
      map (page_request jql sprint all) (seq 0 (List.length all / page_size + 1)) /\
    List.length (calls st') = List.length (calls st) + (List.length all / page_size + 1) /\
    combined_data st' = combined_data st ++ flat_map (rows_of_issue sprint) all /\
    (List.length all mod page_size <> 0 ->
     List.length all / page_size + 1 = ceil_div (List.length all) page_size) /\
    (List.length all mod page_size = 0 ->
     List.length all / page_size + 1 = ceil_div (List.length all) page_size + 1 /\
     req_result (page_request jql sprint all (List.length all / page_size)) = Ok []).
Proof.
  intros Hrep Hfuel.
  pose proof (page_loop_reports fuel jira jql sprint all 0 st Hrep) as Hrun.
  replace (page_size * 0) with 0 in Hrun by lia.
  rewrite Nat.sub_0_r in Hrun. specialize (Hrun Hfuel).
  eexists. split; [exact Hrun|]. cbn [calls combined_data].
  assert (Hps : page_size <> 0) by (unfold page_size; lia).
  pose proof (Nat.div_mod (List.length all) page_size Hps) as Hdm.
  pose proof (Nat.mod_upper_bound (List.length all) page_size Hps) as Hmod.
  split; [reflexivity|]. split; [by rewrite length_app, length_map, length_seq|].
  split; [reflexivity|].
  unfold ceil_div, page_request. cbn [req_result]. unfold page_size in *.
  clear Hrun. remember (List.length all / 100) as q eqn:Hq.
  remember (List.length all mod 100) as m eqn:Hm. split.
  - intros Hnz.
    replace (List.length all + 100 - 1) with ((m - 1) + (q + 1) * 100) by lia.
    rewrite Nat.div_add by lia. rewrite Nat.div_small by lia. lia.
  - intros Hz. split.
    + replace (List.length all + 100 - 1) with (99 + q * 100) by lia.
      rewrite Nat.div_add by lia. rewrite (Nat.div_small 99 100) by lia. lia.
    + f_equal. rewrite drop_ge by lia. apply take_nil.
Qed.

(** Against a server that reports every query page by page, the loops end:
    with a bound above the number of full pages of any query, the extractor
    returns a frame for every board that has a sprint. *)
Lemma sprint_loop_returns fuel jira (held : string -> list Issue) items mr st :
  (forall jql, reports jira jql (held jql)) ->
  (forall jql, List.length (held jql) / page_size < fuel) ->
  exists st', sprint_loop fuel jira items mr st =
                (Some (Ok (match items with [] => mr | _ :: _ => Some 100 end)), st').
Proof.
  intros Hrep Hfuel. revert mr st.
  induction items as [|[sid sname] items IH]; intros mr st; [by eexists|].
  cbn [sprint_loop].
  pose proof (page_loop_reports fuel jira (sprint_query sid) (VStr sname) (held (sprint_query sid))
                0 st (Hrep _)) as Hpage.
  rewrite Nat.mul_0_r, Nat.sub_0_r in Hpage. unfold page_size in Hpage, Hfuel.
  rewrite (Hpage (Hfuel _)).
  match goal with
  | |- context [sprint_loop _ _ _ _ ?st1] => destruct (IH (Some 100) st1) as [st' Hrest]
  end.
  exists st'. rewrite Hrest. by destruct items.
Qed.

Lemma jira_extraction_returns env fuel jira_server email api_token board_id project_key
    server user token board jira sprint_list (held : string -> list Issue) :
  resolve_credentials env jira_server email api_token board_id = Ok (server, user, token, board) ->
  JIRA env server user token = Ok jira ->
  sprints jira board "active,closed" = Ok sprint_list ->
  sprint_list <> [] ->
  (forall jql, reports jira jql (held jql)) ->
  (forall jql, List.length (held jql) / page_size < fuel) ->
  exists df tr,
    jira_extraction env fuel jira_server email api_token board_id project_key = (Some (Ok df), tr).
Proof.
  intros Hcred Hconn Hsprints Hne Hrep Hfuel. unfold jira_extraction, extract_board.
  rewrite Hcred, Hconn, Hsprints.
  destruct (sprint_loop_returns fuel jira held (sprint_map_of sprint_list) None
              {| combined_data := []; calls := [] |} Hrep Hfuel) as [st Hloop].
  rewrite Hloop.
  destruct (sprint_map_of sprint_list) eqn:Hmap; [by apply sprint_map_of_nil in Hmap|].
  pose proof (page_loop_reports fuel jira no_sprint_query (VStr "No Sprint") (held no_sprint_query)
                0 st (Hrep _)) as Hpage.
  rewrite Nat.mul_0_r, Nat.sub_0_r in Hpage. unfold page_size in Hpage, Hfuel.
  rewrite (Hpage (Hfuel _)). by eexists _, _.
Qed.

Lemma pagination_requests_witness :
  exists st',
    page_loop 1 (Scenario.client [] (Scenario.paged "q" [Scenario.issue1])) "q" (VStr "s")
      0 page_size {| combined_data := []; calls := [] |} = (Some (Ok tt), st') /\
    List.length (calls st') = 1.
Proof.
  destruct (pagination_requests (Scenario.client [] (Scenario.paged "q" [Scenario.issue1]))
              "q" (VStr "s") [Scenario.issue1] 1 {| combined_data := []; calls := [] |})
    as [st' [Hrun [_ [Hlen _]]]].
  - intros start_at max_results. reflexivity.
  - vm_compute. lia.
  - exists st'. split; [exact Hrun | exact Hlen].
Defined.

(** C2, as stated, fails for a query without issues: the loop makes one
    request, the ceiling of [0 / 100] is zero. *)
Lemma pagination_ceiling_counterexample :
  reports (Scenario.client [] (Scenario.paged "q" [])) "q" [] /\
  fst (page_loop 1 (Scenario.client [] (Scenario.paged "q" [])) "q" (VStr "s")
         0 page_size {| combined_data := []; calls := [] |}) = Some (Ok tt) /\
  List.length (calls (snd (page_loop 1 (Scenario.client [] (Scenario.paged "q" [])) "q" (VStr "s")
                             0 page_size {| combined_data := []; calls := [] |})))
    <> ceil_div (List.length (@nil Issue)) page_size.
Proof.
  split; [intros start_at max_results; reflexivity|].
  split; [reflexivity|]. vm_compute. discriminate.
Qed.

(** ** The errors of [reformat_date] *)

Ltac bind_raise H tac :=
  match type of H with
  | Py.bind ?r _ = Raise _ =>
    let E := fresh "E" in
    destruct r eqn:E; cbn [Py.bind] in H; [|injection H as <-; tac E]
  end.

Lemma py_int_raise s e : Strptime.py_int s = Raise e -> not_schema_error e.
Proof.
  unfold Strptime.py_int. intros H col.
  destruct (Strptime.lstrip s); [by injection H as <-|].
  destruct (Strptime.digits_val _ _); [discriminate|]. by injection H as <-.
Qed.

Ltac raise_site E :=
  first
    [ by apply py_int_raise in E
    | repeat case_match; try discriminate;
      first [ by apply py_int_raise in E | injection E as <-; by intros col ] ].

Lemma gmtoff_of_raise z e : Strptime.gmtoff_of z = Raise e -> not_schema_error e.
Proof.
  unfold Strptime.gmtoff_of. intros H.
  destruct (String.eqb z "Z"); [discriminate|].
  do 5 bind_raise H ltac:(fun E => raise_site E).
  by destruct (bool_decide (get 0 _ = _)).
Qed.

Lemma strptime_raise s e : Strptime.strptime s = Raise e -> not_schema_error e.
Proof.
  unfold Strptime.strptime. intros H.
  destruct (Strptime.regex_match s) as [[f rest]|]; [|injection H as <-; by intros col].
  destruct (negb (String.eqb rest "")); [injection H as <-; by intros col|].
  do 7 bind_raise H ltac:(fun E => by apply py_int_raise in E).
  bind_raise H ltac:(fun E => by apply gmtoff_of_raise in E).
  bind_raise H ltac:(fun E => idtac).
  - bind_raise H ltac:(fun E => idtac).
    + bind_raise H ltac:(fun E => idtac); [discriminate|].
      unfold Strptime.check_time in E9. repeat case_match; try discriminate;
        injection E9 as <-; by intros col.
    + unfold Strptime.check_offset in E8. repeat case_match; try discriminate;
        injection E8 as <-; by intros col.
  - unfold Strptime.check_date in E7. repeat case_match; try discriminate;
      injection E7 as <-; by intros col.
Qed.

Lemma reformat_date_raise v e : reformat_date v = Raise e -> not_schema_error e.
Proof.
  unfold reformat_date. intros H.
  bind_raise H ltac:(fun E => idtac).
  - destruct (_ || _); [discriminate|].
    destruct v; try (injection H as <-; by intros col).
    bind_raise H ltac:(fun E => by apply strptime_raise in E). discriminate.
  - destruct v as [| | | |[|? [|]]|]; try discriminate; injection E as <-; by intros col.
Qed.

(** ** Columns and cells of a frame *)

Lemma index_of_lookup col cols i : index_of col cols = Some i -> cols !! i = Some col.
Proof.
  revert i. induction cols as [|c cols IH]; intros i; simpl; [discriminate|].
  destruct (String.eqb_spec col c) as [->|Hne].
  - by intros [= <-].
  - destruct (index_of col cols) as [j|]; [|discriminate].
    intros [= <-]. simpl. by apply IH.
Qed.

Lemma index_of_elem col cols : col ∈ cols <-> is_Some (index_of col cols).
Proof.
  induction cols as [|c cols IH]; simpl.
  - split; [by intros ?%elem_of_nil | by intros [? ?]].
  - destruct (String.eqb_spec col c) as [->|Hne].
    + split; [by eexists | intros _; left].
    + rewrite elem_of_cons, IH. split.
      * intros [?|[j Hj]]; [done|]. rewrite Hj. by eexists.
      * intros [j Hj]. right. destruct (index_of col cols); [by eexists|discriminate].
Qed.

Lemma has_column_index col df :
  has_column col df = true <-> is_Some (index_of col (columns df)).
Proof. unfold has_column. by rewrite bool_decide_eq_true, index_of_elem. Qed.

Lemma index_of_inj c1 c2 cols i :
  index_of c1 cols = Some i -> index_of c2 cols = Some i -> c1 = c2.
Proof. intros H1%index_of_lookup H2%index_of_lookup. congruence. Qed.

Lemma apply_lookup func cells cells' :
  apply func cells = Ok cells' ->
  forall n, match cells !! n with
            | Some v => exists v', func v = Ok v' /\ cells' !! n = Some v'
            | None => cells' !! n = None
            end.
Proof.
  revert cells'. induction cells as [|c cells IH]; intros cells' H; simpl in H.
  - injection H as <-. by intros n.
  - destruct (func c) as [c'|] eqn:Hc; [|discriminate]. cbn [Py.bind] in H.
    destruct (apply func cells) as [rest'|]; [|discriminate]. injection H as <-.
    intros [|n]; simpl; [by eexists|]. by apply IH.
Qed.

Lemma apply_length func cells cells' :
  apply func cells = Ok cells' -> List.length cells' = List.length cells.
Proof.
  revert cells'. induction cells as [|c cells IH]; intros cells' H; simpl in H.
  - by injection H as <-.
  - destruct (func c) as [c'|]; [|discriminate]. cbn [Py.bind] in H.
    destruct (apply func cells) as [rest'|]; [|discriminate]. injection H as <-.
    simpl. f_equal. by apply IH.
Qed.

Lemma set_column_columns i cells df : columns (set_column i cells df) = columns df.
Proof. reflexivity. Qed.

(** One pass of the second loop of the transformer over column [i]. *)
Lemma rewrite_step df i cells :
  apply reformat_date (column_cells i df) = Ok cells ->
  forall n, match rows df !! n with
            | Some row =>
              exists c, reformat_date (default VNull (row !! i)) = Ok c /\
                        rows (set_column i cells df) !! n = Some (<[i := c]> row)
            | None => rows (set_column i cells df) !! n = None
            end.
Proof.
  intros Happ n. pose proof (apply_lookup _ _ _ Happ n) as Hn.
  unfold column_cells in Hn. rewrite list_lookup_fmap in Hn.
  unfold set_column. simpl. rewrite lookup_zip_with.
  destruct (rows df !! n) as [row|]; simpl in *; [|reflexivity].
  destruct Hn as [c [Hc ->]]. by exists c.
Qed.

Lemma cell_columns_rows df df' n col :
  columns df' = columns df -> rows df' !! n = rows df !! n -> cell df' n col = cell df n col.
Proof. unfold cell. by intros -> ->. Qed.

Lemma fn_insert_same (h : nat -> DataFrame) r df : <[r := df]> h r = df.
Proof. apply fn_lookup_insert. Qed.

(** The second loop touches the frame of its reference only, keeps the
    labels and the number of rows, and keeps the cells under every label
    that is not in its list. *)
Lemma rewrite_columns_frame cols r h out h' :
  rewrite_columns cols r h = (out, h') ->
  (forall r', r' <> r -> h' r' = h r') /\
  columns (h' r) = columns (h r) /\
  List.length (rows (h' r)) = List.length (rows (h r)) /\
  (forall n col, col ∉ cols -> cell (h' r) n col = cell (h r) n col).
Proof.
  revert h. induction cols as [|c cols IH]; intros h Hrun; simpl in Hrun.
  - by injection Hrun as _ <-.
  - destruct (index_of c (columns (h r))) as [i|] eqn:Hi; [|by injection Hrun as _ <-].
    destruct (apply reformat_date (column_cells i (h r))) as [cells|e] eqn:Happ;
      [|by injection Hrun as _ <-].
    apply IH in Hrun as (Hother & Hcols & Hlen & Hcell).
    rewrite fn_insert_same in Hcols, Hlen, Hcell.
    pose proof (rewrite_step _ _ _ Happ) as Hstep.
    repeat split.
    + intros r' Hr'. rewrite Hother by done. by apply fn_lookup_insert_ne.
    + exact Hcols.
    + rewrite Hlen. unfold set_column. cbn [rows].
      rewrite length_zip_with_l_eq; [done|].
      apply apply_length in Happ. unfold column_cells in Happ.
      by rewrite length_map in Happ.
    + intros n col Hcol. apply not_elem_of_cons in Hcol as [Hne Hcol].
      rewrite Hcell by done. unfold cell. rewrite set_column_columns.
      destruct (index_of col (columns (h r))) as [j|] eqn:Hj; [|done].
      assert (Hij : i <> j) by (intros ->; apply Hne; eapply index_of_inj; eauto).
      specialize (Hstep n). cbn [mbind option_bind].
      destruct (rows (h r) !! n) as [row|].
      * destruct Hstep as [c' [_ ->]]. cbn [mbind option_bind].
        by apply list_lookup_insert_ne.
      * by rewrite Hstep.
Qed.

Lemma cell_set_column_other df c i cells n col :
  apply reformat_date (column_cells i df) = Ok cells ->
  index_of c (columns df) = Some i ->
  col <> c ->
  cell (set_column i cells df) n col = cell df n col.
Proof.
  intros Happ Hi Hne. unfold cell. rewrite set_column_columns.
  destruct (index_of col (columns df)) as [j|] eqn:Hj; [|done].
  assert (Hij : i <> j) by (intros ->; apply Hne; eapply index_of_inj; eauto).
  pose proof (rewrite_step _ _ _ Happ n) as Hstep. cbn [mbind option_bind].
  destruct (rows df !! n) as [row|].
  - destruct Hstep as [c' [_ ->]]. cbn [mbind option_bind]. by apply list_lookup_insert_ne.
  - by rewrite Hstep.
Qed.

Lemma cell_set_column_same df c i cells n v :
  apply reformat_date (column_cells i df) = Ok cells ->
  index_of c (columns df) = Some i ->
  cell df n c = Some v ->
  exists v', reformat_date v = Ok v' /\ cell (set_column i cells df) n c = Some v'.
Proof.
  intros Happ Hi. unfold cell. rewrite set_column_columns, Hi. cbn [mbind option_bind].
  pose proof (rewrite_step _ _ _ Happ n) as Hstep.
  destruct (rows df !! n) as [row|]; [|discriminate]. cbn [mbind option_bind].
  intros Hv. destruct Hstep as [c' [Hc' ->]]. rewrite Hv in Hc'. simpl in Hc'.
  exists c'. split; [done|]. cbn [mbind option_bind].
  apply list_lookup_insert_eq. by eapply lookup_lt_Some.
Qed.

(** After the second loop has run to its end, each cell under a label of
    its list holds what [reformat_date] made of it. *)
Lemma rewrite_columns_cells cols r h h' :
  NoDup cols ->
  rewrite_columns cols r h = (Ok tt, h') ->
  forall col n v, col ∈ cols -> cell (h r) n col = Some v ->
    exists v', reformat_date v = Ok v' /\ cell (h' r) n col = Some v'.
Proof.
  revert h. induction cols as [|c cols IH]; intros h Hnd Hrun col n v Hcol Hv.
  - by apply elem_of_nil in Hcol.
  - simpl in Hrun. pose proof (NoDup_cons_1_1 _ _ Hnd) as Hc. apply NoDup_cons_1_2 in Hnd.
    destruct (index_of c (columns (h r))) as [i|] eqn:Hi; [|discriminate].
    destruct (apply reformat_date (column_cells i (h r))) as [cells|e] eqn:Happ;
      [|discriminate].
    destruct (decide (col = c)) as [->|Hne].
    + destruct (cell_set_column_same _ _ _ _ _ _ Happ Hi Hv) as [v' [Hv' Hcell]].
      exists v'. split; [done|].
      apply rewrite_columns_frame in Hrun as (_ & _ & _ & Hkeep).
      rewrite Hkeep by done. by rewrite fn_insert_same.
    + apply elem_of_cons in Hcol as [?|Hcol]; [done|].
      eapply (IH _ Hnd Hrun); [done|].
      rewrite fn_insert_same. by rewrite (cell_set_column_other _ c).
Qed.

(** A row whose cells under the labels of the list are left as they are by
    [reformat_date] is the same row after the second loop, however it ends. *)
Lemma rewrite_columns_fixed_row cols r h out h' n row :
  rewrite_columns cols r h = (out, h') ->
  rows (h r) !! n = Some row ->
  (forall col i v, col ∈ cols -> index_of col (columns (h r)) = Some i ->
                   row !! i = Some v -> reformat_date v = Ok v) ->
  rows (h' r) !! n = Some row.
Proof.
  revert h. induction cols as [|c cols IH]; intros h Hrun Hrow Hfix; simpl in Hrun.
  - by injection Hrun as _ <-.
  - destruct (index_of c (columns (h r))) as [i|] eqn:Hi; [|by injection Hrun as _ <-].
    destruct (apply reformat_date (column_cells i (h r))) as [cells|e] eqn:Happ;
      [|by injection Hrun as _ <-].
    eapply IH; [exact Hrun| |].
    + rewrite fn_insert_same. pose proof (rewrite_step _ _ _ Happ n) as Hstep.
      rewrite Hrow in Hstep. destruct Hstep as [c' [Hc' ->]]. f_equal.
      destruct (row !! i) as [v|] eqn:Hv.
      * simpl in Hc'. rewrite (Hfix c i v) in Hc'; [|left|done|done].
        injection Hc' as <-. by apply list_insert_id.
      * apply list_insert_ge. by apply lookup_ge_None.
    + intros col j v Hcol. rewrite fn_insert_same, set_column_columns.
      apply Hfix. by right.
Qed.

Lemma check_columns_ok cols df :
  check_columns cols df = Ok tt <-> forall col, col ∈ cols -> has_column col df = true.
Proof.
  induction cols as [|c cols IH]; simpl.
  - split; [by intros _ col ?%elem_of_nil | done].
  - destruct (has_column c df) eqn:Hc; simpl.
    + rewrite IH. split.
      * intros H col [->|?]%elem_of_cons; auto.
      * intros H col Hcol. apply H. by right.
    + split; [discriminate|]. intros H. specialize (H c). rewrite Hc in H.
      discriminate H. left.
Qed.

Lemma check_columns_raise cols df e :
  check_columns cols df = Raise e ->
  exists col, col ∈ cols /\ has_column col df = false /\ e = ValueError (ColumnNotFound col).
Proof.
  induction cols as [|c cols IH]; simpl; [discriminate|].
  destruct (has_column c df) eqn:Hc; simpl.
  - intros [col (? & ? & ?)]%IH. exists col. split; [by right|done].
  - intros [= <-]. exists c. split; [left|done].
Qed.

Lemma rewrite_columns_raise cols r h e h' :
  (forall col, col ∈ cols -> has_column col (h r) = true) ->
  rewrite_columns cols r h = (Raise e, h') -> not_schema_error e.
Proof.
  revert h. induction cols as [|c cols IH]; intros h Hhas Hrun; simpl in Hrun; [discriminate|].
  destruct (index_of c (columns (h r))) as [i|] eqn:Hi.
  - destruct (apply reformat_date (column_cells i (h r))) as [cells|e'] eqn:Happ.
    + eapply IH; [|exact Hrun]. intros col Hcol. rewrite fn_insert_same.
      unfold has_column. rewrite set_column_columns. apply Hhas. by right.
    + injection Hrun as <- _. clear -Happ.
      revert Happ. generalize (column_cells i (h r)). intros cells.
      induction cells as [|v cells IHc]; simpl; [discriminate|].
      destruct (reformat_date v) eqn:Hv; cbn [Py.bind].
      * destruct (apply reformat_date cells); [discriminate|].
        intros [= <-]. by apply IHc.
      * intros [= <-]. by eapply reformat_date_raise.
  - exfalso. assert (Hc : has_column c (h r) = true) by (apply Hhas; left).
    apply has_column_index in Hc as [j Hj]. congruence.
Qed.

(** ** The transformer *)

Lemma date_columns_NoDup : NoDup date_columns.
Proof. by apply (bool_decide_unpack _). Qed.

(** C4, as the code has it. The transformer returns the reference it was
    given: no frame is created.  The frame of that reference is rewritten
    in place, so that after a call that returns, each of its cells under
    the two date labels holds what [reformat_date] made of it; the frames
    of all other references are as they were. *)
Theorem transform_in_place r h out h' :
  transform_extracted_data r h = (out, h') ->
  (forall r', r' <> r -> h' r' = h r') /\
  (forall r', out = Ok r' ->
     r' = r /\
     forall col n v, col ∈ date_columns -> cell (h r) n col = Some v ->
       exists v', reformat_date v = Ok v' /\ cell (h' r) n col = Some v').
Proof.
  unfold transform_extracted_data. intros Hrun.
  destruct (check_columns date_columns (h r)) as [[]|e]; [|by injection Hrun as <- <-].
  destruct (rewrite_columns date_columns r h) as [[[]|e] h1] eqn:Hrw;
    injection Hrun as <- <-.
  - pose proof (rewrite_columns_frame _ _ _ _ _ Hrw) as (Hother & _).
    split; [exact Hother|]. intros r' [= <-]. split; [done|].
    by apply rewrite_columns_cells; [apply date_columns_NoDup|].
  - pose proof (rewrite_columns_frame _ _ _ _ _ Hrw) as (Hother & _).
    split; [exact Hother|]. intros r' [=].
Qed.

Lemma transform_in_place_witness :
  exists v', reformat_date (VStr "2024-03-05T14:30:00.000000+0000") = Ok v' /\
    cell (snd (transform_extracted_data 0 (Frames.store_of Frames.raw)) 0) 0 "Worklog Created"
      = Some v'.
Proof.
  destruct (transform_in_place 0 (Frames.store_of Frames.raw)
              (fst (transform_extracted_data 0 (Frames.store_of Frames.raw)))
              (snd (transform_extracted_data 0 (Frames.store_of Frames.raw))))
    as [_ Hret]; [by destruct (transform_extracted_data _ _)|].
  destruct (Hret 0) as [_ Hcells]; [vm_compute; reflexivity|].
  apply (Hcells "Worklog Created" 0); [left | vm_compute; reflexivity].
Defined.

(** C4, as stated, fails: the call returns the reference of its input, and
    the frame of that reference is no longer what it was. *)
Lemma transform_mutates_input :
  fst (transform_extracted_data 0 (Frames.store_of Frames.raw)) = Ok 0 /\
  snd (transform_extracted_data 0 (Frames.store_of Frames.raw)) 0 <> Frames.store_of Frames.raw 0.
Proof. split; [vm_compute; reflexivity | vm_compute; discriminate]. Qed.

(** C7. When the frame has both date columns and the transformer returns,
    the frame it returns has the labels and the number of rows of the
    input, and the same cell as the input under every label other than
    ["Worklog Created"] and ["Worklog Started"]; so ["Created"] and
    ["Updated"] keep the format of the source. *)
Theorem transform_keeps_other_fields r h r' h' :
  (forall col, col ∈ date_columns -> has_column col (h r) = true) ->
  transform_extracted_data r h = (Ok r', h') ->
  columns (h' r') = columns (h r) /\
  List.length (rows (h' r')) = List.length (rows (h r)) /\
  (forall n col, col ∉ date_columns -> cell (h' r') n col = cell (h r) n col) /\
  (forall n, cell (h' r') n "Created" = cell (h r) n "Created" /\
             cell (h' r') n "Updated" = cell (h r) n "Updated").
Proof.
  unfold transform_extracted_data. intros _ Hrun.
  destruct (check_columns date_columns (h r)) as [[]|e]; [|discriminate].
  destruct (rewrite_columns date_columns r h) as [[[]|e] h1] eqn:Hrw; [|discriminate].
  injection Hrun as <- <-.
  apply rewrite_columns_frame in Hrw as (_ & Hcols & Hlen & Hcell).
  repeat split; try done.
  - apply Hcell. by apply (bool_decide_unpack _).
  - apply Hcell. by apply (bool_decide_unpack _).
Qed.

Lemma transform_keeps_other_fields_witness :
  cell (snd (transform_extracted_data 0 (Frames.store_of Frames.raw)) 0) 0 "Created" =
    Some (VStr "2024-03-01T08:00:00.000+0000").
Proof.
  destruct (transform_keeps_other_fields 0 (Frames.store_of Frames.raw) 0
              (snd (transform_extracted_data 0 (Frames.store_of Frames.raw))))
    as (_ & _ & _ & Hkeep).
  - intros col Hcol. unfold date_columns in Hcol.
    repeat (apply elem_of_cons in Hcol as [->|Hcol]; [vm_compute; reflexivity|]).
    by apply elem_of_nil in Hcol.
  - vm_compute. reflexivity.
  - destruct (Hkeep 0) as [-> _]. vm_compute. reflexivity.
Defined.

(** C8. The transformer raises the missing column error exactly when one of
    ["Worklog Created"] and ["Worklog Started"] is not a label of the
    frame, and it then raises before a row is read: the store, and with it
    the input frame, is as it was. *)
Theorem schema_error_iff r h :
  (schema_error (fst (transform_extracted_data r h)) <->
   exists col, col ∈ date_columns /\ has_column col (h r) = false) /\
  (schema_error (fst (transform_extracted_data r h)) ->
   snd (transform_extracted_data r h) = h).
Proof.
  unfold transform_extracted_data.
  destruct (check_columns date_columns (h r)) as [[]|e] eqn:Hcheck.
  - pose proof (proj1 (check_columns_ok _ _) Hcheck) as Hhas.
    assert (Hno : ~ schema_error (fst (match rewrite_columns date_columns r h with
                                        | (Ok _, h'0) => (Ok r, h'0)
                                        | (Raise e, h'0) => (Raise e, h'0)
                                        end))).
    { destruct (rewrite_columns date_columns r h) as [[[]|e] h1] eqn:Hrw; simpl.
      - intros [col [_ [=]]].
      - intros [col [_ [= ->]]]. by eapply (rewrite_columns_raise _ _ _ _ _ Hhas Hrw). }
    split; [|done]. split; [done|].
    intros [col [Hcol Hfalse]]. rewrite Hhas in Hfalse; done.
  - apply check_columns_raise in Hcheck as [col (Hcol & Hfalse & ->)]. simpl.
    split; [|done]. split; [by exists col | intros _; by exists col].
Qed.

Lemma schema_error_iff_witness :
  schema_error (fst (transform_extracted_data 0 (Frames.store_of Frames.no_started))) /\
  snd (transform_extracted_data 0 (Frames.store_of Frames.no_started)) =
    Frames.store_of Frames.no_started.
Proof.
  destruct (schema_error_iff 0 (Frames.store_of Frames.no_started)) as [[_ Hraise] Hsame].
  assert (Herr : schema_error
                   (fst (transform_extracted_data 0 (Frames.store_of Frames.no_started)))).
  { apply Hraise. exists "Worklog Started". split; [|vm_compute; reflexivity].
    unfold date_columns. right. left. }
  split; [exact Herr | exact (Hsame Herr)].
Defined.

Lemma apply_total func cells :
  (forall v, v ∈ cells -> exists v', func v = Ok v') -> exists cells', apply func cells = Ok cells'.
Proof.
  induction cells as [|c cells IH]; intros Hall; simpl; [by eexists|].
  destruct (Hall c) as [c' ->]; [left|]. cbn [Py.bind].
  destruct IH as [cells' ->]; [intros v Hv; apply Hall; by right|]. by eexists.
Qed.

(** When [reformat_date] leaves every cell under the labels of the list as
    it is, the second loop runs to its end and no row changes. *)
Lemma rewrite_columns_all_fixed cols r h :
  (forall col, col ∈ cols -> has_column col (h r) = true) ->
  (forall n row col i, rows (h r) !! n = Some row -> col ∈ cols ->
     index_of col (columns (h r)) = Some i ->
     reformat_date (default VNull (row !! i)) = Ok (default VNull (row !! i))) ->
  exists h', rewrite_columns cols r h = (Ok tt, h') /\
             columns (h' r) = columns (h r) /\
             forall n, rows (h' r) !! n = rows (h r) !! n.
Proof.
  revert h. induction cols as [|c cols IH]; intros h Hhas Hfix; simpl; [by eexists|].
  assert (Hc : has_column c (h r) = true) by (apply Hhas; left).
  apply has_column_index in Hc as [i Hi]. rewrite Hi.
  destruct (apply_total reformat_date (column_cells i (h r))) as [cells Happ].
  { intros v Hv. unfold column_cells in Hv.
    apply list_elem_of_fmap in Hv as [row [-> Hrow]].
    apply list_elem_of_lookup in Hrow as [n Hn]. eexists. eapply Hfix; [exact Hn|left|exact Hi]. }
  rewrite Happ.
  assert (Hrows : forall n, rows (set_column i cells (h r)) !! n = rows (h r) !! n).
  { intros n. pose proof (rewrite_step _ _ _ Happ n) as Hstep.
    destruct (rows (h r) !! n) as [row|] eqn:Hn; [|done].
    destruct Hstep as [c' [Hc' ->]]. f_equal.
    rewrite (Hfix n row c i Hn) in Hc'; [|left|done]. injection Hc' as <-.
    destruct (row !! i) as [v|] eqn:Hv; simpl.
    - by apply list_insert_id.
    - apply list_insert_ge. by apply lookup_ge_None. }
  destruct (IH (<[r := set_column i cells (h r)]> h)) as [h' (Hrun & Hcols & Hsame)].
  - intros col Hcol. rewrite fn_insert_same. unfold has_column.
    rewrite set_column_columns. apply Hhas. by right.
  - intros n row col j. rewrite fn_insert_same, set_column_columns, Hrows.
    intros Hn Hcol. eapply Hfix; [exact Hn|by right].
  - exists h'. split; [exact Hrun|]. rewrite fn_insert_same in Hcols, Hsame.
    split; [exact Hcols|]. intros n. by rewrite Hsame, Hrows.
Qed.

Lemma cell_row_lookup df n col v :
  cell df n col = Some v ->
  exists i row, index_of col (columns df) = Some i /\ rows df !! n = Some row /\ row !! i = Some v.
Proof.
  unfold cell. destruct (index_of col (columns df)) as [i|]; [|discriminate].
  cbn [mbind option_bind]. destruct (rows df !! n) as [row|]; [|discriminate].
  cbn [mbind option_bind]. intros Hv. by exists i, row.
Qed.

(** One call leaves a row whose two date cells are ["N/A"] as it is,
    whatever the outcome of the call. *)
Lemma transform_sentinel_row r h n :
  (forall col, col ∈ date_columns -> cell (h r) n col = Some (VStr "N/A")) ->
  columns (snd (transform_extracted_data r h) r) = columns (h r) /\
  rows (snd (transform_extracted_data r h) r) !! n = rows (h r) !! n.
Proof.
  intros Hna. unfold transform_extracted_data.
  destruct (check_columns date_columns (h r)) as [[]|e]; [|done].
  destruct (rewrite_columns date_columns r h) as [out h1] eqn:Hrw.
  assert (Hgoal : columns (h1 r) = columns (h r) /\ rows (h1 r) !! n = rows (h r) !! n).
  { pose proof (rewrite_columns_frame _ _ _ _ _ Hrw) as (_ & Hcols & _). split; [done|].
    destruct (cell_row_lookup _ _ _ _ (Hna "Worklog Created" ltac:(left)))
      as (i0 & row & _ & Hrow & _).
    rewrite Hrow. eapply rewrite_columns_fixed_row; [exact Hrw|exact Hrow|].
    intros col i v Hcol Hi Hv.
    destruct (cell_row_lookup _ _ _ _ (Hna col Hcol)) as (i' & row' & Hi' & Hrow' & Hv').
    assert (v = VStr "N/A") as -> by congruence. reflexivity. }
  by destruct out.
Qed.

(** C9. A row whose ["Worklog Created"] and ["Worklog Started"] cells are
    ["N/A"] is the same row after one call of the transformer and after a
    second one, so both cells are still ["N/A"]; and on a frame with both
    date columns whose rows are all of that kind, both calls return and
    leave the rows as they were. *)
Theorem transform_sentinel_idempotent r h n :
  (forall col, col ∈ date_columns -> cell (h r) n col = Some (VStr "N/A")) ->
  let h1 := snd (transform_extracted_data r h) in
  let h2 := snd (transform_extracted_data r h1) in
  (forall col, col ∈ date_columns -> cell (h1 r) n col = Some (VStr "N/A")) /\
  (forall col, col ∈ date_columns -> cell (h2 r) n col = Some (VStr "N/A")) /\
  rows (h1 r) !! n = rows (h r) !! n /\
  rows (h2 r) !! n = rows (h1 r) !! n /\
  ((forall col, col ∈ date_columns -> has_column col (h r) = true) ->
   (forall m col, m < List.length (rows (h r)) -> col ∈ date_columns ->
      cell (h r) m col = Some (VStr "N/A")) ->
   fst (transform_extracted_data r h) = Ok r /\
   fst (transform_extracted_data r h1) = Ok r /\
   forall m, rows (h2 r) !! m = rows (h r) !! m).
Proof.
  intros Hna h1 h2.
  destruct (transform_sentinel_row r h n Hna) as [Hc1 Hr1].
  assert (Hna1 : forall col, col ∈ date_columns -> cell (h1 r) n col = Some (VStr "N/A")).
  { intros col Hcol. unfold h1. rewrite (cell_columns_rows (h r)); auto. }
  destruct (transform_sentinel_row r h1 n Hna1) as [Hc2 Hr2].
  split; [exact Hna1|]. split.
  { intros col Hcol. unfold h2. rewrite (cell_columns_rows (h1 r)); auto. }
  split; [exact Hr1|]. split; [exact Hr2|].
  intros Hhas Hall.
  assert (Hrun : forall g, (forall col, col ∈ date_columns -> has_column col (g r) = true) ->
            (forall m col, m < List.length (rows (g r)) -> col ∈ date_columns ->
               cell (g r) m col = Some (VStr "N/A")) ->
            fst (transform_extracted_data r g) = Ok r /\
            columns (snd (transform_extracted_data r g) r) = columns (g r) /\
            forall m, rows (snd (transform_extracted_data r g) r) !! m = rows (g r) !! m).
  { intros g Hg Hgall. unfold transform_extracted_data.
    rewrite (proj2 (check_columns_ok _ _) Hg).
    destruct (rewrite_columns_all_fixed date_columns r g Hg) as [g' (-> & Hcols & Hrows)]; [|done].
    intros m row col i Hm Hcol Hi.
    destruct (cell_row_lookup _ _ _ _ (Hgall m col (lookup_lt_Some _ _ _ Hm) Hcol))
      as (i' & row' & Hi' & Hrow' & Hv').
    assert (i' = i) as -> by congruence. assert (row' = row) as -> by congruence.
    by rewrite Hv'. }
  destruct (Hrun h Hhas Hall) as (Hok1 & Hcols1 & Hrows1). fold h1 in Hcols1, Hrows1.
  destruct (Hrun h1) as (Hok2 & Hcols2 & Hrows2).
  - intros col Hcol. unfold has_column. rewrite Hcols1. by apply Hhas.
  - intros m col Hm Hcol. rewrite (cell_columns_rows (h r)); auto.
    apply Hall; [|done]. apply lookup_lt_is_Some. rewrite <- Hrows1.
    by apply lookup_lt_is_Some.
  - fold h2 in Hrows2. split; [exact Hok1|]. split; [exact Hok2|].
    intros m. by rewrite Hrows2, Hrows1.
Qed.

Lemma transform_sentinel_idempotent_witness :
  cell (snd (transform_extracted_data 0
          (snd (transform_extracted_data 0 (Frames.store_of Frames.raw)))) 0) 1 "Worklog Started"
    = Some (VStr "N/A").
Proof.
  destruct (transform_sentinel_idempotent 0 (Frames.store_of Frames.raw) 1) as (_ & H2 & _).
  - intros col Hcol. unfold date_columns in Hcol.
    repeat (apply elem_of_cons in Hcol as [->|Hcol]; [vm_compute; reflexivity|]).
    by apply elem_of_nil in Hcol.
  - apply H2. right. left.
Defined.

(** ** Matching a time stamp *)

Section Matching.

Import Strptime.
Local Open Scope Z_scope.

Lemma digit_char_cases n :
  digit_char n = "0"%char \/ digit_char n = "1"%char \/ digit_char n = "2"%char \/
  digit_char n = "3"%char \/ digit_char n = "4"%char \/ digit_char n = "5"%char \/
  digit_char n = "6"%char \/ digit_char n = "7"%char \/ digit_char n = "8"%char \/
  digit_char n = "9"%char.
Proof.
  unfold digit_char. pose proof (Z.mod_pos_bound n 10 ltac:(lia)) as Hb.
  destruct (Z.eq_dec (n mod 10) 0) as [->|]; [tauto|].
  destruct (Z.eq_dec (n mod 10) 1) as [->|]; [tauto|].
  destruct (Z.eq_dec (n mod 10) 2) as [->|]; [tauto|].
  destruct (Z.eq_dec (n mod 10) 3) as [->|]; [tauto|].
  destruct (Z.eq_dec (n mod 10) 4) as [->|]; [tauto|].
  destruct (Z.eq_dec (n mod 10) 5) as [->|]; [tauto|].
  destruct (Z.eq_dec (n mod 10) 6) as [->|]; [tauto|].
  destruct (Z.eq_dec (n mod 10) 7) as [->|]; [tauto|].
  destruct (Z.eq_dec (n mod 10) 8) as [->|]; [tauto|].
  destruct (Z.eq_dec (n mod 10) 9) as [->|]; [tauto|].
  lia.
Qed.

Ltac by_digit n :=
  destruct (digit_char_cases n) as [H|[H|[H|[H|[H|[H|[H|[H|[H|H]]]]]]]]]; rewrite H; reflexivity.

Lemma digit_digit_char n : digit (digit_char n) = true.
Proof. by_digit n. Qed.

Lemma colon_digit_char n : is_char ":" (digit_char n) = false.
Proof. by_digit n. Qed.

Lemma lstrip_digit_char n s : lstrip (String (digit_char n) s) = String (digit_char n) s.
Proof. by_digit n. Qed.

Lemma digit_val_digit_char n : digit_val (digit_char n) = n mod 10.
Proof.
  unfold digit_val, digit_char. pose proof (Z.mod_pos_bound n 10 ltac:(lia)) as Hb.
  rewrite nat_ascii_embedding by lia. lia.
Qed.

Lemma digits_val_digit_char acc n s :
  digits_val acc (String (digit_char n) s) = digits_val (10 * acc + n mod 10) s.
Proof. cbn [digits_val]. by rewrite digit_digit_char, digit_val_digit_char. Qed.

Lemma py_int_pad2 n : 0 <= n <= 99 -> py_int (pad2 n) = Ok n.
Proof.
  intros Hn. unfold py_int, pad2. rewrite lstrip_digit_char.
  rewrite !digits_val_digit_char. cbn [digits_val].
  replace (10 * (10 * 0 + (n / 10) mod 10) + n mod 10) with n; [|Z.to_euclidean_division_equations; lia].
  reflexivity.
Qed.

Lemma py_int_pad4 n : 0 <= n <= 9999 -> py_int (pad4 n) = Ok n.
Proof.
  intros Hn. unfold py_int, pad4, pad2. rewrite lstrip_digit_char.
  rewrite !digits_val_digit_char. cbn [digits_val].
  replace (10 * (10 * (10 * (10 * 0 + (n / 1000) mod 10) + (n / 100) mod 10) + (n / 10) mod 10)
           + n mod 10) with n; [|Z.to_euclidean_division_equations; lia].
  reflexivity.
Qed.

Lemma py_int_pad6 n : 0 <= n <= 999999 -> py_int (pad6 n) = Ok n.
Proof.
  intros Hn. unfold py_int, pad6, pad4, pad2. rewrite lstrip_digit_char.
  rewrite !digits_val_digit_char. cbn [digits_val].
  replace (10 * (10 * (10 * (10 * (10 * (10 * 0 + (n / 100000) mod 10) + (n / 10000) mod 10)
           + (n / 1000) mod 10) + (n / 100) mod 10) + (n / 10) mod 10) + n mod 10) with n;
    [|Z.to_euclidean_division_equations; lia].
  reflexivity.
Qed.

End Matching.

(** ** The regular expression on a time stamp of the source picture *)

Section Regex.

Import Strptime.
Local Open Scope Z_scope.

Lemma length_append pre rest :
  String.length (pre +:+ rest) = (String.length pre + String.length rest)%nat.
Proof. induction pre as [|c pre IH]; simpl; [reflexivity|by rewrite IH]. Qed.

Lemma substring_prefix pre rest :
  substring 0 (String.length (pre +:+ rest) - String.length rest) (pre +:+ rest) = pre.
Proof.
  rewrite length_append.
  replace (String.length pre + String.length rest - String.length rest)%nat
    with (String.length pre) by lia.
  induction pre as [|c pre IH]; simpl.
  - by destruct rest.
  - by rewrite IH.
Qed.

Lemma group_accepts (m : forall R, matcher R) pre :
  accepts m pre ->
  forall R (k : string -> string -> option R) rest r,
    k pre rest = Some r -> group (m R) k (pre +:+ rest) = Some r.
Proof.
  intros Hacc R k rest r Hk. unfold group. apply Hacc.
  by rewrite substring_prefix.
Qed.

Ltac enum n lo cnt tac :=
  let i := fresh "i" in
  let Hi := fresh "Hi" in
  assert (exists i : nat, (i < cnt)%nat /\ n = lo + Z.of_nat i) as [i [Hi ->]]
    by (exists (Z.to_nat (n - lo)); lia);
  repeat (destruct i as [|i]; [tac | try (exfalso; lia)]).

Lemma accepts_Y Y : accepts (@re_Y) (pad4 Y).
Proof.
  intros R k rest r Hk. cbv [re_Y seq dig cls pad4 pad2 String.append].
  by rewrite !digit_digit_char.
Qed.

Lemma accepts_m m : 1 <= m <= 12 -> accepts (@re_m) (pad2 m).
Proof.
  intros Hm R k rest r Hk.
  enum m 1 12%nat ltac:(vm_compute; rewrite Hk; reflexivity).
Qed.

Lemma accepts_d dd : 1 <= dd <= 31 -> accepts (@re_d) (pad2 dd).
Proof.
  intros Hd R k rest r Hk.
  enum dd 1 31%nat ltac:(vm_compute; rewrite Hk; reflexivity).
Qed.

Lemma accepts_H H : 0 <= H <= 23 -> accepts (@re_H) (pad2 H).
Proof.
  intros HH R k rest r Hk.
  enum H 0 24%nat ltac:(vm_compute; rewrite Hk; reflexivity).
Qed.

Lemma accepts_M M : 0 <= M <= 59 -> accepts (@re_M) (pad2 M).
Proof.
  intros HM R k rest r Hk.
  enum M 0 60%nat ltac:(vm_compute; rewrite Hk; reflexivity).
Qed.

Lemma accepts_S S : 0 <= S <= 59 -> accepts (@re_S) (pad2 S).
Proof.
  intros HS R k rest r Hk.
  enum S 0 60%nat ltac:(vm_compute; rewrite Hk; reflexivity).
Qed.

Lemma accepts_f f : accepts (@re_f) (pad6 f).
Proof.
  intros R k rest r Hk.
  cbv [re_f rep_1_6 opt alt seq eps dig cls pad6 pad4 pad2 String.append].
  by rewrite !digit_digit_char, Hk.
Qed.

Lemma z_minutes_end om R (k : string -> option R) r :
  0 <= om <= 59 -> k EmptyString = Some r -> re_z_minutes k (pad2 om) = Some r.
Proof.
  intros Hom Hk.
  enum om 0 60%nat ltac:(vm_compute; rewrite Hk; reflexivity).
Qed.

Lemma z_end negative oh om R (k : string -> option R) r :
  0 <= om <= 59 -> k EmptyString = Some r ->
  re_z k (String (sign_char negative) (pad2 oh +:+ pad2 om)) = Some r.
Proof.
  intros Hom Hk. pose proof (z_minutes_end om R k r Hom Hk) as Htail.
  destruct negative; cbv [re_z alt seq chr dig cls sign_char is_char String.append];
    cbn [Ascii.eqb Bool.eqb]; cbv [pad2 String.append] in *; rewrite !digit_digit_char;
    by rewrite Htail.
Qed.

(** The fields of a valid time stamp are the groups of its match, and
    nothing is left over. *)
Lemma regex_match_source Y m dd H M S f negative oh om :
  valid_fields Y m dd H M S f oh om ->
  1 <= dd <= 31 ->
  regex_match (source_text Y m dd H M S f negative oh om) =
    Some (Found (pad4 Y) (pad2 m) (pad2 dd) (pad2 H) (pad2 M) (pad2 S) (pad6 f)
                (String (sign_char negative) (pad2 oh +:+ pad2 om)), EmptyString).
Proof.
  intros (HY & Hm & Hd & HH & HM & HS & Hf & Hoh & Hom) Hd31.
  unfold regex_match, format_regex, source_text.
  apply (group_accepts (@re_Y) _ (accepts_Y Y)).
  apply (group_accepts (@re_m) _ (accepts_m m Hm)).
  apply (group_accepts (@re_d) _ (accepts_d dd Hd31)).
  apply (group_accepts (@re_H) _ (accepts_H H HH)).
  apply (group_accepts (@re_M) _ (accepts_M M HM)).
  apply (group_accepts (@re_S) _ (accepts_S S HS)).
  apply (group_accepts (@re_f) _ (accepts_f f)).
  unfold group. apply z_end; [exact Hom|]. reflexivity.
Qed.

Lemma sign_not_Z negative s : String.eqb (String (sign_char negative) s) "Z" = false.
Proof. by destruct negative. Qed.

(** The offset of a time stamp of the source picture. *)
Lemma gmtoff_of_source negative oh om :
  0 <= oh <= 99 -> 0 <= om <= 99 ->
  gmtoff_of (String (sign_char negative) (pad2 oh +:+ pad2 om)) =
    Ok (if negative then (- (oh * 60 * 60 + om * 60 + 0), - 0)
        else (oh * 60 * 60 + om * 60 + 0, 0)).
Proof.
  intros Hoh Hom. unfold gmtoff_of. rewrite sign_not_Z.
  pose proof (py_int_pad2 oh Hoh) as Hh. pose proof (py_int_pad2 om Hom) as Hm.
  cbv [pad2 String.append] in *. cbn [get].
  rewrite bool_decide_eq_false_2.
  2:{ intros [= Hc]. pose proof (colon_digit_char (om / 10)) as Hne.
      rewrite Hc in Hne. vm_compute in Hne. discriminate Hne. }
  cbn [Py.bind]. cbv [slice slice_from]. cbn [String.length Nat.sub substring].
  rewrite Hh, Hm. cbn [Py.bind String.eqb zeros String.append].
  by destruct negative.
Qed.

End Regex.

(** ** [reformat_date] on the values of a date column *)

Section Reformat.

Import Strptime.
Local Open Scope Z_scope.

Lemma days_in_month_le Y m : days_in_month Y m <= 31.
Proof. unfold days_in_month. repeat case_match; lia. Qed.

Lemma check_date_ok Y m dd :
  1 <= Y <= 9999 -> 1 <= m <= 12 -> 1 <= dd <= days_in_month Y m -> check_date Y m dd = Ok tt.
Proof.
  intros HY Hm Hd. unfold check_date.
  rewrite (proj2 (Z.leb_le 1 Y)), (proj2 (Z.leb_le Y 9999)) by lia.
  rewrite (proj2 (Z.leb_le 1 m)), (proj2 (Z.leb_le m 12)) by lia.
  by rewrite (proj2 (Z.leb_le 1 dd)), (proj2 (Z.leb_le dd (days_in_month Y m))) by lia.
Qed.

Lemma check_offset_ok (negative : bool) oh om :
  0 <= oh <= 23 -> 0 <= om <= 59 ->
  check_offset (fst (if negative then (- (oh * 60 * 60 + om * 60 + 0), - 0)
                     else (oh * 60 * 60 + om * 60 + 0, 0)))
               (snd (if negative then (- (oh * 60 * 60 + om * 60 + 0), - 0)
                     else (oh * 60 * 60 + om * 60 + 0, 0))) = Ok tt.
Proof.
  intros Hoh Hom. unfold check_offset.
  destruct negative; cbn [fst snd].
  - by rewrite (proj2 (Z.ltb_lt (- 86400000000) (- (oh * 60 * 60 + om * 60 + 0) * 1000000 + - 0))),
      (proj2 (Z.ltb_lt (- (oh * 60 * 60 + om * 60 + 0) * 1000000 + - 0) 86400000000)) by lia.
  - by rewrite (proj2 (Z.ltb_lt (- 86400000000) ((oh * 60 * 60 + om * 60 + 0) * 1000000 + 0))),
      (proj2 (Z.ltb_lt ((oh * 60 * 60 + om * 60 + 0) * 1000000 + 0) 86400000000)) by lia.
Qed.

Lemma check_time_ok H M S f :
  0 <= H <= 23 -> 0 <= M <= 59 -> 0 <= S <= 59 -> 0 <= f <= 999999 ->
  check_time H M S f = Ok tt.
Proof.
  intros HH HM HS Hf. unfold check_time.
  by rewrite (proj2 (Z.leb_le H 23)), (proj2 (Z.leb_le M 59)), (proj2 (Z.leb_le S 59)),
    (proj2 (Z.leb_le f 999999)) by lia.
Qed.

(** Parsing a valid time stamp of the source picture gives back its fields. *)
Lemma strptime_source Y m dd H M S f negative oh om :
  valid_fields Y m dd H M S f oh om ->
  exists secs micros,
    strptime (source_text Y m dd H M S f negative oh om) =
      Ok (Datetime Y m dd H M S f secs micros).
Proof.
  intros Hv. pose proof Hv as (HY & Hm & Hd & HH & HM & HS & Hf & Hoh & Hom).
  pose proof (days_in_month_le Y m) as Hdim.
  unfold strptime. rewrite (regex_match_source _ _ _ _ _ _ _ _ _ _ Hv) by lia.
  cbn [negb String.eqb g_Y g_m g_d g_H g_M g_S g_f g_z].
  rewrite py_int_pad4 by lia. cbn [Py.bind].
  rewrite !py_int_pad2 by lia. cbn [Py.bind].
  replace (pad6 f +:+ zeros (6 - String.length (pad6 f))) with (pad6 f)
    by (cbv [pad6 pad4 pad2 String.append String.length Nat.sub zeros]; reflexivity).
  rewrite py_int_pad6 by lia. cbn [Py.bind].
  rewrite gmtoff_of_source by lia. cbn [Py.bind].
  rewrite check_date_ok by lia. cbn [Py.bind].
  rewrite check_offset_ok by lia. cbn [Py.bind].
  rewrite check_time_ok by lia. cbn [Py.bind].
  by eexists _, _.
Qed.

Lemma source_text_not_sentinel Y m dd H M S f negative oh om :
  String.eqb (source_text Y m dd H M S f negative oh om) "N/A" = false.
Proof.
  unfold source_text. cbv [pad4 String.append].
  destruct (digit_char_cases (Y / 1000)) as [E|[E|[E|[E|[E|[E|[E|[E|[E|E]]]]]]]]];
    rewrite E; reflexivity.
Qed.

Lemma source_text_shape Y m dd H M S f negative oh om :
  source_shape (source_text Y m dd H M S f negative oh om) = true.
Proof.
  unfold source_shape, source_text, source_picture.
  cbv [pad6 pad4 pad2 String.append has_shape].
  rewrite !digit_digit_char. by destruct negative.
Qed.

(** A parse error is a [ValueError]. *)
Lemma strptime_value_error s e : strptime s = Raise e -> exists why, e = ValueError why.
Proof.
  assert (Hint : forall t e', py_int t = Raise e' -> exists why, e' = ValueError why).
  { intros t e'. unfold py_int. repeat case_match; intros [=]; subst; by eexists. }
  assert (Hoff : forall z e', gmtoff_of z = Raise e' -> exists why, e' = ValueError why).
  { intros z e'. unfold gmtoff_of. intros Hz.
    destruct (String.eqb z "Z"); [discriminate|].
    do 5 bind_raise Hz ltac:(fun E =>
      first [ by apply Hint in E
            | repeat case_match; try discriminate;
              first [ by apply Hint in E | injection E as <-; by eexists ] ]).
    by destruct (bool_decide (get 0 _ = _)). }
  unfold strptime. intros Hs.
  destruct (regex_match s) as [[f rest]|]; [|injection Hs as <-; by eexists].
  destruct (negb (String.eqb rest "")); [injection Hs as <-; by eexists|].
  do 7 bind_raise Hs ltac:(fun E => by apply Hint in E).
  bind_raise Hs ltac:(fun E => by apply Hoff in E).
  do 3 bind_raise Hs ltac:(fun E =>
    unfold check_date, check_offset, check_time in E;
    repeat case_match; try discriminate; injection E as <-; by eexists).
  discriminate.
Qed.

End Reformat.

(** C6, as the code has it. [reformat_date] returns a null value and the
    text ["N/A"] as they are.  Any other text goes to [strptime] with the
    format ["%Y-%m-%dT%H:%M:%S.%f%z"]: what [strptime] rejects raises a
    [ValueError] that propagates, what it accepts comes back as
    [DD/MM/YYYY HH:MM:SS].  Every text [YYYY-MM-DDTHH:MM:SS.ffffff±HHMM]
    whose fields make a date (from the year 1000 on), a time of day and an
    offset is accepted and converted field by field; so
    ["2024-03-05T14:30:00.000000+0000"] gives ["05/03/2024 14:30:00"]. *)
Theorem reformat_date_cases :
  reformat_date VNull = Ok VNull /\
  reformat_date (VStr "N/A") = Ok (VStr "N/A") /\
  (forall s, s <> "N/A" ->
     reformat_date (VStr s) =
       (date_obj <- Strptime.strptime s ;; Ok (VStr (Strptime.strftime date_obj)))) /\
  (forall s e, s <> "N/A" -> Strptime.strptime s = Raise e ->
     reformat_date (VStr s) = Raise e /\ exists why, e = ValueError why) /\
  (forall Y m dd H M S f negative oh om,
     valid_fields Y m dd H M S f oh om ->
     source_shape (source_text Y m dd H M S f negative oh om) = true /\
     reformat_date (VStr (source_text Y m dd H M S f negative oh om)) =
       Ok (VStr (target_text Y m dd H M S))) /\
  reformat_date (VStr "2024-03-05T14:30:00.000000+0000") = Ok (VStr "05/03/2024 14:30:00").
Proof.
  assert (Hother : forall s, s <> "N/A" ->
            reformat_date (VStr s) =
              (date_obj <- Strptime.strptime s ;; Ok (VStr (Strptime.strftime date_obj)))).
  { intros s Hs. unfold reformat_date. cbn [isnull_truth Py.bind orb value_eqb].
    by rewrite (proj2 (String.eqb_neq s "N/A") Hs). }
  split; [reflexivity|]. split; [reflexivity|]. split; [exact Hother|]. split.
  - intros s e Hs He. rewrite (Hother s Hs), He. split; [reflexivity|].
    by eapply strptime_value_error.
  - split; [|reflexivity].
    intros Y m dd H M S f negative oh om Hv. split; [apply source_text_shape|].
    rewrite Hother.
    + destruct (strptime_source _ _ _ _ _ _ _ negative _ _ Hv) as (secs & micros & ->).
      reflexivity.
    + intros Heq. pose proof (source_text_not_sentinel Y m dd H M S f negative oh om) as Hne.
      rewrite Heq in Hne. discriminate Hne.
Qed.

Lemma reformat_date_cases_witness :
  reformat_date (VStr (source_text 2024 3 5 14 30 0 0 false 0 0)) =
    Ok (VStr (target_text 2024 3 5 14 30 0)).
Proof.
  destruct reformat_date_cases as (_ & _ & _ & _ & Hvalid & _).
  apply (Hvalid 2024 3 5 14 30 0 0 false 0 0)%Z.
  unfold valid_fields. vm_compute. repeat split; discriminate.
Defined.

(** C6, as stated, fails: a time stamp with three digits of fraction, as
    the server sends it, is neither null nor ["N/A"] nor of the picture
    [YYYY-MM-DDTHH:MM:SS.ffffff±HHMM], and is converted, not refused; and a
    text of that picture that is no date is refused. *)
Lemma reformat_date_accepts_more :
  source_shape "2024-03-05T14:30:00.000+0000" = false /\
  "2024-03-05T14:30:00.000+0000" <> "N/A" /\
  reformat_date (VStr "2024-03-05T14:30:00.000+0000") = Ok (VStr "05/03/2024 14:30:00") /\
  source_shape "2024-02-30T14:30:00.000000+0000" = true /\
  reformat_date (VStr "2024-02-30T14:30:00.000000+0000") = Raise (ValueError (OutOfRange "day")).
Proof. repeat split; try reflexivity. discriminate. Qed.

(** ** The loader *)

Lemma rows_of_issue_keys sprint issue row :
  row ∈ rows_of_issue sprint issue -> dict_keys row = flat_row_columns.
Proof.
  unfold rows_of_issue. destruct (worklogs issue) as [|w ws].
  - by intros ->%list_elem_of_singleton.
  - by intros [wl [-> _]]%list_elem_of_fmap.
Qed.

Lemma frame_labels_flat records :
  records <> [] ->
  (forall row, row ∈ records -> dict_keys row = flat_row_columns) ->
  frame_labels records = flat_row_columns.
Proof.
  unfold frame_labels. destruct records as [|r0 records]; [done|]. intros _ Hkeys.
  cbn [fold_left]. rewrite (Hkeys r0) by left.
  change (fold_left add_label flat_row_columns []) with flat_row_columns.
  assert (Hrest : forall row, row ∈ records -> dict_keys row = flat_row_columns)
    by (intros row Hrow; apply Hkeys; by right).
  clear Hkeys. induction records as [|r1 records IH]; [reflexivity|].
  cbn [fold_left]. rewrite (Hrest r1) by left.
  change (fold_left add_label flat_row_columns flat_row_columns) with flat_row_columns.
  apply IH. intros row Hrow. apply Hrest. by right.
Qed.

(** The labels of a frame built from records are distinct. *)
Lemma frame_labels_NoDup records : NoDup (columns (frame_of_records records)).
Proof.
  unfold frame_of_records, frame_labels. cbn [columns].
  assert (Hadd : forall keys cols, NoDup cols -> NoDup (fold_left add_label keys cols)).
  { induction keys as [|k keys IH]; intros cols Hcols; [done|]. cbn [fold_left].
    apply IH. unfold add_label. case_bool_decide as Hk; [done|].
    apply (proj2 (list.NoDup_app cols [k])). split; [done|]. split.
    - intros x Hx ->%list_elem_of_singleton. done.
    - apply NoDup_singleton. }
  assert (Hall : forall (recs : list (dict value)) cols, NoDup cols ->
            NoDup (fold_left (fun cols r => fold_left add_label (dict_keys r) cols) recs cols)).
  { induction recs as [|r recs IH]; intros cols Hcols; [done|]. cbn [fold_left].
    apply IH. by apply Hadd. }
  apply Hall. constructor.
Qed.

(** A frame the extractor returns has no label at all when it has no row,
    and the labels of a row in their order otherwise. *)
Lemma extractor_columns env fuel jira_server email api_token board_id project_key df tr :
  jira_extraction env fuel jira_server email api_token board_id project_key = (Some (Ok df), tr) ->
  rows df <> [] -> columns df = flat_row_columns.
Proof.
  intros Hrun Hrows. apply jira_extraction_frame in Hrun as ->.
  unfold frame_of_records in *. cbn [columns rows] in *.
  apply frame_labels_flat.
  - intros Hnil. rewrite Hnil in Hrows. by apply Hrows.
  - intros row Hrow. apply list_elem_of_In, in_flat_map in Hrow as [req [_ Hrow]].
    unfold page_rows in Hrow. apply in_flat_map in Hrow as [issue [_ Hrow]].
    eapply rows_of_issue_keys. apply list_elem_of_In. exact Hrow.
Qed.

Lemma imap_const {A B} (g : A -> B) l : imap (fun _ => g) l = map g l.
Proof.
  induction l as [|x l IH]; [reflexivity|]. cbn [imap map]. f_equal.
  unfold compose. exact IH.
Qed.

Lemma csv_records_no_index py_repr df :
  csv_records py_repr false df = columns df :: map (map (cell_text py_repr)) (rows df).
Proof. unfold csv_records, csv_header, csv_row. cbn [app]. by rewrite imap_const. Qed.

Lemma append_nil_r s : s +:+ "" = s.
Proof. induction s as [|c s IH]; [reflexivity|]. cbv [String.append] in *. by rewrite IH. Qed.

Lemma append_assoc s t u : (s +:+ t) +:+ u = s +:+ (t +:+ u).
Proof.
  induction s as [|c s IH]; [reflexivity|].
  change ((String c s +:+ t) +:+ u) with (String c ((s +:+ t) +:+ u)).
  by rewrite IH.
Qed.

(** *** Reading back what [to_csv] writes *)

Section ReadBack.

Import CsvReader.

Lemma finish_cases c rest field fields st :
  c = comma \/ c = newline ->
  st = InField \/ st = QuoteInQuoted ->
  read (String c rest) st field fields = finish c rest field fields.
Proof. intros [->| ->] [->| ->]; reflexivity. Qed.

Lemma read_plain s field fields c rest :
  needs_quotes s = false -> c = comma \/ c = newline ->
  read (s +:+ String c rest) InField field fields = finish c rest (field +:+ s) fields.
Proof.
  unfold needs_quotes. revert field. induction s as [|a s IH]; intros field Hs Hc.
  - rewrite append_nil_r. apply finish_cases; [done|by left].
  - cbn [contains_char] in Hs. apply orb_false_iff in Hs as [Hs Hnl].
    apply orb_false_iff in Hs as [Hcomma Hq].
    apply orb_false_iff in Hnl as [Hnl Hnl']. apply orb_false_iff in Hcomma as [Hcomma Hcomma'].
    apply orb_false_iff in Hq as [Hq Hq'].
    change (String a s +:+ String c rest) with (String a (s +:+ String c rest)).
    cbn [read]. rewrite Hcomma, Hnl, IH; [|by rewrite Hcomma', Hq', Hnl'|done].
    by rewrite append_assoc.
Qed.

Lemma read_quoted s field fields c rest :
  c = comma \/ c = newline ->
  read (double_quotes s +:+ String dquote (String c rest)) InQuoted field fields =
    finish c rest (field +:+ s) fields.
Proof.
  intros Hc. revert field. induction s as [|a s IH]; intros field.
  - rewrite append_nil_r. cbn [double_quotes]. change (EmptyString +:+ ?t) with t.
    cbn [read]. rewrite Ascii.eqb_refl. by destruct Hc as [->| ->].
  - cbn [double_quotes]. destruct (Ascii.eqb_spec a dquote) as [->|Hne].
    + change (String dquote (String dquote (double_quotes s)) +:+ ?t)
        with (String dquote (String dquote (double_quotes s +:+ t))).
      cbn [read]. rewrite Ascii.eqb_refl, IH. by rewrite append_assoc.
    + change (String a (double_quotes s) +:+ ?t) with (String a (double_quotes s +:+ t)).
      cbn [read]. rewrite (proj2 (Ascii.eqb_neq dquote a)) by congruence.
      rewrite IH. by rewrite append_assoc.
Qed.

Lemma read_field s fields c rest :
  c = comma \/ c = newline ->
  read (csv_field s +:+ String c rest) StartField EmptyString fields = finish c rest s fields.
Proof.
  intros Hc. unfold csv_field. destruct (needs_quotes s) eqn:Hs.
  - change (String dquote ?x +:+ ?t) with (String dquote (x +:+ t)).
    rewrite append_assoc. change (String dquote EmptyString +:+ ?t) with (String dquote t).
    cbn [read]. rewrite Ascii.eqb_refl. by rewrite read_quoted.
  - destruct s as [|a s].
    + change (EmptyString +:+ ?t) with t. by destruct Hc as [->| ->].
    + pose proof Hs as Hs'. unfold needs_quotes in Hs. cbn [contains_char] in Hs.
      apply orb_false_iff in Hs as [Hs Hnl]. apply orb_false_iff in Hs as [Hcomma Hq].
      apply orb_false_iff in Hnl as [Hnl Hnl']. apply orb_false_iff in Hcomma as [Hcomma Hcomma'].
      apply orb_false_iff in Hq as [Hq Hq'].
      change (String a s +:+ ?t) with (String a (s +:+ t)).
      cbn [read]. rewrite Hq, Hcomma, Hnl.
      rewrite read_plain; [reflexivity| |done].
      unfold needs_quotes. by rewrite Hcomma', Hq', Hnl'.
Qed.

Lemma read_fields fs fields rest :
  fs <> [] ->
  read (join (String comma EmptyString) (map csv_field fs) +:+ String newline rest)
    StartField EmptyString fields =
  (fields ++ fs) :: read rest StartRecord EmptyString [].
Proof.
  revert fields. induction fs as [|s fs IH]; intros fields Hne; [done|].
  destruct fs as [|s' fs].
  - cbn [map join]. rewrite read_field by (by right). reflexivity.
  - change (join (String comma EmptyString) (map csv_field (s :: s' :: fs)))
      with (csv_field s +:+ String comma EmptyString +:+
            join (String comma EmptyString) (map csv_field (s' :: fs))).
    rewrite !append_assoc. change (String comma EmptyString +:+ ?t) with (String comma t).
    rewrite read_field by (by left). unfold finish. rewrite Ascii.eqb_refl.
    rewrite IH by done. by rewrite <- app_assoc.
Qed.

(** A record does not start with a line feed, the single empty field
    apart, which is written in quotes. *)
Lemma read_start fs rest fields :
  fs <> [] -> fs <> [EmptyString] ->
  read (join (String comma EmptyString) (map csv_field fs) +:+ rest) StartRecord EmptyString fields =
  read (join (String comma EmptyString) (map csv_field fs) +:+ rest) StartField EmptyString fields.
Proof.
  intros Hne Hsingle.
  assert (Hfirst : exists c t, join (String comma EmptyString) (map csv_field fs) = String c t /\
                               Ascii.eqb newline c = false).
  { destruct fs as [|s fs]; [done|].
    assert (Hs : s <> EmptyString ->
                 exists c t, csv_field s = String c t /\ Ascii.eqb newline c = false).
    { intros Hs. unfold csv_field. destruct (needs_quotes s) eqn:Hq; [by eexists _, _|].
      destruct s as [|a s]; [done|]. exists a, s. split; [done|].
      unfold needs_quotes in Hq. cbn [contains_char] in Hq.
      apply orb_false_iff in Hq as [_ Hnl]. by apply orb_false_iff in Hnl as [Hnl _]. }
    destruct fs as [|s' fs].
    - cbn [map join]. destruct (Hs ltac:(by intros ->)) as (c & t & -> & Hc). by exists c, t.
    - change (join (String comma EmptyString) (map csv_field (s :: s' :: fs)))
        with (csv_field s +:+ String comma EmptyString +:+
              join (String comma EmptyString) (map csv_field (s' :: fs))).
      destruct s as [|a s].
      + by eexists _, _.
      + destruct (Hs ltac:(done)) as (c & t & -> & Hc).
        exists c. eexists. split; [|exact Hc]. reflexivity. }
  destruct Hfirst as (c & t & -> & Hc).
  change (String c t +:+ rest) with (String c (t +:+ rest)). cbn [read]. by rewrite Hc.
Qed.

Lemma read_record fs rest :
  read (csv_record fs +:+ rest) StartRecord EmptyString [] =
    fs :: read rest StartRecord EmptyString [].
Proof.
  unfold csv_record. case_bool_decide as Hsingle.
  - subst fs. reflexivity.
  - rewrite append_assoc. change (String newline EmptyString +:+ rest) with (String newline rest).
    destruct fs as [|s fs]; [reflexivity|].
    rewrite read_start by done. by rewrite read_fields.
Qed.

Lemma read_records records :
  read_csv (fold_right String.append EmptyString (map csv_record records)) = records.
Proof.
  unfold read_csv. induction records as [|fs records IH]; [reflexivity|].
  cbn [map fold_right]. by rewrite read_record, IH.
Qed.

End ReadBack.

(** C10. On any system that keeps the laws of [OsLaws], and for a file
    name: a call of [load_extraction] that returns has left the directory
    in place and, at the directory joined with the name, a file holding the
    text of the frame, whatever was there before; the directory is created
    (with [makedirs], parents included, [exist_ok] set) only when the path
    does not exist, so a directory that is there already causes no error.
    The text is one record for the labels, in their order, then one record
    per row, cells only (no row label in front); for the labels of a row of
    the extractor the first line is their comma-joined list.  Read back as
    comma-separated text, the file gives the labels and then, row by row,
    the texts of the cells: a text as it is, an int in decimal, a float
    (of an int up to [2^53]) with its [.0], a null as the empty field; a
    field with a comma, a quote or a line feed in it is written in quotes,
    so that it is one field of one record again.  The text of the frame
    [Frames.mixed] is given character by character. *)
Theorem load_extraction_writes {W} (os : Os W) (py_repr : string -> string)
    (df : DataFrame) (output_path output_name : string) :
  OsLaws os ->
  is_file_name output_name = true ->
  (forall w w',
     load_extraction os py_repr df output_path output_name w = (Ok tt, w') ->
     path_isdir os output_path w' = true /\
     read_file os (path_join output_path output_name) w' = Some (to_csv_text py_repr false df)) /\
  (forall w,
     path_isdir os output_path w = true ->
     load_extraction os py_repr df output_path output_name w =
       to_csv os py_repr df (path_join output_path output_name) false w) /\
  (forall w,
     path_exists os output_path w = false ->
     load_extraction os py_repr df output_path output_name w =
       match makedirs os output_path true w with
       | (Raise e, w1) => (Raise e, w1)
       | (Ok _, w1) => to_csv os py_repr df (path_join output_path output_name) false w1
       end) /\
  to_csv_text py_repr false df =
    fold_right String.append EmptyString
      (map csv_record (columns df :: map (map (cell_text py_repr)) (rows df))) /\
  List.length (csv_records py_repr false df) = S (List.length (rows df)) /\
  (columns df = flat_row_columns -> csv_record (columns df) = flat_row_header) /\
  (columns df = flat_row_columns ->
   exists body, to_csv_text py_repr false df = flat_row_header +:+ body) /\
  CsvReader.read_csv (to_csv_text py_repr false df) =
    columns df :: map (map (cell_text py_repr)) (rows df) /\
  (forall s n z text,
     cell_text py_repr (VStr s) = s /\ cell_text py_repr (VInt n) = pretty n /\
     ((- 2 ^ 53 <= z <= 2 ^ 53)%Z -> cell_text py_repr (VFloat z) = pretty z +:+ ".0") /\
     cell_text py_repr VNull = EmptyString /\
     cell_text py_repr (VObj text) = text) /\
  to_csv_text SimpleFs.plain_repr false Frames.mixed = Frames.mixed_text.
Proof.
  intros Hlaws Hname.
  split; [|split; [|split; [|split; [|split; [|split; [|split; [|split; [|split]]]]]]]].
  - intros w w' Hrun. unfold load_extraction, to_csv in Hrun.
    destruct (path_exists os output_path w) eqn:Hex; cbn [negb] in Hrun.
    + split; [|by eapply (write_read _ Hlaws)].
      rewrite (write_isdir _ Hlaws _ _ _ _ output_path Hrun).
      eapply (write_parent _ Hlaws); [exact Hrun| |exact Hname].
      intros ->. by rewrite (exists_empty _ Hlaws) in Hex.
    + destruct (makedirs os output_path true w) as [[[]|e] w1] eqn:Hmk; [|discriminate].
      split; [|by eapply (write_read _ Hlaws)].
      rewrite (write_isdir _ Hlaws _ _ _ _ output_path Hrun).
      by eapply (makedirs_isdir _ Hlaws).
  - intros w Hdir. unfold load_extraction.
    by rewrite (isdir_exists _ Hlaws _ _ Hdir).
  - intros w Hex. unfold load_extraction. by rewrite Hex.
  - unfold to_csv_text. by rewrite csv_records_no_index.
  - rewrite csv_records_no_index. cbn [List.length]. by rewrite length_map.
  - intros ->. reflexivity.
  - intros Hcols. unfold to_csv_text. rewrite csv_records_no_index, Hcols.
    cbn [map fold_right]. by eexists.
  - unfold to_csv_text. rewrite csv_records_no_index. apply read_records.
  - intros s n z text. repeat split.
  - vm_compute. reflexivity.
Qed.

(** ** The small file system keeps the laws *)

Section SimpleFsLaws.

Import SimpleFs.

Lemma components_plain n acc :
  contains_char "/" n = false -> components n acc = flush (acc +:+ n).
Proof.
  revert acc. induction n as [|c n IH]; intros acc Hn.
  - by rewrite append_nil_r.
  - cbn [contains_char] in Hn. apply orb_false_iff in Hn as [Hc Hn].
    cbn [components]. rewrite Ascii.eqb_sym, Hc, IH by done.
    by rewrite append_assoc.
Qed.

Lemma components_file_name n : is_file_name n = true -> components n "" = [n].
Proof.
  unfold is_file_name. intros Hn.
  apply andb_true_iff in Hn as [Hn Hdd]. apply andb_true_iff in Hn as [Hn Hd].
  apply andb_true_iff in Hn as [Hne Hslash].
  rewrite components_plain by (by apply negb_true_iff). unfold flush.
  change ("" +:+ n) with n.
  apply negb_true_iff in Hne, Hd. by rewrite Hne, Hd.
Qed.

Lemma components_slash d n acc :
  components (d +:+ String "/" n) acc = components d acc ++ components n "".
Proof.
  revert acc. induction d as [|c d IH]; intros acc.
  - reflexivity.
  - change (String c d +:+ String "/" n) with (String c (d +:+ String "/" n)).
    cbn [components]. destruct (Ascii.eqb c "/"); rewrite IH; [|done].
    by rewrite app_assoc.
Qed.

Lemma components_after_slash d n acc :
  ends_with_slash d = true -> components (d +:+ n) acc = components d acc ++ components n "".
Proof.
  revert acc. induction d as [|c d IH]; intros acc Hd; [discriminate|].
  change (String c d +:+ n) with (String c (d +:+ n)).
  destruct d as [|c' d].
  - cbn [ends_with_slash] in Hd. cbn [components String.append]. rewrite Hd.
    change ("" +:+ n) with n. cbn [components]. by rewrite app_nil_r.
  - cbn [components]. destruct (Ascii.eqb c "/"); rewrite IH by exact Hd; [|done].
    by rewrite app_assoc.
Qed.

Lemma resolve_join dir n :
  dir <> "" -> is_file_name n = true -> resolve (path_join dir n) = resolve dir ++ [n].
Proof.
  intros Hdir Hn. unfold resolve, path_join.
  assert (Hstart : starts_with_slash n = false).
  { unfold is_file_name in Hn. destruct n as [|c n]; [done|]. cbn [starts_with_slash].
    cbn [contains_char] in Hn. rewrite Ascii.eqb_sym.
    destruct (Ascii.eqb "/" c); [|done]. by rewrite andb_false_r in Hn. }
  rewrite Hstart, (proj2 (String.eqb_neq dir "") Hdir). cbn [orb].
  destruct (ends_with_slash dir) eqn:Hend.
  - rewrite components_after_slash by done. by rewrite (components_file_name n).
  - change (dir +:+ "/" +:+ n) with (dir +:+ String "/" n).
    rewrite components_slash. by rewrite (components_file_name n).
Qed.

Lemma mkdirs_isdir comps prefix w w' :
  is_dir_at prefix w = true ->
  mkdirs prefix comps w = (Ok tt, w') -> is_dir_at (prefix ++ comps) w' = true.
Proof.
  revert prefix w. induction comps as [|c comps IH]; intros prefix w Hpre Hrun.
  - injection Hrun as <-. by rewrite app_nil_r.
  - cbn [mkdirs] in Hrun. destruct (is_file_at (prefix ++ [c]) w); [discriminate|].
    apply IH in Hrun; [by rewrite <- app_assoc in Hrun|].
    destruct (is_dir_at (prefix ++ [c]) w) eqn:Hhere; [done|].
    unfold is_dir_at. cbn [dirs]. apply orb_true_iff. right.
    apply bool_decide_eq_true. left.
Qed.

Lemma file_at_put c text l : file_at c (file_put c text l) = Some text.
Proof.
  induction l as [|[c' t'] l IH]; cbn [file_put file_at].
  - by rewrite bool_decide_eq_true_2.
  - destruct (bool_decide (c = c')) eqn:Hc; cbn [file_at].
    + by rewrite bool_decide_eq_true_2.
    + by rewrite Hc.
Qed.

Lemma simple_os_laws : OsLaws simple_os.
Proof.
  split; cbn [simple_os path_exists path_isdir makedirs write_file read_file].
  - reflexivity.
  - intros p w. unfold fs_isdir, fs_exists.
    intros [-> ->]%andb_true_iff. reflexivity.
  - intros p eo w w'. unfold fs_makedirs, fs_isdir.
    destruct (String.eqb p ""); [discriminate|].
    destruct (negb eo && is_dir_at (resolve p) w); [discriminate|].
    intros Hrun. by apply (mkdirs_isdir _ []) in Hrun.
  - intros p c w w'. unfold fs_write, fs_read.
    destruct (String.eqb p ""); [discriminate|].
    destruct (ends_with_slash p || is_dir_at (resolve p) w); [discriminate|].
    destruct (negb (is_dir_at (removelast (resolve p)) w)); [discriminate|].
    intros [= <-]. cbn [files]. apply file_at_put.
  - intros p c w w' q. unfold fs_write, fs_isdir.
    destruct (String.eqb p ""); [discriminate|].
    destruct (ends_with_slash p || is_dir_at (resolve p) w); [discriminate|].
    destruct (negb (is_dir_at (removelast (resolve p)) w)); [discriminate|].
    by intros [= <-].
  - intros dir n c w w' Hrun Hdir Hn. unfold fs_write in Hrun. unfold fs_isdir.
    rewrite (proj2 (String.eqb_neq dir "") Hdir). cbn [negb andb].
    destruct (String.eqb (path_join dir n) ""); [discriminate|].
    destruct (ends_with_slash (path_join dir n) || _); [discriminate|].
    rewrite resolve_join, removelast_last in Hrun by done.
    by destruct (is_dir_at (resolve dir) w).
Qed.

End SimpleFsLaws.

Lemma load_extraction_writes_witness :
  exists w',
    load_extraction SimpleFs.simple_os SimpleFs.plain_repr Frames.mixed
      "data/processed/" "extraction_jira.csv" SimpleFs.empty = (Ok tt, w') /\
    path_isdir SimpleFs.simple_os "data/processed/" w' = true /\
    read_file SimpleFs.simple_os "data/processed/extraction_jira.csv" w' =
      Some Frames.mixed_text.
Proof.
  destruct (load_extraction_writes SimpleFs.simple_os SimpleFs.plain_repr Frames.mixed
              "data/processed/" "extraction_jira.csv" simple_os_laws eq_refl)
    as (Hok & _ & _ & _ & _ & _ & _ & _ & _ & Htext).
  eexists. split; [vm_compute; reflexivity|].
  rewrite <- Htext. apply (Hok SimpleFs.empty). vm_compute. reflexivity.
Defined.

(** The loader on the small file system: directories that are missing are
    created with their parents; a second run replaces the file. *)
Example load_extraction_nested :
  let run := load_extraction SimpleFs.simple_os SimpleFs.plain_repr in
  let w1 := snd (run Frames.raw "a/b/c/" "out.csv" SimpleFs.empty) in
  let w2 := snd (run Frames.sentinels "a/b/c/" "out.csv" w1) in
  fst (run Frames.raw "a/b/c/" "out.csv" SimpleFs.empty) = Ok tt /\
  SimpleFs.fs_isdir "a" w1 = true /\ SimpleFs.fs_isdir "a/b" w1 = true /\
  SimpleFs.fs_isdir "a/b/c" w1 = true /\
  SimpleFs.fs_read "a/b/c/out.csv" w1 = Some (to_csv_text SimpleFs.plain_repr false Frames.raw) /\
  fst (run Frames.sentinels "a/b/c/" "out.csv" w1) = Ok tt /\
  SimpleFs.fs_read "a/b/c/out.csv" w2 =
    Some (to_csv_text SimpleFs.plain_repr false Frames.sentinels).
Proof. vm_compute. repeat split. Qed.

(** * Further properties *)

(** ** The credentials *)

Lemma str_truthy_Some s : str_truthy (Some s) = true <-> s <> "".
Proof.
  unfold str_truthy. destruct (String.eqb_spec s "") as [->|Hne]; simpl; split; try done.
Qed.

(** X1. Credentials. With all four arguments given and not empty, they are
    the credentials and the environment is not looked at.  With all four
    given and one of them empty, the call raises the [ValueError], whatever
    the environment holds.  Credentials that come out are never empty, and
    each is the argument when that is given and not empty, else the
    environment variable.  With no argument given, credentials come out
    exactly when the four variables are set and not empty. *)
Theorem resolve_credentials_cases env :
  (forall s e t b, s <> "" -> e <> "" -> t <> "" -> b <> "" ->
     resolve_credentials env (Some s) (Some e) (Some t) (Some b) = Ok (s, e, t, b)) /\
  (forall s e t b, s = "" \/ e = "" \/ t = "" \/ b = "" ->
     resolve_credentials env (Some s) (Some e) (Some t) (Some b) =
       Raise (ValueError MissingCredentials)) /\
  (forall js em tok bid s e t b,
     resolve_credentials env js em tok bid = Ok (s, e, t, b) ->
     (s <> "" /\ e <> "" /\ t <> "" /\ b <> "") /\
     (if str_truthy js then js = Some s else getenv env "JIRA_SERVER" = Some s) /\
     (if str_truthy em then em = Some e else getenv env "JIRA_EMAIL" = Some e) /\
     (if str_truthy tok then tok = Some t else getenv env "JIRA_API_TOKEN" = Some t) /\
     (if str_truthy bid then bid = Some b else getenv env "JIRA_BOARD_ID" = Some b)) /\
  ((exists creds, resolve_credentials env None None None None = Ok creds) <->
   str_truthy (getenv env "JIRA_SERVER") = true /\ str_truthy (getenv env "JIRA_EMAIL") = true /\
   str_truthy (getenv env "JIRA_API_TOKEN") = true /\ str_truthy (getenv env "JIRA_BOARD_ID") = true).
Proof.
  split; [|split; [|split]].
  - intros s e t b Hs He Ht Hb. unfold resolve_credentials. cbn [is_none orb].
    by rewrite !(proj2 (str_truthy_Some _)).
  - intros s e t b Hempty. unfold resolve_credentials. cbn [is_none orb].
    destruct (str_truthy (Some s)) eqn:Hs; [|done].
    destruct (str_truthy (Some e)) eqn:He; [|done].
    destruct (str_truthy (Some t)) eqn:Ht; [|done].
    destruct (str_truthy (Some b)) eqn:Hb; [|done].
    apply str_truthy_Some in Hs, He, Ht, Hb. by destruct Hempty as [?|[?|[?|?]]].
  - intros js em tok bid s e t b. unfold resolve_credentials, py_or.
    assert (Hpick : forall (a env_value : option string) (x : string) (consult : bool),
              str_truthy (if consult then (if str_truthy a then a else env_value) else a) = true ->
              default "" (if consult then (if str_truthy a then a else env_value) else a) = x ->
              (consult = false -> str_truthy a = true) ->
              x <> "" /\ (if str_truthy a then a = Some x else env_value = Some x)).
    { intros a ev x consult Htruthy Hx Hgiven.
      destruct consult.
      - destruct (str_truthy a) eqn:Ha.
        + destruct a as [a|]; [|done]. simpl in Hx. subst. by apply str_truthy_Some in Ha.
        + destruct ev as [v|]; [|done]. simpl in Hx. subst. by apply str_truthy_Some in Htruthy.
      - rewrite (Hgiven eq_refl). destruct a as [a|]; [|done]. simpl in Hx. subst.
        by apply str_truthy_Some in Htruthy. }
    set (consult := is_none js || is_none em || is_none tok || is_none bid).
    destruct (str_truthy (if consult then _ else js)) eqn:H1; [|done].
    destruct (str_truthy (if consult then _ else em)) eqn:H2; [|done].
    destruct (str_truthy (if consult then _ else tok)) eqn:H3; [|done].
    destruct (str_truthy (if consult then _ else bid)) eqn:H4; [|done].
    cbn [negb orb]. intros [= Hs He Ht Hb].
    assert (Hgiven : consult = false ->
              str_truthy js = true /\ str_truthy em = true /\
              str_truthy tok = true /\ str_truthy bid = true).
    { intros Hc. rewrite Hc in H1, H2, H3, H4. done. }
    destruct (Hpick _ _ _ _ H1 Hs) as [? ?];
      [intros Hc; by destruct (Hgiven Hc) as (? & ? & ? & ?)|].
    destruct (Hpick _ _ _ _ H2 He) as [? ?];
      [intros Hc; by destruct (Hgiven Hc) as (? & ? & ? & ?)|].
    destruct (Hpick _ _ _ _ H3 Ht) as [? ?];
      [intros Hc; by destruct (Hgiven Hc) as (? & ? & ? & ?)|].
    destruct (Hpick _ _ _ _ H4 Hb) as [? ?];
      [intros Hc; by destruct (Hgiven Hc) as (? & ? & ? & ?)|].
    done.
  - unfold resolve_credentials, py_or. cbn [is_none orb str_truthy].
    destruct (str_truthy (getenv env "JIRA_SERVER")) eqn:H1;
      destruct (str_truthy (getenv env "JIRA_EMAIL")) eqn:H2;
      destruct (str_truthy (getenv env "JIRA_API_TOKEN")) eqn:H3;
      destruct (str_truthy (getenv env "JIRA_BOARD_ID")) eqn:H4;
      cbn [negb orb]; split; try (by intros [? [=]]); try (intros (? & ? & ? & ?); done).
    intros _. by eexists.
Qed.

Lemma resolve_credentials_cases_witness :
  resolve_credentials Scenario.board (Some "https://jira.example.com") (Some "me@example.com")
    (Some "secret") (Some "3") =
  Ok ("https://jira.example.com", "me@example.com", "secret", "3").
Proof.
  destruct (resolve_credentials_cases Scenario.board) as [Hgiven _].
  apply Hgiven; discriminate.
Defined.

(** ** The requests of a run *)

Lemma answered_app a b : answered a -> answered b -> answered (a ++ b).
Proof. unfold answered. intros Ha Hb. by apply Forall_app. Qed.

Lemma stopped_by_app {A} (out : option (result A)) a b :
  answered a -> stopped_by out b -> stopped_by out (a ++ b).
Proof.
  intros Ha [Hb|(init & r & e & -> & Hinit & Hr & Hout)].
  - left. by apply answered_app.
  - right. exists (a ++ init), r, e. rewrite app_assoc. split; [done|].
    split; [by apply answered_app|done].
Qed.

(** One loop over the pages of a query: its requests are for that query,
    filed under its sprint, at offsets that go up by the page size, and
    the loop goes on after a failure of none of them. *)
Lemma page_loop_trace fuel jira jql sprint start_at max_results st out st' :
  page_loop fuel jira jql sprint start_at max_results st = (out, st') ->
  exists new,
    calls st' = calls st ++ new /\
    Forall (fun r => req_jql r = jql /\ req_sprint r = sprint /\
                     req_maxResults r = max_results /\
                     exists k, req_startAt r = start_at + max_results * k) new /\
    stopped_by out new /\
    (forall e, out = Some (Raise e) -> ~ answered new).
Proof.
  revert start_at st. induction fuel as [|fuel IH]; intros start_at st Hrun; simpl in Hrun.
  - injection Hrun as <- <-. exists []. rewrite app_nil_r.
    repeat split; [constructor|left; constructor|discriminate].
  - destruct (search_issues jira jql start_at max_results) as [issues|e] eqn:Hans.
    + set (req := {| req_jql := jql; req_startAt := start_at; req_maxResults := max_results;
                     req_result := Ok issues; req_sprint := sprint |}) in *.
      assert (Hreq : req_jql req = jql /\ req_sprint req = sprint /\
                     req_maxResults req = max_results /\
                     exists k, req_startAt req = start_at + max_results * k).
      { repeat split. exists 0. simpl. lia. }
      assert (Hok : answered [req]) by (repeat constructor; by eexists).
      destruct (List.length issues <? max_results).
      * injection Hrun as <- <-. exists [req]. cbn [calls].
        repeat split; [by constructor|by left|discriminate].
      * apply IH in Hrun as (new & Hcalls & Hall & Hstop & Hfail). cbn [calls] in Hcalls.
        exists (req :: new). rewrite Hcalls, <- app_assoc. split; [done|]. split; [|split].
        -- constructor; [done|]. eapply Forall_impl; [|exact Hall].
           intros r (? & ? & ? & k & Hk). repeat split; try done.
           exists (S k). rewrite Hk. lia.
        -- by apply (stopped_by_app out [req] new).
        -- intros e He Hans'. apply (Hfail e He). by inversion Hans'.
    + injection Hrun as <- <-.
      set (req := {| req_jql := jql; req_startAt := start_at; req_maxResults := max_results;
                     req_result := Raise e; req_sprint := sprint |}).
      exists [req]. cbn [calls]. split; [done|]. split; [|split].
      * repeat constructor. exists 0. simpl. lia.
      * right. exists [], req, e. repeat split. constructor.
      * intros e' _ Hans'. inversion Hans' as [|? ? [issues Hi] _]. discriminate Hi.
Qed.

Lemma sprint_loop_trace fuel jira items mr st out st' :
  sprint_loop fuel jira items mr st = (out, st') ->
  exists new,
    calls st' = calls st ++ new /\
    Forall (fun r => page_of_hundred r /\
                     exists id name, (id, name) ∈ items /\ req_jql r = sprint_query id /\
                                     req_sprint r = VStr name) new /\
    stopped_by out new /\
    (forall m, out = Some (Ok m) -> answered new /\ (m = mr \/ m = Some 100)).
Proof.
  revert mr st. induction items as [|[sid sname] items IH]; intros mr st Hrun; simpl in Hrun.
  - injection Hrun as <- <-. exists []. rewrite app_nil_r.
    split; [done|]. split; [constructor|]. split; [left; constructor|].
    intros m [= <-]. split; [constructor|by left].
  - destruct (page_loop fuel jira (sprint_query sid) (VStr sname) 0 100 st)
      as [[[[]|e]|] st1] eqn:Hpage;
      apply page_loop_trace in Hpage as (new1 & Hc1 & Hall1 & Hstop1 & Hfail1).
    all: assert (Hall1' : Forall (fun r => page_of_hundred r /\
                     exists id name, (id, name) ∈ (sid, sname) :: items /\
                                     req_jql r = sprint_query id /\
                                     req_sprint r = VStr name) new1)
      by (eapply Forall_impl; [|exact Hall1];
          intros r (Hq & Hs & Hm & k & Hk); split;
          [split; [done|by exists k]|exists sid, sname; split; [left|done]]).
    + apply IH in Hrun as (new2 & Hc2 & Hall2 & Hstop2 & Hok2).
      destruct Hstop1 as [Hans1|(? & ? & ? & _ & _ & _ & [=])].
      exists (new1 ++ new2). rewrite Hc2, Hc1, <- app_assoc. split; [done|]. split; [|split].
      * apply Forall_app. split; [done|]. eapply Forall_impl; [|exact Hall2].
        intros r (? & id & name & Hin & ?). split; [done|]. exists id, name. split; [by right|done].
      * by apply stopped_by_app.
      * intros m Hm. destruct (Hok2 m Hm) as [Hans2 Hcase]. split; [by apply answered_app|].
        right. by destruct Hcase.
    + injection Hrun as <- <-. exists new1. split; [done|]. split; [done|]. split; [|discriminate].
      destruct Hstop1 as [Hans1|(init & r & e' & -> & Hinit & Hr & [= <-])];
        [by left|]. right. by exists init, r, e.
    + injection Hrun as <- <-. exists new1. split; [done|]. split; [done|]. split; [|discriminate].
      destruct Hstop1 as [Hans1|(? & ? & ? & _ & _ & _ & [=])]. by left.
Qed.

Lemma map_set_elem k v m k' v' :
  (k', v') ∈ map_set k v m -> (k' = k /\ v' = v) \/ (k', v') ∈ m.
Proof.
  induction m as [|[k0 v0] m IH]; simpl.
  - intros [= -> ->]%list_elem_of_singleton. by left.
  - destruct (Z.eqb_spec k k0) as [->|Hne].
    + intros [[= -> ->]|Hin]%elem_of_cons; [by left|]. right. by right.
    + intros [[= -> ->]|Hin]%elem_of_cons; [right; left|].
      destruct (IH Hin) as [?|?]; [by left|]. right. by right.
Qed.

Lemma sprint_map_of_snoc l s :
  sprint_map_of (l ++ [s]) = map_set (sprint_id s) (sprint_name s) (sprint_map_of l).
Proof. unfold sprint_map_of. by rewrite fold_left_app. Qed.

Lemma sprint_map_of_elem l id name :
  (id, name) ∈ sprint_map_of l ->
  exists s, s ∈ l /\ sprint_id s = id /\ sprint_name s = name.
Proof.
  induction l as [|s l IH] using rev_ind; [by intros ?%elem_of_nil|].
  rewrite sprint_map_of_snoc. intros [[-> ->]|Hin]%map_set_elem.
  - exists s. split; [|done]. apply elem_of_app. right. left.
  - destruct (IH Hin) as (s' & Hs' & ?). exists s'. split; [|done].
    apply elem_of_app. by left.
Qed.

(** The requests of a run, for a board with the sprints [sprint_list]. *)
Lemma extract_board_trace jira board fuel sprint_list out tr :
  sprints jira board "active,closed" = Ok sprint_list ->
  extract_board jira board fuel = (out, tr) ->
  (exists t1 t2, tr = t1 ++ t2 /\
     Forall (fun r => page_of_hundred r /\ sprint_request sprint_list r) t1 /\
     Forall (fun r => page_of_hundred r /\ no_sprint_request r) t2) /\
  stopped_by out tr.
Proof.
  unfold extract_board. intros -> Hrun.
  destruct (sprint_loop fuel jira (sprint_map_of sprint_list) None
              {| combined_data := []; calls := [] |}) as [[[mr|e]|] st] eqn:Hloop;
    apply sprint_loop_trace in Hloop as (new1 & Hc1 & Hall1 & Hstop1 & Hok1); cbn [calls app] in Hc1.
  all: assert (Hall1' : Forall (fun r => page_of_hundred r /\ sprint_request sprint_list r) new1)
      by (eapply Forall_impl; [|exact Hall1];
          intros r (? & id & name & (s & ? & <- & <-)%sprint_map_of_elem & ? & ?);
          split; [done|by exists s]).
  - destruct (Hok1 mr eq_refl) as [Hans1 Hmr].
    destruct mr as [mr|].
    + destruct Hmr as [[=]|[= ->]].
      destruct (page_loop fuel jira no_sprint_query (VStr "No Sprint") 0 100 st)
        as [out2 st2] eqn:Hpage.
      apply page_loop_trace in Hpage as (new2 & Hc2 & Hall2 & Hstop2 & _).
      assert (Htr : tr = new1 ++ new2 /\ stopped_by out (new1 ++ new2)).
      { rewrite Hc1 in Hc2. destruct out2 as [[[]|e]|]; injection Hrun as <- <-.
        all: split; [done|]. all: apply stopped_by_app; [done|].
        all: destruct Hstop2 as [?|(init & r & e' & -> & ? & ? & Hout)]; [by left|];
          try discriminate Hout.
        injection Hout as <-. right. by exists init, r, e. }
      destruct Htr as [-> Hstop]. split; [|done]. exists new1, new2. split; [done|].
      split; [done|]. eapply Forall_impl; [|exact Hall2].
      intros r (? & ? & ? & k & ?). split; [split; [done|by exists k]|done].
    + injection Hrun as <- <-. rewrite Hc1. split; [|by left].
      exists new1, []. by rewrite app_nil_r.
  - injection Hrun as <- <-. rewrite Hc1. split.
    + exists new1, []. by rewrite app_nil_r.
    + destruct Hstop1 as [?|(init & r & e' & -> & ? & ? & [= <-])]; [by left|].
      right. by exists init, r, e.
  - injection Hrun as <- <-. rewrite Hc1. split.
    + exists new1, []. by rewrite app_nil_r.
    + destruct Hstop1 as [?|(? & ? & ? & _ & _ & _ & [=])]. by left.
Qed.

Lemma stopped_by_failed {A} (out : option (result A)) tr r e :
  stopped_by out tr -> r ∈ tr -> req_result r = Raise e ->
  out = Some (Raise e) /\ exists init, tr = init ++ [r] /\ answered init.
Proof.
  assert (Hno : forall l, answered l -> r ∈ l -> req_result r = Raise e -> False).
  { intros l Hl Hin Hr. unfold answered in Hl. rewrite Forall_forall in Hl.
    apply list_elem_of_In in Hin. destruct (Hl r Hin) as [issues Hi]. congruence. }
  intros [Hans|(init & r0 & e0 & -> & Hinit & Hr0 & ->)] Hin Hr.
  - destruct (Hno tr Hans Hin Hr).
  - apply elem_of_app in Hin as [Hin|Hin]; [destruct (Hno init Hinit Hin Hr)|].
    apply list_elem_of_singleton in Hin as ->. split; [congruence|]. by exists init.
Qed.

(** X2. Failures of the server.  A request of a run that the server did not
    answer is the last request of the run, every request before it was
    answered, and the error it met is the outcome of the run: no frame is
    returned from the pages received so far, and the extractor asks
    nothing more. *)
Theorem jira_extraction_failed_request env fuel jira_server email api_token board_id project_key
    out tr r e :
  jira_extraction env fuel jira_server email api_token board_id project_key = (out, tr) ->
  r ∈ tr -> req_result r = Raise e ->
  out = Some (Raise e) /\ exists init, tr = init ++ [r] /\ answered init.
Proof.
  unfold jira_extraction. intros Hrun Hin Hr.
  destruct (resolve_credentials env jira_server email api_token board_id)
    as [[[[server user] token] board]|e0];
    [|injection Hrun as <- <-; by apply elem_of_nil in Hin].
  destruct (JIRA env server user token) as [jira|e0];
    [|injection Hrun as <- <-; by apply elem_of_nil in Hin].
  destruct (sprints jira board "active,closed") as [sprint_list|e0] eqn:Hsprints.
  - destruct (extract_board_trace _ _ _ _ _ _ Hsprints Hrun) as [_ Hstop].
    by apply stopped_by_failed.
  - unfold extract_board in Hrun. rewrite Hsprints in Hrun. injection Hrun as <- <-.
    by apply elem_of_nil in Hin.
Qed.

Lemma jira_extraction_failed_request_witness :
  fst (jira_extraction Scenarios.broken_board 3 None None None None "GA") =
    Some (Raise (JIRAError "503")).
Proof.
  refine (proj1 (jira_extraction_failed_request Scenarios.broken_board 3 None None None None "GA"
                   _ _
                   {| req_jql := sprint_query 7; req_startAt := 100; req_maxResults := 100;
                      req_result := Raise (JIRAError "503"); req_sprint := VStr "Sprint 7" |}
                   (JIRAError "503") (surjective_pairing _) _ eq_refl)).
  apply (list_elem_of_lookup_2 _ 1). vm_compute. reflexivity.
Defined.

(** X3. The requests of a run.  Once the credentials are there, the
    connection is made and the sprints of the board are listed, the
    requests of a run are first requests for the issues of sprints of the
    board, each filed under the name of a sprint with the identifier asked
    for, then requests for the issues without sprint, filed under
    ["No Sprint"]; every one of them asks for a page of a hundred issues at
    an offset that is a multiple of a hundred. *)
Theorem jira_extraction_requests env fuel jira_server email api_token board_id project_key
    server user token board jira sprint_list :
  resolve_credentials env jira_server email api_token board_id = Ok (server, user, token, board) ->
  JIRA env server user token = Ok jira ->
  sprints jira board "active,closed" = Ok sprint_list ->
  exists t1 t2,
    snd (jira_extraction env fuel jira_server email api_token board_id project_key) = t1 ++ t2 /\
    Forall (fun r => page_of_hundred r /\ sprint_request sprint_list r) t1 /\
    Forall (fun r => page_of_hundred r /\ no_sprint_request r) t2.
Proof.
  intros Hcred Hjira Hsprints. unfold jira_extraction. rewrite Hcred, Hjira.
  destruct (extract_board jira board fuel) as [out tr] eqn:Hrun.
  by destruct (extract_board_trace _ _ _ _ _ _ Hsprints Hrun) as [Hreqs _].
Qed.

Lemma jira_extraction_requests_witness :
  exists t1 t2,
    snd (jira_extraction Scenario.board 5 None None None None "GA") = t1 ++ t2 /\
    Forall (fun r => page_of_hundred r /\
                     sprint_request [{| sprint_id := 7; sprint_name := "Sprint 7" |}] r) t1 /\
    Forall (fun r => page_of_hundred r /\ no_sprint_request r) t2.
Proof.
  eapply (jira_extraction_requests Scenario.board 5 None None None None "GA");
    vm_compute; reflexivity.
Defined.

(** ** A server that never sends a short page *)

Lemma page_loop_full_pages fuel jira jql sprint start_at max_results st :
  (forall k, exists issues,
     search_issues jira jql (start_at + max_results * k) max_results = Ok issues /\
     max_results <= List.length issues) ->
  exists st', page_loop fuel jira jql sprint start_at max_results st = (None, st') /\
              List.length (calls st') = List.length (calls st) + fuel.
Proof.
  revert start_at st. induction fuel as [|fuel IH]; intros start_at st Hfull.
  - exists st. split; [reflexivity|lia].
  - cbn [page_loop]. cbv zeta. destruct (Hfull 0) as (issues & Hans & Hlen).
    rewrite Nat.mul_0_r, Nat.add_0_r in Hans. rewrite Hans.
    destruct (Nat.ltb_spec (List.length issues) max_results) as [Hlt|_]; [lia|].
    edestruct (IH (start_at + max_results)) as (st' & -> & Hcalls).
    + intros k. destruct (Hfull (S k)) as (issues' & Hans' & Hlen').
      exists issues'. split; [|done]. rewrite <- Hans'. f_equal. lia.
    + exists st'. split; [reflexivity|]. rewrite Hcalls. cbn [calls].
      rewrite length_app. simpl. lia.
Qed.

Lemma map_set_head k v k0 v0 m : exists v' m', map_set k v ((k0, v0) :: m) = (k0, v') :: m'.
Proof. simpl. destruct (Z.eqb_spec k k0) as [->|_]; by eexists _, _. Qed.

Lemma sprint_map_of_head s rest :
  exists name m, sprint_map_of (s :: rest) = (sprint_id s, name) :: m.
Proof.
  unfold sprint_map_of. cbn [fold_left map_set].
  generalize (sprint_name s) as v0. generalize (@nil (Z * string)) as m0.
  induction rest as [|s' rest IH]; intros m0 v0; [by eexists _, _|].
  cbn [fold_left].
  destruct (map_set_head (sprint_id s') (sprint_name s') (sprint_id s) v0 m0) as (v' & m' & ->).
  apply IH.
Qed.

(** X4. The loop over the pages of a query ends at a page of fewer than a
    hundred issues, and only there: against a server that answers every
    page of the first sprint with a hundred issues or more, the run is
    still asking after any number of requests; it returns nothing, and it
    has made one request for each turn of the loop it was given. *)
Theorem jira_extraction_full_pages env jira_server email api_token board_id project_key
    server user token board jira s rest :
  resolve_credentials env jira_server email api_token board_id = Ok (server, user, token, board) ->
  JIRA env server user token = Ok jira ->
  sprints jira board "active,closed" = Ok (s :: rest) ->
  (forall k, exists issues,
     search_issues jira (sprint_query (sprint_id s)) (100 * k) 100 = Ok issues /\
     100 <= List.length issues) ->
  forall fuel, exists tr,
    jira_extraction env fuel jira_server email api_token board_id project_key = (None, tr) /\
    List.length tr = fuel.
Proof.
  intros Hcred Hjira Hsprints Hfull fuel. unfold jira_extraction, extract_board.
  rewrite Hcred, Hjira, Hsprints.
  destruct (sprint_map_of_head s rest) as (name & m & ->). cbn [sprint_loop].
  edestruct (page_loop_full_pages fuel jira (sprint_query (sprint_id s)) (VStr name) 0 100)
    as (st' & -> & Hcalls); [exact Hfull|].
  exists (calls st'). split; [reflexivity|]. by rewrite Hcalls.
Qed.

Lemma jira_extraction_full_pages_witness :
  exists tr, jira_extraction Scenarios.full_pages 4 None None None None "GA" = (None, tr) /\
             List.length tr = 4.
Proof.
  eapply jira_extraction_full_pages; try reflexivity.
  intros k. exists (replicate 100 Scenario.issue2). split; [reflexivity|].
  by rewrite length_replicate.
Defined.

(** ** The map of the sprints *)

Lemma map_set_keys k v m :
  map fst (map_set k v m) = if bool_decide (k ∈ map fst m) then map fst m else map fst m ++ [k].
Proof.
  induction m as [|[k0 v0] m IH]; [reflexivity|]. cbn [map_set].
  destruct (Z.eqb_spec k k0) as [->|Hne]; cbn [map fst].
  - rewrite bool_decide_eq_true_2 by left. reflexivity.
  - rewrite IH. case_bool_decide as Hin.
    + rewrite bool_decide_eq_true_2 by (by right). reflexivity.
    + rewrite bool_decide_eq_false_2; [reflexivity|].
      by intros [?|?]%elem_of_cons.
Qed.

Lemma map_set_same k v m : (k, v) ∈ map_set k v m.
Proof.
  induction m as [|[k0 v0] m IH]; cbn [map_set]; [left|].
  destruct (Z.eqb_spec k k0); [left|by right].
Qed.

Lemma map_set_other k v m k' v' : k' <> k -> (k', v') ∈ m -> (k', v') ∈ map_set k v m.
Proof.
  intros Hne. induction m as [|[k0 v0] m IH]; [by intros ?%elem_of_nil|]. cbn [map_set].
  destruct (Z.eqb_spec k k0) as [->|_].
  - intros [[= -> ->]|Hin]%elem_of_cons; [done|by right].
  - intros [[= -> ->]|Hin]%elem_of_cons; [left|right; by apply IH].
Qed.

(** X5. The map from sprint identifiers to names built from the sprints of
    the board has each identifier of the list once, and no other; when an
    identifier is listed more than once, the name kept for it is the one
    listed last. *)
Theorem sprint_map_of_last l :
  NoDup (map fst (sprint_map_of l)) /\
  (forall id, id ∈ map fst (sprint_map_of l) <-> id ∈ map sprint_id l) /\
  (forall l1 s l2, l = l1 ++ s :: l2 -> sprint_id s ∉ map sprint_id l2 ->
     (sprint_id s, sprint_name s) ∈ sprint_map_of l).
Proof.
  split; [|split].
  - induction l as [|s l IH] using rev_ind; [constructor|].
    rewrite sprint_map_of_snoc, map_set_keys. case_bool_decide as Hin; [done|].
    apply (proj2 (list.NoDup_app _ [sprint_id s])). split; [done|]. split.
    + by intros x Hx ->%list_elem_of_singleton.
    + apply NoDup_singleton.
  - induction l as [|s l IH] using rev_ind; intros id; [done|].
    rewrite sprint_map_of_snoc, map_set_keys, map_app, elem_of_app. cbn [map].
    rewrite list_elem_of_singleton, <- IH. case_bool_decide as Hin.
    + split; [by left|]. by intros [?| ->].
    + by rewrite elem_of_app, list_elem_of_singleton.
  - intros l1 s l2. revert l. induction l2 as [|x l2 IH] using rev_ind; intros l -> Hlast.
    + rewrite sprint_map_of_snoc. apply map_set_same.
    + change (l1 ++ s :: l2 ++ [x]) with (l1 ++ (s :: l2) ++ [x]).
      rewrite app_assoc, sprint_map_of_snoc. rewrite map_app, elem_of_app in Hlast.
      apply map_set_other.
      * intros Heq. apply Hlast. right. rewrite Heq. left.
      * apply IH; [done|]. intros Hin. apply Hlast. by left.
Qed.

Lemma sprint_map_of_last_witness :
  (7%Z, "Sprint 7 (closed)") ∈ sprint_map_of Scenarios.renamed_sprints.
Proof.
  destruct (sprint_map_of_last Scenarios.renamed_sprints) as (_ & _ & Hlast).
  apply (Hlast [ {| sprint_id := 7; sprint_name := "Sprint 7" |};
                 {| sprint_id := 8; sprint_name := "Sprint 8" |} ]
               {| sprint_id := 7; sprint_name := "Sprint 7 (closed)" |} []);
    [reflexivity|]. by intros ?%elem_of_nil.
Defined.

(** ** The cells of the frame *)

Lemma dict_get_is_Some {V} k (dd : dict V) : is_Some (dict_get k dd) <-> k ∈ dict_keys dd.
Proof.
  induction dd as [|[k0 v0] dd IH]; simpl.
  - split; [by intros [? ?]|by intros ?%elem_of_nil].
  - destruct (String.eqb_spec k k0) as [->|Hne].
    + split; [intros _; left|by eexists].
    + rewrite IH, elem_of_cons. split; [by right|by intros [?|?]].
Qed.

Lemma lookup_map {A B} (f : A -> B) l i : map f l !! i = f <$> l !! i.
Proof. exact (list_lookup_fmap f l i). Qed.

(** [pd.DataFrame(records)] holds under a label, in the row of a record,
    the value of the record for that key, and a null cell where the record
    has no such key, at the type inferred for the column. *)
Lemma frame_cell records n col :
  cell (frame_of_records records) n col =
    if bool_decide (col ∈ frame_labels records)
    then (fun record => infer_objects (objects_of col records)
                          (default VNull (dict_get col record))) <$> records !! n
    else None.
Proof.
  unfold cell, frame_of_records. cbn [columns rows].
  destruct (index_of col (frame_labels records)) as [i|] eqn:Hi.
  - rewrite bool_decide_eq_true_2 by (apply index_of_elem; by eexists).
    cbn [mbind option_bind]. rewrite lookup_map.
    destruct (records !! n) as [record|]; [|reflexivity]. cbn [fmap option_fmap option_map mbind option_bind].
    rewrite lookup_map, (index_of_lookup _ _ _ Hi). reflexivity.
  - rewrite bool_decide_eq_false_2; [reflexivity|].
    intros [j Hj]%index_of_elem. congruence.
Qed.

Lemma page_rows_elem tr row :
  row ∈ flat_map page_rows tr ->
  exists r issue, r ∈ tr /\ issue ∈ issues_of_request r /\
                  row ∈ rows_of_issue (req_sprint r) issue.
Proof.
  intros Hrow. apply list_elem_of_In, in_flat_map in Hrow as [r [Hr Hrow]].
  unfold page_rows in Hrow. apply in_flat_map in Hrow as [issue [Hissue Hrow]].
  exists r, issue. by rewrite !list_elem_of_In.
Qed.

(** The frame of a run holds the rows of its pages, cell by cell. *)
Lemma page_rows_cell tr n col :
  cell (frame_of_records (flat_map page_rows tr)) n col =
    (flat_map page_rows tr !! n) ≫=
      (fun row => infer_objects (objects_of col (flat_map page_rows tr)) <$> dict_get col row).
Proof.
  rewrite frame_cell. destruct (flat_map page_rows tr !! n) as [row|] eqn:Hn;
    [|by case_bool_decide].
  assert (Hkeys : forall row', row' ∈ flat_map page_rows tr -> dict_keys row' = flat_row_columns).
  { intros row' (r & issue & _ & _ & Hrow')%page_rows_elem. by eapply rows_of_issue_keys. }
  rewrite frame_labels_flat; [|by intros Hnil; rewrite Hnil in Hn|exact Hkeys].
  pose proof (Hkeys row (list_elem_of_lookup_2 _ _ _ Hn)) as Hrow.
  cbn [mbind option_bind fmap option_fmap option_map].
  pose proof (dict_get_is_Some col row) as Hsome. rewrite Hrow in Hsome.
  case_bool_decide as Hcol.
  - apply Hsome in Hcol as [v ->]. reflexivity.
  - destruct (dict_get col row) as [v|] eqn:Hget; [|reflexivity].
    destruct Hcol. apply Hsome. by eexists.
Qed.

(** What the inference does to a value: nothing, or an int of a column of
    floats becomes the float of the same number. *)
Lemma infer_objects_cases cells v :
  infer_objects cells v = v \/
  exists n, v = VInt n /\ infer_objects cells v = VFloat n /\ float_column cells = true.
Proof.
  unfold infer_objects. destruct (float_column cells); [|by left].
  destruct v; try (by left). right. by eexists.
Qed.

Lemma objects_of_elem col records v :
  v ∈ objects_of col records <->
  exists row, row ∈ records /\ v = default VNull (dict_get col row).
Proof.
  unfold objects_of. rewrite list_elem_of_fmap. split; intros (row & ? & ?); by exists row.
Qed.

Lemma float_column_spec cells :
  float_column cells = true <->
  (forall v, v ∈ cells -> is_number v = true \/ is_null v = true) /\
  ((exists v, v ∈ cells /\ is_float v = true) \/
   ((exists v, v ∈ cells /\ is_null v = true) /\ (exists v, v ∈ cells /\ is_number v = true))).
Proof.
  unfold float_column.
  rewrite andb_true_iff, orb_true_iff, andb_true_iff, forallb_forall, !existsb_exists.
  setoid_rewrite <- list_elem_of_In. setoid_rewrite orb_true_iff. reflexivity.
Qed.

(** X6. The frame a run returns is the table of the rows of its pages, at
    the types [pd.DataFrame] infers.  Under a label where some row has a
    text, a list or another object, and under a label where no row has a
    null or a float, the cell of a row is the value the row has for that
    key.  Under a label where the rows have ints and nulls and nothing
    else, at least one of each, the ints come out as floats: [5] is
    [5.0] in the frame.  No cell is there for a label the rows do not
    have; every row of the frame has the twenty-seven cells of a row of
    the extractor.  (Ints are taken to be such as a float holds
    exactly.) *)
Theorem extractor_cells env fuel jira_server email api_token board_id project_key df tr :
  jira_extraction env fuel jira_server email api_token board_id project_key = (Some (Ok df), tr) ->
  small_ints (flat_map page_rows tr) ->
  let records := flat_map page_rows tr in
  (forall n col,
     cell df n col =
       (records !! n) ≫= (fun row => infer_objects (objects_of col records) <$> dict_get col row)) /\
  (forall n col row w,
     row ∈ records -> dict_get col row = Some w -> is_number w = false -> is_null w = false ->
     cell df n col = (records !! n) ≫= dict_get col) /\
  (forall n col,
     (forall row w, row ∈ records -> dict_get col row = Some w ->
        is_null w = false /\ is_float w = false) ->
     cell df n col = (records !! n) ≫= dict_get col) /\
  (forall n col row1 row2 k,
     (forall row w, row ∈ records -> dict_get col row = Some w ->
        is_number w = true \/ is_null w = true) ->
     row1 ∈ records -> dict_get col row1 = Some VNull ->
     row2 ∈ records -> dict_get col row2 = Some (VInt k) ->
     cell df n col = (records !! n) ≫= (fun row => as_float <$> dict_get col row)) /\
  (forall cells, cells ∈ rows df -> List.length cells = 27) /\
  (forall n col, is_Some (cell df n col) <->
                 n < row_count (issues_of tr) /\ col ∈ flat_row_columns).
Proof.
  intros Hrun _ records. pose proof (extractor_columns _ _ _ _ _ _ _ _ _ Hrun) as Hcols.
  apply jira_extraction_frame in Hrun as ->. fold records in Hcols |- *.
  assert (Hkeys : forall row row' col w, row ∈ records -> row' ∈ records ->
            dict_get col row = Some w -> exists w', dict_get col row' = Some w').
  { intros row row' col w (r & issue & _ & _ & Hrow%rows_of_issue_keys)%page_rows_elem
      (r' & issue' & _ & _ & Hrow'%rows_of_issue_keys)%page_rows_elem Hw.
    apply dict_get_is_Some. rewrite Hrow', <- Hrow. apply dict_get_is_Some. by eexists. }
  assert (Hcell : forall n col (convert : value -> value),
            (forall v, infer_objects (objects_of col records) v = convert v) ->
            cell (frame_of_records records) n col =
              (records !! n) ≫= (fun row => convert <$> dict_get col row)).
  { intros n col convert Hconv. unfold records. rewrite page_rows_cell. fold records.
    destruct (records !! n) as [row|]; [|reflexivity]. cbn [mbind option_bind].
    destruct (dict_get col row); [|reflexivity]. cbn [fmap option_fmap option_map].
    by rewrite Hconv. }
  assert (Hplain : forall n col, float_column (objects_of col records) = false ->
            cell (frame_of_records records) n col = (records !! n) ≫= dict_get col).
  { intros n col Hno. rewrite (Hcell n col (fun v => v)).
    - destruct (records !! n) as [row|]; [|reflexivity]. cbn [mbind option_bind].
      by destruct (dict_get col row).
    - intros v. unfold infer_objects. by rewrite Hno. }
  split; [|split; [|split; [|split; [|split]]]].
  - intros n col. apply page_rows_cell.
  - intros n col row w Hrow Hw Hnum Hnull. apply Hplain.
    apply not_true_is_false. intros [Hall _]%float_column_spec.
    destruct (Hall w) as [H|H]; [|congruence..].
    apply objects_of_elem. exists row. split; [done|]. by rewrite Hw.
  - intros n col Hnone. apply Hplain.
    apply not_true_is_false. intros [_ Hsome]%float_column_spec.
    destruct Hsome as [(v & (row & Hrow & ->)%objects_of_elem & Hv)
                      |[(v & (row & Hrow & ->)%objects_of_elem & Hv)
                        (v' & (row' & Hrow' & ->)%objects_of_elem & Hv')]].
    + destruct (dict_get col row) as [w|] eqn:Hw; [|discriminate Hv].
      destruct (Hnone row w Hrow Hw) as [_ ?]. simpl in Hv. congruence.
    + destruct (dict_get col row') as [w'|] eqn:Hw'; [|discriminate Hv'].
      destruct (Hkeys row' row col w' Hrow' Hrow Hw') as [w Hw]. rewrite Hw in Hv.
      destruct (Hnone row w Hrow Hw) as [? _]. simpl in Hv. congruence.
  - intros n col row1 row2 k Hall Hrow1 Hnull Hrow2 Hint. apply Hcell.
    intros v. unfold infer_objects.
    rewrite (proj2 (float_column_spec (objects_of col records))); [reflexivity|]. split.
    + intros v' (row & Hrow & ->)%objects_of_elem.
      destruct (dict_get col row) as [w|] eqn:Hw; [by eapply Hall|by right].
    + right. split.
      * exists VNull. split; [|reflexivity]. apply objects_of_elem. exists row1.
        split; [done|]. by rewrite Hnull.
      * exists (VInt k). split; [|reflexivity]. apply objects_of_elem. exists row2.
        split; [done|]. by rewrite Hint.
  - intros cells Hin.
    assert (Hne : rows (frame_of_records records) <> [])
      by (intros Hnil; rewrite Hnil in Hin; by apply elem_of_nil in Hin).
    specialize (Hcols Hne). unfold frame_of_records in Hin, Hcols. cbn [rows columns] in Hin, Hcols.
    apply list_elem_of_fmap in Hin as [record [-> _]]. by rewrite length_map, Hcols.
  - intros n col. unfold records. rewrite page_rows_cell, <- page_rows_length. fold records.
    destruct (records !! n) as [row|] eqn:Hn; cbn [mbind option_bind].
    + destruct (page_rows_elem tr row (list_elem_of_lookup_2 _ _ _ Hn))
        as (r & issue & _ & _ & Hkeys'%rows_of_issue_keys).
      rewrite fmap_is_Some, dict_get_is_Some, Hkeys'. apply lookup_lt_Some in Hn. tauto.
    + apply lookup_ge_None in Hn. split; [by intros [? ?]|]. intros [Hlt _].
      exfalso. apply (Nat.lt_irrefl n). by eapply Nat.lt_le_trans.
Qed.

Lemma extractor_cells_witness :
  exists df tr,
    jira_extraction Scenarios.estimates_board 5 None None None None "GA" = (Some (Ok df), tr) /\
    cell df 0 "Custom Field 10160" = Some (VFloat 5) /\
    cell df 1 "Custom Field 10160" = Some VNull /\
    cell df 0 "Issue Key" = Some (VStr "IW-701").
Proof.
  eexists _, _. split; [vm_compute; reflexivity|].
  destruct (extractor_cells Scenarios.estimates_board 5 None None None None "GA" _ _
              ltac:(vm_compute; reflexivity)) as (Hcell & _).
  - intros row k n Hrow Hget.
    repeat (apply elem_of_cons in Hrow as [->|Hrow];
            [vm_compute in Hget;
             repeat (match type of Hget with
                     | (if ?b then _ else _) = _ => destruct b
                     end; try discriminate Hget);
             try (injection Hget as <-; lia); try discriminate Hget|]).
    by apply elem_of_nil in Hrow.
  - rewrite !Hcell. vm_compute. repeat split.
Defined.

Lemma extractor_cell_row env fuel jira_server email api_token board_id project_key df tr n col v :
  jira_extraction env fuel jira_server email api_token board_id project_key = (Some (Ok df), tr) ->
  cell df n col = Some v ->
  exists r issue row w, r ∈ tr /\ issue ∈ issues_of_request r /\
    row ∈ rows_of_issue (req_sprint r) issue /\ dict_get col row = Some w /\
    (v = w \/ exists k, w = VInt k /\ v = VFloat k).
Proof.
  intros Hrun Hcell. apply jira_extraction_frame in Hrun as ->.
  rewrite page_rows_cell in Hcell.
  destruct (flat_map page_rows tr !! n) as [row|] eqn:Hn; [|discriminate].
  cbn [mbind option_bind] in Hcell.
  destruct (dict_get col row) as [w|] eqn:Hw; [|discriminate]. injection Hcell as <-.
  destruct (page_rows_elem tr row (list_elem_of_lookup_2 _ _ _ Hn)) as (r & issue & ? & ? & ?).
  exists r, issue, row, w. repeat split; try done.
  destruct (infer_objects_cases (objects_of col (flat_map page_rows tr)) w)
    as [->|(k & -> & -> & _)]; [by left|right; by exists k].
Qed.

(** X7. The sprint of a row.  In the frame a run returns for a board, the
    cell of every row under ["Sprint"] is the name of one of the sprints of
    the board or the text ["No Sprint"]. *)
Theorem extractor_sprint_column env fuel jira_server email api_token board_id project_key
    server user token board jira sprint_list df tr :
  resolve_credentials env jira_server email api_token board_id = Ok (server, user, token, board) ->
  JIRA env server user token = Ok jira ->
  sprints jira board "active,closed" = Ok sprint_list ->
  jira_extraction env fuel jira_server email api_token board_id project_key = (Some (Ok df), tr) ->
  forall n v, cell df n "Sprint" = Some v ->
    v = VStr "No Sprint" \/ exists s, s ∈ sprint_list /\ v = VStr (sprint_name s).
Proof.
  intros Hcred Hjira Hsprints Hrun n v Hcell.
  destruct (extractor_cell_row _ _ _ _ _ _ _ _ _ _ _ _ Hrun Hcell)
    as (r & issue & row & w & Hr & _ & Hrow & Hget & Hconv).
  rewrite (row_keeps_issue_info _ _ _ "Sprint" (req_sprint r) Hrow eq_refl) in Hget.
  injection Hget as <-.
  unfold jira_extraction in Hrun. rewrite Hcred, Hjira in Hrun.
  destruct (extract_board_trace _ _ _ _ _ _ Hsprints Hrun) as [(t1 & t2 & -> & H1 & H2) _].
  rewrite Forall_forall in H1, H2.
  apply elem_of_app in Hr as [Hr|Hr]; apply list_elem_of_In in Hr.
  - destruct (H1 r Hr) as [_ (s & Hs & _ & Hname)]. right. exists s. split; [done|].
    rewrite Hname in Hconv. by destruct Hconv as [->|(k & [=] & _)].
  - destruct (H2 r Hr) as [_ [_ Hname]]. left.
    rewrite Hname in Hconv. by destruct Hconv as [->|(k & [=] & _)].
Qed.

Lemma extractor_sprint_column_witness :
  exists df tr,
    jira_extraction Scenario.board 5 None None None None "GA" = (Some (Ok df), tr) /\
    forall n v, cell df n "Sprint" = Some v ->
      v = VStr "No Sprint" \/
      exists s, s ∈ [{| sprint_id := 7; sprint_name := "Sprint 7" |}] /\ v = VStr (sprint_name s).
Proof.
  eexists _, _. split; [vm_compute; reflexivity|].
  eapply (extractor_sprint_column Scenario.board 5 None None None None "GA");
    vm_compute; reflexivity.
Defined.



(** ** When the transformer returns and when it fails *)

Lemma column_cells_lookup i df n v :
  column_cells i df !! n = Some v ->
  exists row, rows df !! n = Some row /\ v = default VNull (row !! i).
Proof.
  unfold column_cells. rewrite lookup_map.
  destruct (rows df !! n) as [row|]; [|discriminate]. intros [= <-]. by exists row.
Qed.

(** A cell [apply] reads from a column is a cell of the frame, or the null
    cell of a row too short to have one, which [reformat_date] returns. *)
Lemma column_cell_cases col i df n v :
  index_of col (columns df) = Some i ->
  column_cells i df !! n = Some v ->
  cell df n col = Some v \/ v = VNull.
Proof.
  intros Hi (row & Hrow & ->)%column_cells_lookup.
  destruct (row !! i) as [v|] eqn:Hv; [left|by right].
  unfold cell. rewrite Hi. cbn [mbind option_bind]. rewrite Hrow. exact Hv.
Qed.

Lemma apply_raise func cells e :
  apply func cells = Raise e -> exists n v, cells !! n = Some v /\ func v = Raise e.
Proof.
  induction cells as [|c cells IH]; [discriminate|]. cbn [apply]. unfold bind.
  destruct (func c) as [c'|e0] eqn:Hc; [|intros [= <-]; by exists 0, c].
  destruct (apply func cells) as [cells'|e1]; [discriminate|].
  intros [= <-]. destruct (IH eq_refl) as (n & v & Hn & Hv). by exists (S n), v.
Qed.

Lemma rewrite_columns_ok cols r :
  NoDup cols ->
  forall h,
    (forall col, col ∈ cols -> has_column col (h r) = true) ->
    (forall col n v, col ∈ cols -> cell (h r) n col = Some v -> exists v', reformat_date v = Ok v') ->
    exists h', rewrite_columns cols r h = (Ok tt, h').
Proof.
  induction 1 as [|col cols Hnotin Hnodup IH]; intros h Hhas Hacc; [by eexists|].
  cbn [rewrite_columns]. cbv zeta.
  destruct (proj1 (has_column_index col (h r)) (Hhas col ltac:(left))) as [i Hi]. rewrite Hi.
  destruct (apply_total reformat_date (column_cells i (h r))) as [cells Hcells].
  { intros v [n Hn]%list_elem_of_lookup_1.
    destruct (column_cell_cases _ _ _ _ _ Hi Hn) as [Hcell| ->].
    - eapply Hacc; [left|exact Hcell].
    - by exists VNull. }
  rewrite Hcells. apply IH.
  - intros col' Hcol'. rewrite fn_insert_same. unfold has_column.
    rewrite set_column_columns. apply Hhas. by right.
  - intros col' n v Hcol'. rewrite fn_insert_same.
    rewrite (cell_set_column_other _ col _ _ _ _ Hcells Hi) by (by intros ->).
    apply Hacc. by right.
Qed.

(** X9. When the transformer returns.  On a frame that has both date
    columns, a call returns exactly when [reformat_date] accepts every cell
    under the two labels; one cell it refuses, in any row, fails the whole
    call. *)
Theorem transform_returns_iff r h :
  (forall col, col ∈ date_columns -> has_column col (h r) = true) ->
  (fst (transform_extracted_data r h) = Ok r <-> dates_accepted (h r)).
Proof.
  intros Hhas. unfold transform_extracted_data.
  rewrite (proj2 (check_columns_ok _ _) Hhas). split.
  - destruct (rewrite_columns date_columns r h) as [[[]|e] h1] eqn:Hrw; [|discriminate].
    intros _ n col v Hcol Hcell.
    destruct (rewrite_columns_cells _ _ _ _ date_columns_NoDup Hrw col n v Hcol Hcell)
      as (v' & Hv' & _).
    by exists v'.
  - intros Hacc.
    destruct (rewrite_columns_ok date_columns r date_columns_NoDup h Hhas) as [h1 ->];
      [|reflexivity].
    intros col n v Hcol Hcell. by eapply Hacc.
Qed.

Lemma transform_returns_iff_witness :
  fst (transform_extracted_data 0 (Frames.store_of Frames.raw)) = Ok 0 <->
  dates_accepted (Frames.store_of Frames.raw 0).
Proof.
  apply transform_returns_iff. intros col Hcol.
  repeat (apply elem_of_cons in Hcol as [->|Hcol]; [vm_compute; reflexivity|]).
  by apply elem_of_nil in Hcol.
Defined.

(** X10. When the transformer fails.  On a frame that has both date
    columns, a call that raises does so with the error [reformat_date]
    raised on a date cell of the frame.  Either that cell is under
    ["Worklog Created"] and the store is as it was, or it is under
    ["Worklog Started"] and the frame is left with every cell under
    ["Worklog Created"] already rewritten.  In both cases the labels, the
    cells under every other label and the frames of all other references
    are as they were. *)
Theorem transform_failure r h e h' :
  (forall col, col ∈ date_columns -> has_column col (h r) = true) ->
  transform_extracted_data r h = (Raise e, h') ->
  (forall r', r' <> r -> h' r' = h r') /\
  columns (h' r) = columns (h r) /\
  (forall n col, col <> "Worklog Created" -> cell (h' r) n col = cell (h r) n col) /\
  ((h' = h /\ exists n v, cell (h r) n "Worklog Created" = Some v /\ reformat_date v = Raise e) \/
   ((forall n v, cell (h r) n "Worklog Created" = Some v ->
       exists v', reformat_date v = Ok v' /\ cell (h' r) n "Worklog Created" = Some v') /\
    exists n v, cell (h r) n "Worklog Started" = Some v /\ reformat_date v = Raise e)).
Proof.
  intros Hhas. unfold transform_extracted_data.
  rewrite (proj2 (check_columns_ok _ _) Hhas).
  unfold date_columns. cbn [rewrite_columns]. cbv zeta.
  destruct (proj1 (has_column_index "Worklog Created" (h r)) (Hhas _ ltac:(left))) as [i1 Hi1].
  destruct (proj1 (has_column_index "Worklog Started" (h r)) (Hhas _ ltac:(right; left)))
    as [i2 Hi2].
  rewrite Hi1.
  assert (Hcell : forall col i df n v, index_of col (columns df) = Some i ->
            column_cells i df !! n = Some v -> reformat_date v = Raise e ->
            cell df n col = Some v).
  { intros col i df n v Hi Hn Hv. destruct (column_cell_cases _ _ _ _ _ Hi Hn) as [?| ->]; [done|].
    discriminate Hv. }
  destruct (apply reformat_date (column_cells i1 (h r))) as [cells1|e1] eqn:Hcells1.
  - rewrite fn_insert_same, set_column_columns, Hi2.
    destruct (apply reformat_date (column_cells i2 (set_column i1 cells1 (h r))))
      as [cells2|e2] eqn:Hcells2; [discriminate|].
    intros [= <- <-]. rewrite fn_insert_same, set_column_columns.
    split; [intros r' Hr'; by apply fn_lookup_insert_ne|]. split; [done|]. split.
    + intros n col Hcol. by apply (cell_set_column_other _ "Worklog Created" _ _ _ _ Hcells1 Hi1).
    + right. split.
      * intros n v Hv. by apply (cell_set_column_same _ _ _ _ _ _ Hcells1 Hi1).
      * destruct (apply_raise _ _ _ Hcells2) as (n & v & Hn & Hv). exists n, v.
        split; [|done].
        rewrite <- (cell_set_column_other _ "Worklog Created" _ _ n "Worklog Started" Hcells1 Hi1)
          by discriminate.
        apply (Hcell _ i2); [by rewrite set_column_columns|done..].
  - intros [= <- <-]. split; [done|]. split; [done|]. split; [done|]. left. split; [done|].
    destruct (apply_raise _ _ _ Hcells1) as (n & v & Hn & Hv). exists n, v.
    split; [|done]. by apply (Hcell _ i1).
Qed.

Lemma transform_failure_witness :
  fst (transform_extracted_data 0 (Frames.store_of Scenarios.bad_started)) =
    Raise (ValueError (TimeDataMismatch "yesterday")) /\
  cell (snd (transform_extracted_data 0 (Frames.store_of Scenarios.bad_started)) 0) 0
    "Worklog Created" = Some (VStr "05/03/2024 14:30:00") /\
  forall n col, col <> "Worklog Created" ->
    cell (snd (transform_extracted_data 0 (Frames.store_of Scenarios.bad_started)) 0) n col =
    cell Scenarios.bad_started n col.
Proof.
  split; [vm_compute; reflexivity|]. split; [vm_compute; reflexivity|].
  eapply (transform_failure 0 (Frames.store_of Scenarios.bad_started)
            (ValueError (TimeDataMismatch "yesterday"))).
  - intros col Hcol.
    repeat (apply elem_of_cons in Hcol as [->|Hcol]; [vm_compute; reflexivity|]).
    by apply elem_of_nil in Hcol.
  - apply surjective_pairing.
Defined.

(** ** The target format is not a source format *)

Lemma regex_match_strftime dt : Strptime.regex_match (Strptime.strftime dt) = None.
Proof.
  unfold Strptime.strftime, Strptime.pad2.
  cbv [String.append Strptime.regex_match Strptime.format_regex Strptime.group Strptime.re_Y
       Strptime.seq Strptime.dig Strptime.cls].
  destruct (Strptime.digit (Strptime.digit_char (Strptime.day dt / 10))); [|reflexivity].
  destruct (Strptime.digit (Strptime.digit_char (Strptime.day dt))); reflexivity.
Qed.

Lemma strftime_not_sentinel dt : String.eqb (Strptime.strftime dt) "N/A" = false.
Proof.
  apply String.eqb_neq. intros Heq. apply (f_equal String.length) in Heq.
  unfold Strptime.strftime, Strptime.pad4, Strptime.pad2 in Heq.
  cbv [String.append String.length] in Heq. discriminate Heq.
Qed.

(** X11. What [reformat_date] returns for a time stamp is no time
    stamp for [reformat_date]: the text ["dd/mm/yyyy HH:MM:SS"] has a
    [/] where the source format has the third digit of the year, so
    [strptime] refuses it.  A date is reformatted once; a second pass
    raises. *)
Theorem reformat_date_twice s v :
  s <> "N/A" ->
  reformat_date (VStr s) = Ok v ->
  exists t, v = VStr t /\ reformat_date (VStr t) = Raise (ValueError (TimeDataMismatch t)).
Proof.
  intros Hs. unfold reformat_date at 1. cbn [isnull_truth bind orb value_eqb].
  apply String.eqb_neq in Hs. rewrite Hs.
  destruct (Strptime.strptime s) as [dt|e]; [|discriminate].
  intros [= <-]. exists (Strptime.strftime dt). split; [reflexivity|].
  unfold reformat_date. cbn [isnull_truth bind orb value_eqb].
  rewrite strftime_not_sentinel. unfold Strptime.strptime.
  by rewrite regex_match_strftime.
Qed.

Lemma reformat_date_twice_witness :
  exists t, VStr "05/03/2024 14:30:00" = VStr t /\
            reformat_date (VStr t) = Raise (ValueError (TimeDataMismatch t)).
Proof.
  apply (reformat_date_twice "2024-03-05T14:30:00.000+0000"); [discriminate|reflexivity].
Defined.

(** X12. The transformer is applied once.  After a call that returned on a
    frame with a time stamp in one of the date cells, a second call on the
    same frame raises: the cell now holds the reformatted text, which
    [reformat_date] refuses. *)
Theorem transform_twice_fails r h r1 h1 n col s :
  transform_extracted_data r h = (Ok r1, h1) ->
  col ∈ date_columns -> cell (h r) n col = Some (VStr s) -> s <> "N/A" ->
  exists e, fst (transform_extracted_data r1 h1) = Raise e /\ not_schema_error e.
Proof.
  unfold transform_extracted_data at 1. intros Hrun Hcol Hcell Hs.
  destruct (check_columns date_columns (h r)) as [[]|e0] eqn:Hcheck; [|discriminate].
  destruct (rewrite_columns date_columns r h) as [[[]|e0] h'] eqn:Hrw; [|discriminate].
  injection Hrun as <- <-.
  destruct (rewrite_columns_cells _ _ _ _ date_columns_NoDup Hrw col n _ Hcol Hcell)
    as (v' & Hv' & Hcell').
  destruct (rewrite_columns_frame _ _ _ _ _ Hrw) as (_ & Hcols & _).
  assert (Hhas : forall c, c ∈ date_columns -> has_column c (h' r) = true).
  { intros c Hc. unfold has_column. rewrite Hcols. by apply (proj1 (check_columns_ok _ _) Hcheck). }
  assert (Hrefused : forall t, reformat_date (VStr t) = Raise (ValueError (TimeDataMismatch t)) ->
            ~ exists v, reformat_date (VStr t) = Ok v)
    by (intros t Ht [v Hv]; congruence).
  unfold transform_extracted_data. rewrite (proj2 (check_columns_ok _ _) Hhas).
  destruct (rewrite_columns date_columns r h') as [[[]|e] h2] eqn:Hrw2.
  - exfalso.
    destruct (rewrite_columns_cells _ _ _ _ date_columns_NoDup Hrw2 col n _ Hcol Hcell')
      as (v2 & Hv2 & _).
    unfold reformat_date in Hv' at 1. cbn [isnull_truth bind orb value_eqb] in Hv'.
    apply String.eqb_neq in Hs. rewrite Hs in Hv'.
    destruct (Strptime.strptime s) as [dt|e]; [|discriminate]. injection Hv' as <-.
    unfold reformat_date in Hv2. cbn [isnull_truth bind orb value_eqb] in Hv2.
    rewrite strftime_not_sentinel in Hv2. unfold Strptime.strptime in Hv2.
    rewrite regex_match_strftime in Hv2. discriminate Hv2.
  - exists e. split; [reflexivity|]. by eapply rewrite_columns_raise.
Qed.

Lemma transform_twice_fails_witness :
  exists e,
    fst (transform_extracted_data 0 (snd (transform_extracted_data 0 (Frames.store_of Frames.raw))))
      = Raise e /\ not_schema_error e.
Proof.
  eapply (transform_twice_fails 0 (Frames.store_of Frames.raw) 0 _ 0 "Worklog Created"
            "2024-03-05T14:30:00.000000+0000").
  - apply surjective_pairing.
  - left.
  - vm_compute. reflexivity.
  - discriminate.
Defined.

(** ** The loader where the directory or the name is out of the ordinary *)

Lemma load_extraction_read {W} (os : Os W) py_repr df output_path output_name w w' :
  OsLaws os ->
  is_file_name output_name = true ->
  load_extraction os py_repr df output_path output_name w = (Ok tt, w') ->
  path_isdir os output_path w' = true /\
  read_file os (path_join output_path output_name) w' = Some (to_csv_text py_repr false df).
Proof.
  intros Hlaws Hname Hrun. unfold load_extraction, to_csv in Hrun.
  destruct (path_exists os output_path w) eqn:Hex; cbn [negb] in Hrun.
  - split; [|by eapply (write_read _ Hlaws)].
    rewrite (write_isdir _ Hlaws _ _ _ _ output_path Hrun).
    eapply (write_parent _ Hlaws); [exact Hrun| |exact Hname].
    intros ->. by rewrite (exists_empty _ Hlaws) in Hex.
  - destruct (makedirs os output_path true w) as [[[]|e] w1] eqn:Hmk; [|discriminate].
    split; [|by eapply (write_read _ Hlaws)].
    rewrite (write_isdir _ Hlaws _ _ _ _ output_path Hrun).
    by eapply (makedirs_isdir _ Hlaws).
Qed.

(** X13. A file where the directory should be.  When the output path
    exists and is not a directory, the loader does not call [makedirs]: it
    goes on to write the file below that path, and on a system that keeps
    the laws the call raises. *)
Theorem load_extraction_not_a_directory {W} (os : Os W) py_repr df output_path output_name w :
  OsLaws os ->
  is_file_name output_name = true ->
  path_exists os output_path w = true ->
  path_isdir os output_path w = false ->
  load_extraction os py_repr df output_path output_name w =
    to_csv os py_repr df (path_join output_path output_name) false w /\
  exists e, fst (load_extraction os py_repr df output_path output_name w) = Raise e.
Proof.
  intros Hlaws Hname Hex Hdir.
  assert (Hstep : load_extraction os py_repr df output_path output_name w =
                  to_csv os py_repr df (path_join output_path output_name) false w)
    by (unfold load_extraction; by rewrite Hex).
  split; [exact Hstep|].
  destruct (load_extraction os py_repr df output_path output_name w) as [[[]|e] w'] eqn:Hrun;
    [|by exists e].
  destruct (load_extraction_read _ _ _ _ _ _ _ Hlaws Hname Hrun) as [Hdir' _].
  symmetry in Hstep. unfold to_csv in Hstep.
  rewrite (write_isdir _ Hlaws _ _ _ _ output_path Hstep) in Hdir'. congruence.
Qed.

Lemma load_extraction_not_a_directory_witness :
  exists e,
    fst (load_extraction SimpleFs.simple_os SimpleFs.plain_repr Frames.raw "data" "out.csv"
           {| SimpleFs.dirs := []; SimpleFs.files := [(["data"], "text")] |}) = Raise e.
Proof.
  eapply (load_extraction_not_a_directory SimpleFs.simple_os);
    [apply simple_os_laws|reflexivity..].
Defined.

(** X14. An output name that starts with [/].  [os.path.join] then drops
    the output path: the directory is still looked for and created, but a
    call that returns has written the file at the output name itself. *)
Theorem load_extraction_absolute_name {W} (os : Os W) py_repr df output_path output_name w w' :
  OsLaws os ->
  starts_with_slash output_name = true ->
  load_extraction os py_repr df output_path output_name w = (Ok tt, w') ->
  read_file os output_name w' = Some (to_csv_text py_repr false df) /\
  (path_exists os output_path w = false -> exists w1,
     makedirs os output_path true w = (Ok tt, w1) /\
     write_file os output_name (to_csv_text py_repr false df) w1 = (Ok tt, w')).
Proof.
  intros Hlaws Hname. unfold load_extraction, to_csv, path_join. rewrite Hname.
  destruct (path_exists os output_path w); cbn [negb].
  - intros Hrun. split; [by eapply (write_read _ Hlaws)|discriminate].
  - destruct (makedirs os output_path true w) as [[[]|e] w1]; [|discriminate].
    intros Hrun. split; [by eapply (write_read _ Hlaws)|]. intros _. by exists w1.
Qed.

Lemma load_extraction_absolute_name_witness :
  exists w',
    load_extraction SimpleFs.simple_os SimpleFs.plain_repr Frames.raw "out" "/report.csv"
      SimpleFs.empty = (Ok tt, w') /\
    SimpleFs.fs_read "/report.csv" w' = Some (to_csv_text SimpleFs.plain_repr false Frames.raw) /\
    SimpleFs.fs_read "out/report.csv" w' = None.
Proof.
  eexists. split; [vm_compute; reflexivity|]. split; [|vm_compute; reflexivity].
  eapply (load_extraction_absolute_name SimpleFs.simple_os SimpleFs.plain_repr Frames.raw
            "out" "/report.csv" SimpleFs.empty);
    [apply simple_os_laws|reflexivity|vm_compute; reflexivity].
Defined.

(** ** The pipeline *)

Lemma jira_extraction_answered env fuel jira_server email api_token board_id project_key df tr :
  jira_extraction env fuel jira_server email api_token board_id project_key = (Some (Ok df), tr) ->
  answered tr.
Proof.
  unfold jira_extraction. intros Hrun.
  destruct (resolve_credentials env jira_server email api_token board_id)
    as [[[[server user] token] board]|e]; [|discriminate].
  destruct (JIRA env server user token) as [jira|e]; [|discriminate].
  destruct (sprints jira board "active,closed") as [sprint_list|e] eqn:Hsprints.
  - destruct (extract_board_trace _ _ _ _ _ _ Hsprints Hrun)
      as [_ [?|(? & ? & ? & _ & _ & _ & [=])]]. done.
  - unfold extract_board in Hrun. rewrite Hsprints in Hrun. discriminate.
Qed.

Lemma frame_of_no_records : frame_of_records [] = {| columns := []; rows := [] |}.
Proof. reflexivity. Qed.

(** X15. A board without issues.  When the server has no issue for any of
    the queries, the extractor returns a frame without rows and without
    labels; the transformer then finds no ["Worklog Created"] column, and
    the pipeline ends with that error before the loader is called,
    whatever the operations of the system do: the output directory is not
    created and the output file is not written or replaced. *)
Theorem main_empty_extraction {W} (os : Os W) py_repr env fuel fresh h w df tr :
  jira_extraction env fuel None None None None "Gestão de Atividades" = (Some (Ok df), tr) ->
  issues_of tr = [] ->
  df = {| columns := []; rows := [] |} /\
  exists h' w',
    main os py_repr env fuel fresh h w =
      (Some (Raise (ValueError (ColumnNotFound "Worklog Created"))), h', w', tr) /\
    h' fresh = df /\
    path_exists os "data/processed/" w' = path_exists os "data/processed/" w /\
    path_isdir os "data/processed/" w' = path_isdir os "data/processed/" w /\
    read_file os "data/processed/extraction_jira.csv" w' =
      read_file os "data/processed/extraction_jira.csv" w.
Proof.
  intros Hrun Hnone. pose proof (jira_extraction_frame _ _ _ _ _ _ _ _ _ Hrun) as Hdf.
  assert (Hrecords : flat_map page_rows tr = []).
  { apply length_zero_iff_nil. by rewrite page_rows_length, Hnone. }
  rewrite Hrecords, frame_of_no_records in Hdf. split; [exact Hdf|].
  exists (<[fresh := df]> h), w. split; [|by rewrite fn_insert_same].
  unfold main. rewrite Hrun. cbv zeta. unfold transform_extracted_data.
  rewrite fn_insert_same, Hdf. reflexivity.
Qed.

Lemma main_empty_extraction_witness :
  exists h' w',
    main SimpleFs.simple_os SimpleFs.plain_repr Scenarios.idle_board 5 0
      (Frames.store_of Frames.raw) SimpleFs.empty =
      (Some (Raise (ValueError (ColumnNotFound "Worklog Created"))), h', w',
       snd (jira_extraction Scenarios.idle_board 5 None None None None "Gestão de Atividades")) /\
    SimpleFs.fs_isdir "data/processed/" w' = false.
Proof.
  destruct (main_empty_extraction SimpleFs.simple_os SimpleFs.plain_repr
              Scenarios.idle_board 5 0 (Frames.store_of Frames.raw) SimpleFs.empty _ _
              (surjective_pairing _)) as (_ & h' & w' & Hmain & _ & _ & Hdir & _).
  - vm_compute. reflexivity.
  - exists h', w'. split; [exact Hmain|]. exact Hdir.
Defined.

Lemma flat_row_columns_NoDup : NoDup flat_row_columns.
Proof. apply (bool_decide_unpack _). vm_compute. reflexivity. Qed.

Lemma has_column_rows records col :
  has_column col (frame_of_records records) = true -> rows (frame_of_records records) <> [].
Proof.
  destruct records as [|record records]; [|discriminate].
  rewrite frame_of_no_records. unfold has_column. cbn [columns].
  intros Hin%bool_decide_eq_true. by apply elem_of_nil in Hin.
Qed.

(** X16. The pipeline from end to end.  On a system that keeps the laws of
    [OsLaws], a run of [main] that returns got an answer to every request
    and leaves, in the directory [data/processed/], the file
    [extraction_jira.csv].  Its first line is the comma-joined list of the
    labels of a row of the extractor; read back as comma-separated text it
    gives those labels and then one record for each row of the frame, at
    least one and as many as the sum of [max 1 n] over the issues
    received, each holding the texts of the cells of the row: a text as it
    is, an int in decimal, a float with its [.0], a null as the empty
    field.  The cells of the frame under the two date labels are what
    [reformat_date] made of the cells extracted, and all its other cells
    are the cells extracted.  (Ints are taken to be such as a float
    holds exactly.) *)
Theorem main_returns {W} (os : Os W) py_repr env fuel fresh h w h' w' tr :
  OsLaws os ->
  main os py_repr env fuel fresh h w = (Some (Ok tt), h', w', tr) ->
  small_ints (flat_map page_rows tr) ->
  exists df text,
    jira_extraction env fuel None None None None "Gestão de Atividades" = (Some (Ok df), tr) /\
    answered tr /\
    columns (h' fresh) = flat_row_columns /\
    List.length (rows (h' fresh)) = row_count (issues_of tr) /\
    1 <= row_count (issues_of tr) /\
    (forall n col, col ∉ date_columns -> cell (h' fresh) n col = cell df n col) /\
    (forall n col v, col ∈ date_columns -> cell df n col = Some v ->
       exists v', reformat_date v = Ok v' /\ cell (h' fresh) n col = Some v') /\
    (forall r, r <> fresh -> h' r = h r) /\
    path_isdir os "data/processed/" w' = true /\
    read_file os "data/processed/extraction_jira.csv" w' = Some text /\
    text = to_csv_text py_repr false (h' fresh) /\
    (exists body, text = flat_row_header +:+ body) /\
    CsvReader.read_csv text =
      flat_row_columns :: map (map (cell_text py_repr)) (rows (h' fresh)) /\
    (forall n i v, cell (h' fresh) n (default EmptyString (flat_row_columns !! i)) = Some v ->
       i < 27 ->
       CsvReader.read_csv text !! S n ≫= (fun record => record !! i) =
         Some (cell_text py_repr v)) /\
    (forall s n z,
       cell_text py_repr (VStr s) = s /\ cell_text py_repr (VInt n) = pretty n /\
       ((- 2 ^ 53 <= z <= 2 ^ 53)%Z -> cell_text py_repr (VFloat z) = pretty z +:+ ".0") /\
       cell_text py_repr VNull = EmptyString).
Proof.
  intros Hlaws. unfold main. cbv zeta.
  destruct (jira_extraction env fuel None None None None "Gestão de Atividades")
    as [[[df|e]|] tr0] eqn:Hrun; [|discriminate..].
  unfold transform_extracted_data.
  destruct (check_columns date_columns (<[fresh := df]> h fresh)) as [[]|e] eqn:Hcheck;
    [|discriminate].
  destruct (rewrite_columns date_columns fresh (<[fresh := df]> h)) as [[[]|e] h2] eqn:Hrw;
    [|discriminate].
  destruct (load_extraction os py_repr (h2 fresh) "data/processed/" "extraction_jira.csv" w)
    as [[[]|e] w2] eqn:Hload; [|discriminate].
  intros [= <- <- <-] _. exists df, (to_csv_text py_repr false (h2 fresh)).
  split; [reflexivity|].
  split; [by eapply jira_extraction_answered|].
  destruct (rewrite_columns_frame _ _ _ _ _ Hrw) as (Hother & Hcols & Hlen & Hcells).
  rewrite fn_insert_same in Hcols, Hlen, Hcells, Hcheck.
  pose proof (jira_extraction_frame _ _ _ _ _ _ _ _ _ Hrun) as Hdf.
  assert (Hrows : rows df <> []).
  { rewrite Hdf. apply (has_column_rows _ "Worklog Created"). rewrite <- Hdf.
    apply (proj1 (check_columns_ok _ _) Hcheck). left. }
  assert (Hcount : List.length (rows df) = row_count (issues_of tr0))
    by (by rewrite Hdf, frame_of_records_length, page_rows_length).
  assert (Hlabels : columns (h2 fresh) = flat_row_columns)
    by (rewrite Hcols; by eapply extractor_columns).
  assert (Hread : CsvReader.read_csv (to_csv_text py_repr false (h2 fresh)) =
                  flat_row_columns :: map (map (cell_text py_repr)) (rows (h2 fresh))).
  { unfold to_csv_text. by rewrite csv_records_no_index, read_records, Hlabels. }
  split; [exact Hlabels|].
  split; [by rewrite Hlen|].
  split. { rewrite <- Hcount. destruct (rows df); [done|simpl; lia]. }
  split; [exact Hcells|].
  split.
  { intros n col v Hcol Hcell.
    eapply (rewrite_columns_cells _ _ _ _ date_columns_NoDup Hrw); [exact Hcol|].
    by rewrite fn_insert_same. }
  split. { intros r Hr. rewrite (Hother r Hr). by apply fn_lookup_insert_ne. }
  destruct (load_extraction_read os py_repr (h2 fresh) "data/processed/" "extraction_jira.csv"
              w w2 Hlaws eq_refl Hload) as [Hdir Hfile].
  split; [exact Hdir|]. split; [exact Hfile|]. split; [reflexivity|].
  split.
  { unfold to_csv_text. rewrite csv_records_no_index, Hlabels. cbn [map fold_right].
    by eexists. }
  split; [exact Hread|]. split; [|by repeat split].
  intros n i v Hcell Hi. rewrite Hread.
  change ((flat_row_columns :: map (map (cell_text py_repr)) (rows (h2 fresh))) !! S n)
    with (map (map (cell_text py_repr)) (rows (h2 fresh)) !! n).
  rewrite lookup_map.
  destruct (lookup_lt_is_Some_2 flat_row_columns i Hi) as [col Hcol].
  rewrite Hcol in Hcell. cbn [default] in Hcell.
  destruct (cell_row_lookup _ _ _ _ Hcell) as (i' & row & Hi' & Hrow & Hv).
  rewrite Hlabels in Hi'. apply index_of_lookup in Hi'.
  assert (i' = i) as ->.
  { eapply NoDup_lookup; [|exact Hi'|exact Hcol]. apply flat_row_columns_NoDup. }
  rewrite Hrow. cbn [fmap option_fmap option_map mbind option_bind].
  by rewrite lookup_map, Hv.
Qed.

Lemma main_returns_witness :
  exists h' w' tr,
    main SimpleFs.simple_os SimpleFs.plain_repr Scenarios.estimates_board 5 0
      (Frames.store_of Frames.raw) SimpleFs.empty = (Some (Ok tt), h', w', tr) /\
    SimpleFs.fs_read "data/processed/extraction_jira.csv" w' = Some Scenarios.estimates_csv.
Proof.
  eexists _, _, _. split; [vm_compute; reflexivity|].
  destruct (main_returns SimpleFs.simple_os SimpleFs.plain_repr Scenarios.estimates_board 5 0
              (Frames.store_of Frames.raw) SimpleFs.empty _ _ _
              simple_os_laws ltac:(vm_compute; reflexivity))
    as (df & text & _ & _ & _ & _ & _ & _ & _ & _ & _ & Hread & Htext & _).
  - intros row k n Hrow Hget.
    repeat (apply elem_of_cons in Hrow as [->|Hrow];
            [vm_compute in Hget;
             repeat (match type of Hget with
                     | (if ?b then _ else _) = _ => destruct b
                     end; try discriminate Hget);
             try (injection Hget as <-; lia); try discriminate Hget|]).
    by apply elem_of_nil in Hrow.
  - etransitivity; [exact Hread|]. rewrite Htext. vm_compute. reflexivity.
Defined.

(** ** The decorators *)

Section DecoratorLaws.

Import Decorators.

Context (exn_text : exn -> string) {T : Type} (time_at : nat -> T)
        (elapsed_text : T -> T -> string).

Lemma error_records_app message l1 l2 :
  error_records message (l1 ++ l2) = error_records message l1 + error_records message l2.
Proof.
  induction l1 as [|[[] text] l1 IH]; simpl; [reflexivity|exact IH|].
  rewrite IH. lia.
Qed.

Lemma replicate_snoc {A} n (x : A) : replicate n x ++ [x] = x :: replicate n x.
Proof. induction n as [|n IH]; [reflexivity|]. simpl. by rewrite IH. Qed.

(** X17. A function under [log_decorator] and [time_decorator], in any
    number and order: what it returns or raises is what the function
    itself returns or raises where the layers start it.  An exception
    goes through every layer unchanged and each layer logs it once, so
    under the two decorators of [utils.py] the same error is logged
    twice; a call that returns adds no error record, and the clock has
    been read once more for every [time_decorator]. *)
Theorem decorate_outcome {A} layers name (func : Runtime -> result A * Runtime) rt :
  let inner := func (entered layers name rt) in
  let outer := decorate exn_text time_at elapsed_text layers name func rt in
  fst outer = fst inner /\
  (forall e, fst inner = Raise e ->
     log (snd outer) =
       log (snd inner) ++ replicate (List.length layers) (ERROR, "Erro: " +:+ exn_text e) /\
     clock_reads (snd outer) = clock_reads (snd inner)) /\
  (forall res, fst inner = Ok res ->
     (forall message, error_records message (log (snd outer)) =
                      error_records message (log (snd inner))) /\
     clock_reads (snd outer) = clock_reads (snd inner) + timed_layers layers).
Proof.
  cbv zeta. revert rt. induction layers as [|l layers IH]; intros rt.
  - cbn [decorate fold_right entered fold_left List.length replicate timed_layers].
    split; [reflexivity|].
    split; [intros e He; split; [by rewrite app_nil_r|done]|intros res Hres; split; [done|lia]].
  - cbn [entered fold_left]. fold (entered layers name (enter name rt l)).
    change (decorate exn_text time_at elapsed_text (l :: layers) name func rt)
      with (wrap exn_text time_at elapsed_text l name
              (decorate exn_text time_at elapsed_text layers name func) rt).
    specialize (IH (enter name rt l)). destruct IH as (Hout & Hraise & Hok).
    assert (Hstart : match l with
                     | Timed => snd (time_time time_at rt)
                     | Logged => logger INFO ("Executando a função " +:+ name +:+ ".") rt
                     end = enter name rt l) by (by destruct l).
    assert (Hwrap : wrap exn_text time_at elapsed_text l name
                      (decorate exn_text time_at elapsed_text layers name func) rt =
                    match decorate exn_text time_at elapsed_text layers name func (enter name rt l) with
                    | (Ok res, rt2) =>
                      (Ok res,
                       match l with
                       | Timed =>
                         logger INFO ("A função " +:+ name +:+ " levou " +:+
                                      elapsed_text (time_at (clock_reads rt))
                                                   (time_at (clock_reads rt2)) +:+
                                      " segundos para finalizar.")
                           {| log := log rt2; clock_reads := S (clock_reads rt2) |}
                       | Logged =>
                         logger INFO ("Execução da função " +:+ name +:+ " finalizada.") rt2
                       end)
                    | (Raise e, rt2) => (Raise e, logger ERROR ("Erro: " +:+ exn_text e) rt2)
                    end).
    { destruct l; cbn [wrap enter]; unfold time_decorator, log_decorator, time_time;
        by destruct (decorate exn_text time_at elapsed_text layers name func _) as [[res|e] rt2]. }
    rewrite Hwrap. clear Hwrap Hstart.
    destruct (decorate exn_text time_at elapsed_text layers name func (enter name rt l))
      as [[res|e] rt2]; cbn [fst snd] in *.
    + split; [exact Hout|]. split; [intros e He; rewrite He in Hout; discriminate Hout|].
      intros res' Hres. destruct (Hok res' Hres) as [Herr Hclock]. split.
      * intros message. rewrite <- Herr.
        destruct l; cbn [logger log]; rewrite error_records_app; simpl; lia.
      * destruct l; cbn [logger clock_reads timed_layers]; lia.
    + split; [exact Hout|]. split; [|intros res Hres; rewrite Hres in Hout; discriminate Hout].
      intros e' He'. assert (e' = e) as -> by congruence.
      destruct (Hraise e He') as [Hlog Hclock]. split; [|exact Hclock].
      cbn [logger log List.length]. rewrite Hlog, <- app_assoc, replicate_snoc. reflexivity.
Qed.

End DecoratorLaws.

Lemma decorate_outcome_witness :
  Decorators.log
    (snd (Decorators.decorate (fun _ => "boom") (fun n => n) (fun _ _ => "0.00")
            [Decorators.Timed; Decorators.Logged] "load_extraction"
            (fun rt => (@Raise unit (OSError "boom"), rt))
            {| Decorators.log := []; Decorators.clock_reads := 0 |})) =
  [(Decorators.INFO, "Executando a função load_extraction.");
   (Decorators.ERROR, "Erro: boom"); (Decorators.ERROR, "Erro: boom")].
Proof.
  destruct (decorate_outcome (fun _ => "boom") (fun n => n) (fun _ _ => "0.00")
              [Decorators.Timed; Decorators.Logged] "load_extraction"
              (fun rt => (@Raise unit (OSError "boom"), rt))
              {| Decorators.log := []; Decorators.clock_reads := 0 |}) as (_ & Hraise & _).
  destruct (Hraise (OSError "boom") eq_refl) as [Hlog _]. exact Hlog.
Defined.
